(** * The Confluence client: PDF export poller and page update

    A shallow embedding of two methods of [atlassian/confluence.py],
    [get_pdf_download_url_for_confluence_cloud] and [update_page] (with
    [is_page_content_is_already_updated] and the helpers they call), and
    the properties of them that the specification states.

    Python text is a list of Unicode code points, a [bytes] value a list of
    bytes.  The HTTP collaborator ([self.get], [self.put] of the REST
    client) is a parameter of the model; the logger and the clock are
    recorded in a trace of events. *)

From Stdlib Require Import List NArith ZArith Lia Bool.
From Stdlib Require Import Strings.String Strings.Ascii Strings.Byte.
Import ListNotations.

Set Implicit Arguments.

(** ** Python text *)

Module PyStr.

(** A [str] is a sequence of code points. *)
Definition char := N.
Definition str := list char.
Definition bytes := list byte.

(** A literal taken from the source.  The double quote is written as
    the code point [dq]. *)
Definition lit (s : string) : str := map Byte.to_N (list_byte_of_string s).
Definition dq : char := 34%N.

(** [a == b] on text. *)
Fixpoint eqb (a b : str) : bool :=
  match a, b with
  | [], [] => true
  | x :: a', y :: b' => N.eqb x y && eqb a' b'
  | _, _ => false
  end.

(** [s.startswith(p)]. *)
Fixpoint startswith (p s : str) : bool :=
  match p, s with
  | [], _ => true
  | x :: p', y :: s' => N.eqb x y && startswith p' s'
  | _ :: _, [] => false
  end.

(** [s.partition(sep)] for a separator that occurs: the text before the
    leftmost occurrence of [sep] and the text after it; [None] when
    [sep] does not occur. *)
Fixpoint partition (sep s : str) : option (str * str) :=
  if startswith sep s then Some ([], skipn (List.length sep) s)
  else match s with
       | [] => None
       | c :: s' =>
           match partition sep s' with
           | Some (a, b) => Some (c :: a, b)
           | None => None
           end
       end.

(** [s.split(sep)] for a non-empty [sep]: cut at the leftmost
    occurrence, then split what follows.  Every cut consumes at least
    one code point, so [length s] rounds are enough ([split_unfold]
    below).  Python raises [ValueError] on an empty separator; every
    separator in the source is a non-empty literal. *)
Fixpoint split_from (rounds : nat) (sep s : str) : list str :=
  match rounds with
  | O => [s]
  | S n =>
      match partition sep s with
      | None => [s]
      | Some (a, b) => a :: split_from n sep b
      end
  end.

Definition split (sep s : str) : list str := split_from (List.length s) sep s.

(** [c.isspace()], the code points [str.strip()] removes. *)
Definition isspace (c : char) : bool :=
  ((9 <=? c) && (c <=? 13) || (28 <=? c) && (c <=? 32)
   || (c =? 133) || (c =? 160) || (c =? 5760)
   || (8192 <=? c) && (c <=? 8202)
   || (c =? 8232) || (c =? 8233) || (c =? 8239) || (c =? 8287)
   || (c =? 12288))%N.

Fixpoint lstrip (s : str) : str :=
  match s with
  | c :: s' => if isspace c then lstrip s' else s
  | [] => []
  end.

Definition rstrip (s : str) : str := rev (lstrip (rev s)).

(** [s.strip()]. *)
Definition strip (s : str) : str := rstrip (lstrip s).

(** [s in t]: [s] occurs in [t]. *)
Definition occurs (s t : str) : Prop := exists pre post, t = pre ++ s ++ post.

(** *** Strict UTF-8 decoding

    [bs.decode(encoding='utf-8', errors='strict')]: [None] stands for
    the [UnicodeDecodeError] that Python raises on an invalid, overlong,
    surrogate or truncated sequence. *)

Definition continuation (n : N) : bool := ((128 <=? n) && (n <=? 191))%N.
Definition low6 (n : N) : N := N.land n 63.

Definition second_of_three (n0 n1 : N) : bool :=
  (if n0 =? 224 then (160 <=? n1) && (n1 <=? 191)
   else if n0 =? 237 then (128 <=? n1) && (n1 <=? 159)
   else continuation n1)%N.

Definition second_of_four (n0 n1 : N) : bool :=
  (if n0 =? 240 then (144 <=? n1) && (n1 <=? 191)
   else if n0 =? 244 then (128 <=? n1) && (n1 <=? 143)
   else continuation n1)%N.

Fixpoint decode (bs : bytes) : option str :=
  match bs with
  | [] => Some []
  | b0 :: r0 =>
      let n0 := Byte.to_N b0 in
      if (n0 <? 128)%N then option_map (cons n0) (decode r0)
      else if ((194 <=? n0) && (n0 <=? 223))%N then
        match r0 with
        | b1 :: r1 =>
            let n1 := Byte.to_N b1 in
            if continuation n1
            then option_map
                   (cons (N.lor (N.shiftl (N.land n0 31) 6) (low6 n1)))
                   (decode r1)
            else None
        | _ => None
        end
      else if ((224 <=? n0) && (n0 <=? 239))%N then
        match r0 with
        | b1 :: b2 :: r2 =>
            let n1 := Byte.to_N b1 in
            let n2 := Byte.to_N b2 in
            if second_of_three n0 n1 && continuation n2
            then option_map
                   (cons (N.lor (N.shiftl (N.land n0 15) 12)
                            (N.lor (N.shiftl (low6 n1) 6) (low6 n2))))
                   (decode r2)
            else None
        | _ => None
        end
      else if ((240 <=? n0) && (n0 <=? 244))%N then
        match r0 with
        | b1 :: b2 :: b3 :: r3 =>
            let n1 := Byte.to_N b1 in
            let n2 := Byte.to_N b2 in
            let n3 := Byte.to_N b3 in
            if second_of_four n0 n1 && continuation n2 && continuation n3
            then option_map
                   (cons (N.lor (N.shiftl (N.land n0 7) 18)
                            (N.lor (N.shiftl (low6 n1) 12)
                               (N.lor (N.shiftl (low6 n2) 6) (low6 n3)))))
                   (decode r3)
            else None
        | _ => None
        end
      else None
  end.

(** The bytes of an ASCII literal, for writing responses down. *)
Definition ascii_bytes (s : string) : bytes := list_byte_of_string s.

End PyStr.

Import PyStr.

(** ** Python values, exceptions and effects *)

(** The values a parsed JSON body is made of ([None] included); a [dict]
    keeps its items in insertion order. *)
#[warnings="-register-all"]
Inductive value :=
| VNone
| VBool (b : bool)
| VInt (z : Z)
| VStr (s : str)
| VList (items : list value)
| VDict (items : list (str * value)).

(** The exceptions of the modelled code.  [HTTPError] is what the
    transport raises; the others come from Python's own operations. *)
Inductive exn :=
| IndexError
| UnicodeDecodeError
| AttributeError
| TypeError
| KeyError
| ValueError
| HTTPError (msg : str).

(** How a call ends: it returns, it raises, or (for the polling loop,
    which has no bound of its own) it is still running after the number
    of rounds it was given. *)
Inductive outcome (A : Type) :=
| Ret (a : A)
| Raise (e : exn)
| Running.

Arguments Raise {A} e.
Arguments Running {A}.

Inductive level := DEBUG | INFO | WARNING | ERROR.

(** What is handed to the logger: a text, a format template with its
    arguments, or an exception. *)
Inductive message :=
| Text (s : str)
| Format (template : str) (args : list (str * value))
| Exc (e : exn).

(** The three ways the code calls the REST client. *)
Inductive request :=
| GetContent (path : str)
    (* self.get(path, headers=self.form_token_headers, not_json_response=True) *)
| GetJson (path : str) (params : list (str * value))
    (* self.get(path, params=params) *)
| PutJson (path : str) (data : value).
    (* self.put(path, data=data) *)

Inductive event :=
| Sent (r : request)
| Logged (lvl : level) (msg : message)
| Slept (seconds : Z).

Inductive reply (A : Type) :=
| Received (a : A)
| Failed (e : exn).

Arguments Failed {A} e.

(** The REST client is not part of the modelled file: it is a parameter.
    The answer to a request may depend on the request and on how many
    requests this call has sent before it. *)
Record transport := {
  content_of : nat -> str -> reply bytes;
  json_of : nat -> str -> list (str * value) -> reply value;
  put_of : nat -> str -> value -> reply value
}.

(** The state threaded through a call: how many requests were sent, and
    everything observable that happened, oldest first. *)
Record world := {
  sent : nat;
  trace : list event
}.

Definition M (A : Type) : Type := world -> outcome A * world.

Definition ret {A} (a : A) : M A := fun w => (Ret a, w).
Definition raise {A} (e : exn) : M A := fun w => (Raise e, w).
Definition running {A} : M A := fun w => (Running, w).

Definition bind {A B} (m : M A) (k : A -> M B) : M B :=
  fun w =>
    match m w with
    | (Ret a, w') => k a w'
    | (Raise e, w') => (Raise e, w')
    | (Running, w') => (Running, w')
    end.

Notation "x <- m ;; k" := (bind m (fun x => k))
  (at level 61, m at next level, right associativity).
Notation "m ;; k" := (bind m (fun _ => k))
  (at level 61, right associativity).

(** [try: m except ...: handler]. *)
Definition try_except {A} (m : M A) (handler : exn -> option (M A)) : M A :=
  fun w =>
    match m w with
    | (Raise e, w') =>
        match handler e with
        | Some h => h w'
        | None => (Raise e, w')
        end
    | r => r
    end.

Definition emit (e : event) : M unit :=
  fun w => (Ret tt, {| sent := sent w; trace := trace w ++ [e] |}).

Definition log (lvl : level) (msg : message) : M unit := emit (Logged lvl msg).
Definition sleep (seconds : Z) : M unit := emit (Slept seconds).

Definition of_reply {A} (r : reply A) : M A :=
  match r with
  | Received a => ret a
  | Failed e => raise e
  end.

Definition send {A} (r : request) (answer : nat -> reply A) : M A :=
  fun w =>
    of_reply (answer (sent w))
      {| sent := S (sent w); trace := trace w ++ [Sent r] |}.

Section Client.

Variable net : transport.

Definition get_content (path : str) : M bytes :=
  send (GetContent path) (fun n => content_of net n path).

Definition get_json (path : str) (params : list (str * value)) : M value :=
  send (GetJson path params) (fun n => json_of net n path params).

Definition put_json (path : str) (data : value) : M value :=
  send (PutJson path data) (fun n => put_of net n path data).

End Client.

(** [response.decode(encoding='utf-8', errors='strict')]. *)
Definition decode_strict {A} (bs : bytes) (k : str -> M A) : M A :=
  match decode bs with
  | Some s => k s
  | None => raise UnicodeDecodeError
  end.

(** [l[i]] for a list and [i >= 0]. *)
Definition item {A B} (l : list A) (i : nat) (k : A -> M B) : M B :=
  match nth_error l i with
  | Some x => k x
  | None => raise IndexError
  end.

(** ** The PDF export poller *)

Module Poller.

(** The literals of [get_pdf_download_url_for_confluence_cloud]. *)
Definition task_marker : str :=
  lit "name=" ++ dq :: lit "ajs-taskId" ++ dq :: lit " content=" ++ [dq].
Definition task_end : str := dq :: lit ">".
Definition poll_prefix : str := lit "runningtaskxml.action?taskId=".
Definition newline : str := [10%N].
Definition complete_true : str := lit "<isComplete>true</isComplete>".
Definition successful_true : str := lit "<isSuccessful>true</isSuccessful>".
Definition successful_false : str := lit "<isSuccessful>false</isSuccessful>".
Definition href_marker : str := lit "href=&quot;/wiki/".
Definition quot : str := lit "&quot".
Definition index_error_text : message := Exc IndexError.

Section WithTransport.

Variable net : transport.

(** The body of [while long_running_task:].  [rounds] bounds the
    number of iterations the model follows; the source has no bound.
    Leaving the loop with [long_running_task = False] is followed by
    [return download_url], so both exits are a returned value. *)
Fixpoint poll_loop (rounds : nat) (poll_url : str) : M (option str) :=
  match rounds with
  | O => running
  | S rounds' =>
      long_running_task_response <- get_content net poll_url ;;
      decode_strict long_running_task_response (fun text =>
      let long_running_task_response_parts := split newline text in
      item long_running_task_response_parts 6 (fun l6 =>
      let percentage_complete := strip l6 in
      item long_running_task_response_parts 7 (fun l7 =>
      let is_successful := strip l7 in
      item long_running_task_response_parts 8 (fun l8 =>
      let is_complete := strip l8 in
      log INFO (Text (lit "Sleep for 5s.")) ;;
      sleep 5 ;;
      log INFO (Text (lit "Check if export task has completed.")) ;;
      if eqb is_complete complete_true then
        if eqb is_successful successful_true then
          log INFO (Text percentage_complete) ;;
          log INFO (Text (lit "Downloading content...")) ;;
          log DEBUG (Text (lit "Extract taskId and download PDF.")) ;;
          item long_running_task_response_parts 3 (fun current_status =>
          item (split href_marker current_status) 1 (fun after =>
          item (split quot after) 0 (fun download_url =>
          ret (Some download_url))))
        else if eqb is_successful successful_false then
          log ERROR (Text (lit "PDF conversion not successful.")) ;;
          ret None
        else poll_loop rounds' poll_url
      else
        log INFO (Text percentage_complete) ;;
        poll_loop rounds' poll_url))))
  end.

(** The [try] block. *)
Definition export_and_poll (rounds : nat) (url : str) : M (option str) :=
  log INFO (Text (lit "Initiate PDF export from Confluence Cloud")) ;;
  response <- get_content net url ;;
  decode_strict response (fun response_string =>
  item (split task_marker response_string) 1 (fun after =>
  item (split task_end after) 0 (fun task_id =>
  let poll_url := poll_prefix ++ task_id in
  poll_loop rounds poll_url))).

(** [except IndexError as e: log.error(e); return None]. *)
Definition on_index_error (e : exn) : option (M (option str)) :=
  match e with
  | IndexError => Some (log ERROR (Exc IndexError) ;; ret None)
  | _ => None
  end.

Definition get_pdf_download_url_for_confluence_cloud
    (rounds : nat) (url : str) : M (option str) :=
  try_except (export_and_poll rounds url) on_index_error.

End WithTransport.

End Poller.

(** ** Updating a page *)

Module Pages.

(** [bool(v)]. *)
Definition truthy (v : value) : bool :=
  match v with
  | VNone => false
  | VBool b => b
  | VInt z => negb (Z.eqb z 0)
  | VStr s => match s with [] => false | _ => true end
  | VList l => match l with [] => false | _ => true end
  | VDict d => match d with [] => false | _ => true end
  end.

Fixpoint lookup (k : str) (d : list (str * value)) : option value :=
  match d with
  | [] => None
  | (k', v) :: d' => if eqb k' k then Some v else lookup k d'
  end.

(** [v.get(k)]: only a [dict] has the method. *)
Definition dict_get {A} (v : value) (k : str) (cont : value -> M A) : M A :=
  match v with
  | VDict d => cont (match lookup k d with Some x => x | None => VNone end)
  | _ => raise AttributeError
  end.

(** [v[k]] for a text key [k]. *)
Definition subscript {A} (v : value) (k : str) (cont : value -> M A) : M A :=
  match v with
  | VDict d => match lookup k d with Some x => cont x | None => raise KeyError end
  | _ => raise TypeError
  end.

(** [v + 1]. *)
Definition plus_one {A} (v : value) (cont : value -> M A) : M A :=
  match v with
  | VInt z => cont (VInt (z + 1))
  | VBool b => cont (VInt (Z.b2z b + 1))
  | _ => raise TypeError
  end.

(** [v or {}]. *)
Definition or_empty (v : value) : value := if truthy v then v else VDict [].

(** [v == body] for a text [body]: only an equal text is equal to it. *)
Definition equals_text (v : value) (body : str) : bool :=
  match v with
  | VStr s => eqb s body
  | _ => false
  end.

Definition representations : list str :=
  [lit "editor"; lit "export_view"; lit "view"; lit "storage"; lit "wiki"].

Definition _create_body {A} (body representation : str) (cont : value -> M A) : M A :=
  if existsb (eqb representation) representations
  then cont (VDict [(representation,
                      VDict [(lit "value", VStr body);
                             (lit "representation", VStr representation)])])
  else raise ValueError.

Definition quoted (s : str) : str := dq :: s ++ [dq].
Definition triple_quoted (s : str) : str := [dq; dq; dq] ++ s ++ [dq; dq; dq].

Section WithTransport.

Variable net : transport.

(** [utils.symbol_normalizer] lives in another module of the package;
    it is a parameter here, applied to the value it is given. *)
Variable symbol_normalizer : value -> reply value.

Definition get_page_by_id (page_id : str) (expand status : option str)
    (version : option Z) : M value :=
  let params := [] in
  let params :=
    match expand with
    | Some ((_ :: _) as e) => params ++ [(lit "expand", VStr e)]
    | _ => params
    end in
  let params :=
    match status with
    | Some ((_ :: _) as s) => params ++ [(lit "status", VStr s)]
    | _ => params
    end in
  let params :=
    match version with
    | Some v => if Z.eqb v 0 then params else params ++ [(lit "version", VInt v)]
    | None => params
    end in
  let url := lit "rest/api/content/" ++ page_id in
  get_json net url params.

Definition history (page_id : str) : M value :=
  let url := lit "rest/api/content/" ++ page_id ++ lit "/history" in
  get_json net url [].

(** The value compared with the candidate body: the stored content,
    normalized when it is truthy. *)
Definition normalized (confluence_content : value) : M value :=
  if truthy confluence_content
  then of_reply (symbol_normalizer confluence_content)
  else ret confluence_content.

Definition is_page_content_is_already_updated (page_id body : str) : M bool :=
  page <- get_page_by_id page_id (Some (lit "body.storage")) None None ;;
  dict_get (or_empty page) (lit "body") (fun b =>
  dict_get (or_empty b) (lit "storage") (fun st =>
  dict_get (or_empty st) (lit "value") (fun confluence_content =>
  confluence_content <- normalized confluence_content ;;
  log DEBUG (Format (lit "Old Content: " ++ triple_quoted (lit "{body}"))
               [(lit "body", confluence_content)]) ;;
  log DEBUG (Format (lit "New Content: " ++ triple_quoted (lit "{body}"))
               [(lit "body", VStr body)]) ;;
  if equals_text confluence_content body then
    log WARNING (Format (lit "Content of {page_id} is exactly the same")
                   [(lit "page_id", VStr page_id)]) ;;
    ret true
  else
    log INFO (Format (lit "Content of {page_id} differs")
                [(lit "page_id", VStr page_id)]) ;;
    ret false))).

(** [except (IndexError, TypeError) as e] around the version lookup. *)
Definition on_missing_version (title type : str) (e : exn)
    : option (M (option value)) :=
  match e with
  | IndexError | TypeError =>
      Some (log ERROR (Format (lit "Can't find '{title}' {type}!")
                         [(lit "title", VStr title); (lit "type", VStr type)]) ;;
            log DEBUG (Exc e) ;;
            ret None)
  | _ => None
  end.

(** [version] is [Some] the next version number, or [None] when the
    handler has returned [None] from [update_page]. *)
Definition next_version (page_id title type : str) : M (option value) :=
  try_except
    (h <- history page_id ;;
     subscript h (lit "lastUpdated") (fun last =>
     subscript last (lit "number") (fun number =>
     plus_one number (fun version => ret (Some version)))))
    (on_missing_version title type).

Definition update_page (page_id title body : str) (parent_id : option str)
    (type representation : str) (minor_edit : bool) : M value :=
  log INFO (Format (lit "Updating {type} " ++ quoted (lit "{title}"))
              [(lit "title", VStr title); (lit "type", VStr type)]) ;;
  already <- is_page_content_is_already_updated page_id body ;;
  if already then
    get_page_by_id page_id None None None
  else
    version <- next_version page_id title type ;;
    match version with
    | None => ret VNone
    | Some version =>
        _create_body body representation (fun body_dict =>
        let data :=
          [(lit "id", VStr page_id);
           (lit "type", VStr type);
           (lit "title", VStr title);
           (lit "body", body_dict);
           (lit "version", VDict [(lit "number", version);
                                  (lit "minorEdit", VBool minor_edit)])] in
        let data :=
          match parent_id with
          | Some ((_ :: _) as p) =>
              data ++ [(lit "ancestors",
                        VList [VDict [(lit "type", VStr (lit "page"));
                                      (lit "id", VStr p)]])]
          | _ => data
          end in
        put_json net (lit "rest/api/content/" ++ page_id) (VDict data))
    end.

End WithTransport.

End Pages.

(** ** Worlds and traces *)

(** The requests of a trace, and its sleeps, in order. *)
Fixpoint requests (tr : list event) : list request :=
  match tr with
  | [] => []
  | Sent r :: tr' => r :: requests tr'
  | _ :: tr' => requests tr'
  end.

Fixpoint sleeps (tr : list event) : list Z :=
  match tr with
  | [] => []
  | Slept s :: tr' => s :: sleeps tr'
  | _ :: tr' => sleeps tr'
  end.

(** The world after the events [evs], and after one more request and the
    events [evs]. *)
Definition record (w : world) (evs : list event) : world :=
  {| sent := sent w; trace := trace w ++ evs |}.

Definition after (w : world) (evs : list event) : world :=
  {| sent := S (sent w); trace := trace w ++ evs |}.

(** ** Describing the poller's inputs *)

Module PollerSpec.

Import Poller.

(** Line [i] of a status document. *)
Definition line (doc : str) (i : nat) : option str :=
  nth_error (split newline doc) i.

(** The task identifier, as the source slices it out of the initiating
    response. *)
Definition task_id_of (response_string : str) : option str :=
  match nth_error (split task_marker response_string) 1 with
  | Some after => nth_error (split task_end after) 0
  | None => None
  end.

(** The download path, as the source slices it out of line 3. *)
Definition download_path_of (current_status : str) : option str :=
  match nth_error (split href_marker current_status) 1 with
  | Some after => nth_error (split quot after) 0
  | None => None
  end.

(** The transport answers request number [n], sent to [path], with a
    body that is the UTF-8 encoding of [text]. *)
Definition answers (net : transport) (n : nat) (path text : str) : Prop :=
  exists bs, content_of net n path = Received bs /\ decode bs = Some text.

(** What an iteration that finds its three fields does before it looks
    at them. *)
Definition poll_and_sleep (poll_url : str) : list event :=
  [Sent (GetContent poll_url);
   Logged INFO (Text (lit "Sleep for 5s."));
   Slept 5;
   Logged INFO (Text (lit "Check if export task has completed."))].

Definition downloading (percentage_complete : str) : list event :=
  [Logged INFO (Text percentage_complete);
   Logged INFO (Text (lit "Downloading content..."));
   Logged DEBUG (Text (lit "Extract taskId and download PDF."))].

Definition initiating (url : str) : list event :=
  [Logged INFO (Text (lit "Initiate PDF export from Confluence Cloud"));
   Sent (GetContent url)].

(** A document that reports not complete: it has a line 8, and that line
    is not the complete tag. *)
Definition not_complete (doc : str) : Prop :=
  exists l8, line doc 8 = Some l8 /\ strip l8 <> complete_true.

(** A document that reports complete with a success line that is neither
    of the two tags. *)
Definition unrecognized (doc : str) : Prop :=
  exists l7 l8,
    line doc 7 = Some l7 /\ line doc 8 = Some l8 /\
    strip l8 = complete_true /\
    strip l7 <> successful_true /\ strip l7 <> successful_false.

Definition pending (doc : str) : Prop := not_complete doc \/ unrecognized doc.

(** The call started in world [w] for [url] receives an initiating
    response that carries the task identifier [t]. *)
Definition initiated (net : transport) (url : str) (w : world) (t : str) : Prop :=
  exists text, answers net (sent w) url text /\ task_id_of text = Some t.

(** The initiating request is request number [sent w], so poll number
    [i] (from 0) is request number [S (sent w) + i].  The call gets as far
    as poll [k] when every poll before it is answered by a pending
    document. *)
Definition reaches (net : transport) (url : str) (w : world) (t : str)
    (k : nat) : Prop :=
  initiated net url w t /\
  forall i, i < k ->
    exists doc, answers net (S (sent w) + i) (poll_prefix ++ t) doc /\ pending doc.

(** [doc] is the document the call receives at poll [k]. *)
Definition polled (net : transport) (url : str) (w : world) (t : str)
    (k : nat) (doc : str) : Prop :=
  reaches net url w t k /\
  answers net (S (sent w) + k) (poll_prefix ++ t) doc.

(** A received document the parsing fails on: a positional field is
    missing, or the document reports a successful export and line 3 has
    no download link. *)
Definition malformed (doc : str) : Prop :=
  line doc 8 = None \/
  exists l3 l7 l8,
    line doc 3 = Some l3 /\ line doc 7 = Some l7 /\ line doc 8 = Some l8 /\
    strip l8 = complete_true /\ strip l7 = successful_true /\
    download_path_of l3 = None.

End PollerSpec.

(** ** Scripted transports

    Concrete collaborators on which the model is run. *)

Module Scenario.

Import Poller PollerSpec.

(** A transport that plays a script back: the initiating response, the
    poll responses in order, and [rest] for ever after. *)
Definition scripted (first : bytes) (polls : list bytes) (rest : bytes)
    : transport :=
  {| content_of := fun n _ =>
       Received (match n with O => first | S i => nth i polls rest end);
     json_of := fun _ _ _ => Received VNone;
     put_of := fun _ _ _ => Received VNone |}.

Fixpoint joined (ls : list string) : bytes :=
  match ls with
  | [] => []
  | [l] => ascii_bytes l
  | l :: ls' => ascii_bytes l ++ x0a :: joined ls'
  end.

(** A status document with the given lines 3, 6, 7 and 8. *)
Definition status (l3 l6 l7 l8 : string) : bytes :=
  joined ["<task>"%string; "  <name>PDF export</name>"%string;
          "  <elapsedTime>1200</elapsedTime>"%string; l3;
          "  <percentageComplete>"%string; "  </percentageComplete>"%string;
          l6; l7; l8; "</task>"%string].

Definition w0 : world := {| sent := 0; trace := [] |}.

Definition export_url : str :=
  lit "spaces/flyingpdf/pdfpageexport.action?pageId=1".

(** An initiating page that carries the task identifier 42, and one that
    carries none. *)
Definition started : bytes :=
  ascii_bytes "<meta name=" ++ x22 :: ascii_bytes "ajs-taskId" ++
  x22 :: ascii_bytes " content=" ++ x22 :: ascii_bytes "42" ++
  x22 :: ascii_bytes ">".

Definition not_started : bytes := ascii_bytes "<html>Page not found</html>".

Definition poll_42 : str := poll_prefix ++ lit "42".

Definition link : string :=
  "  <currentStatus>href=&quot;/wiki/reports/x.pdf&quot;</currentStatus>".

Definition two_links : string :=
  "<a href=&quot;/wiki/a&quot;>a</a> <a href=&quot;/wiki/reports/x.pdf&quot;>x</a>".

Definition in_progress : bytes :=
  status "  <currentStatus>working</currentStatus>" "  40%"
    "  <isSuccessful>false</isSuccessful>" "  <isComplete>false</isComplete>".

Definition succeeded : bytes :=
  status link "  100%"
    "  <isSuccessful>true</isSuccessful>" "  <isComplete>true</isComplete>".

Definition succeeded_two_links : bytes :=
  status two_links "100%"
    "<isSuccessful>true</isSuccessful>" "<isComplete>true</isComplete>".

Definition succeeded_at_once : bytes :=
  status "href=&quot;/wiki/reports/x.pdf&quot;" "100%"
    "<isSuccessful>true</isSuccessful>" "<isComplete>true</isComplete>".

Definition failed : bytes :=
  status "  <currentStatus>error</currentStatus>" "  70%"
    "  <isSuccessful>false</isSuccessful>" "  <isComplete>true</isComplete>".

Definition undecided : bytes :=
  status "  <currentStatus>done</currentStatus>" "  100%"
    "  <isSuccessful>unknown</isSuccessful>" "  <isComplete>true</isComplete>".

Definition truncated : bytes :=
  joined ["<task>"%string; "  <name>PDF export</name>"%string; "</task>"%string].

Definition not_utf8 : bytes := [xff; xfe].

(** The text a scripted body decodes to. *)
Definition text_of (bs : bytes) : str :=
  match decode bs with Some s => s | None => [] end.

End Scenario.

(** ** Describing a stored page *)

Module PagesSpec.

Import Pages.

(** The requests [get_page_by_id] sends for a page: with the storage
    body expanded, and plain. *)
Definition content_url (page_id : str) : str := lit "rest/api/content/" ++ page_id.

Definition storage_params : list (str * value) :=
  [(lit "expand", VStr (lit "body.storage"))].

(** [page] is a page whose storage body has the value [content]. *)
Definition stores (page content : value) : Prop :=
  exists items body storage,
    page = VDict items /\
    lookup (lit "body") items = Some (VDict body) /\
    lookup (lit "storage") body = Some (VDict storage) /\
    lookup (lit "value") storage = Some content.

(** The stored content after symbol normalization, which the code
    applies to truthy content only. *)
Definition normalized_content (symbol_normalizer : value -> reply value)
    (content : value) : reply value :=
  if truthy content then symbol_normalizer content else Received content.

(** What the comparison logs when the content is the same. *)
Definition compared (page_id body : str) : list event :=
  [Logged DEBUG (Format (lit "Old Content: " ++ triple_quoted (lit "{body}"))
                   [(lit "body", VStr body)]);
   Logged DEBUG (Format (lit "New Content: " ++ triple_quoted (lit "{body}"))
                   [(lit "body", VStr body)]);
   Logged WARNING (Format (lit "Content of {page_id} is exactly the same")
                     [(lit "page_id", VStr page_id)])].

Definition updating (title type : str) : event :=
  Logged INFO (Format (lit "Updating {type} " ++ quoted (lit "{title}"))
                 [(lit "title", VStr title); (lit "type", VStr type)]).

(** A server that stores one page and answers every request with it. *)
Definition stored_page (content : str) : value :=
  VDict [(lit "id", VStr (lit "1234"));
         (lit "title", VStr (lit "Release notes"));
         (lit "body",
          VDict [(lit "storage",
                  VDict [(lit "value", VStr content);
                         (lit "representation", VStr (lit "storage"))])])].

Definition serving (page : value) : transport :=
  {| content_of := fun _ _ => Received [];
     json_of := fun _ _ _ => Received page;
     put_of := fun _ _ _ => Received page |}.

Definition as_is (v : value) : reply value := Received v.

Definition fresh : world := {| sent := 0; trace := [] |}.

End PagesSpec.

(** ** More text operations *)

Module PyStrMore.

(** [sep.join(parts)]. *)
Fixpoint join (sep : str) (parts : list str) : str :=
  match parts with
  | [] => []
  | [p] => p
  | p :: ps => p ++ sep ++ join sep ps
  end.

(** [s.replace(old, new)] for a non-empty [old]: the leftmost
    non-overlapping occurrences of [old] are the cuts of [s.split(old)]. *)
Definition replace (old new s : str) : str := join new (split old s).

(** [s in t] for two texts. *)
Definition contains (s t : str) : bool :=
  match partition s t with
  | Some _ => true
  | None => false
  end.

(** Every byte is below 128. *)
Definition is_ascii (bs : bytes) : bool :=
  forallb (fun b => N.ltb (Byte.to_N b) 128) bs.

(** No proper non-empty suffix of [sep] is a prefix of it: two
    occurrences of [sep] cannot overlap. *)
Definition unbordered (sep : str) : bool :=
  forallb (fun k => negb (startswith (skipn k sep) sep))
    (seq 1 (List.length sep - 1)).

End PyStrMore.

(** ** More operations on pages *)

Module PagesMore.

Import Pages PyStrMore.

(** [len(v)]. *)
Definition len {A} (v : value) (cont : nat -> M A) : M A :=
  match v with
  | VStr s => cont (List.length s)
  | VList l => cont (List.length l)
  | VDict d => cont (List.length d)
  | _ => raise TypeError
  end.

(** [needle in v] for a text [needle]. *)
Definition is_in {A} (needle : str) (v : value) (cont : bool -> M A) : M A :=
  match v with
  | VStr s => cont (contains needle s)
  | VList l => cont (existsb (fun x => equals_text x needle) l)
  | VDict d => cont (match lookup needle d with Some _ => true | None => false end)
  | _ => raise TypeError
  end.

(** [a + b]. *)
Definition add {A} (a b : value) (cont : value -> M A) : M A :=
  match a, b with
  | VStr x, VStr y => cont (VStr (x ++ y))
  | VList x, VList y => cont (VList (x ++ y))
  | VInt x, VInt y => cont (VInt (x + y))
  | VInt x, VBool y => cont (VInt (x + Z.b2z y))
  | VBool x, VInt y => cont (VInt (Z.b2z x + y))
  | VBool x, VBool y => cont (VInt (Z.b2z x + Z.b2z y))
  | _, _ => raise TypeError
  end.

(** [v[0]]. *)
Definition first_item {A} (v : value) (cont : value -> M A) : M A :=
  match v with
  | VList (x :: _) => cont x
  | VList [] => raise IndexError
  | VStr (c :: _) => cont (VStr [c])
  | VStr [] => raise IndexError
  | VDict _ => raise KeyError
  | _ => raise TypeError
  end.

(** [v.replace(old, new)]: only text has the method. *)
Definition str_replace {A} (v : value) (old new : str) (cont : str -> M A) : M A :=
  match v with
  | VStr s => cont (replace old new s)
  | _ => raise AttributeError
  end.

Definition unknown_attachment_identifier : str :=
  lit "plugins/servlet/confluence/placeholder/unknown-attachment".

Definition oacute_entity : str := lit "&oacute;".
Definition oacute_letter : str := [243%N].

Section WithTransport.

Variable net : transport.
Variable symbol_normalizer : value -> reply value.

(** Two attributes of the REST client the methods read: [self.url] and
    [self.advanced_mode]. *)
Variable base_url : str.
Variable advanced_mode : bool.

Definition update_existing_page (page_id title body type representation : str)
    (minor_edit : bool) : M value :=
  update_page net symbol_normalizer page_id title body None type
    representation minor_edit.

Definition append_page (page_id title append_body : str)
    (parent_id : option str) (type representation : str) (minor_edit : bool)
    : M value :=
  log INFO (Format (lit "Updating {type} " ++ quoted (lit "{title}"))
              [(lit "title", VStr title); (lit "type", VStr type)]) ;;
  already <- is_page_content_is_already_updated net symbol_normalizer
               page_id append_body ;;
  if already then
    get_page_by_id net page_id None None None
  else
    h <- history net page_id ;;
    subscript h (lit "lastUpdated") (fun last =>
    subscript last (lit "number") (fun number =>
    plus_one number (fun version =>
    page <- get_page_by_id net page_id (Some (lit "body.storage")) None None ;;
    dict_get page (lit "body") (fun b =>
    dict_get (or_empty b) (lit "storage") (fun st =>
    dict_get st (lit "value") (fun previous_body =>
    str_replace previous_body oacute_entity oacute_letter (fun previous_body =>
    let body := previous_body ++ append_body in
    _create_body body representation (fun body_dict =>
    let data :=
      [(lit "id", VStr page_id);
       (lit "type", VStr type);
       (lit "title", VStr title);
       (lit "body", body_dict);
       (lit "version", VDict [(lit "number", version);
                              (lit "minorEdit", VBool minor_edit)])] in
    let data :=
      match parent_id with
      | Some ((_ :: _) as p) =>
          data ++ [(lit "ancestors",
                    VList [VDict [(lit "type", VStr (lit "page"));
                                  (lit "id", VStr p)]])]
      | _ => data
      end in
    put_json net (lit "rest/api/content/" ++ page_id) (VDict data))))))))).

Definition has_unknown_attachment_error (page_id : str) : M value :=
  result <- get_page_by_id net page_id (Some (lit "body.view")) None None ;;
  len result (fun n =>
  if Nat.eqb n 0 then ret (VStr [])
  else
    dict_get result (lit "body") (fun b =>
    dict_get (or_empty b) (lit "view") (fun v =>
    dict_get (or_empty v) (lit "value") (fun x =>
    let body := or_empty x in
    is_in unknown_attachment_identifier body (fun found =>
    if found then
      dict_get result (lit "_links") (fun links =>
      dict_get links (lit "base") (fun base =>
      dict_get result (lit "_links") (fun links' =>
      dict_get links' (lit "tinyui") (fun tinyui =>
      add base tinyui (fun link => ret link)))))
    else ret (VStr [])))))).

(** [except (IndexError, TypeError) as e] of [get_page_by_title]. *)
Definition on_no_result (title : option str) (e : exn) : option (M value) :=
  match e with
  | IndexError | TypeError =>
      Some (log ERROR (Format (lit "Can't find '{title}' page on the {url}!")
                         [(lit "title",
                           match title with Some t => VStr t | None => VNone end);
                          (lit "url", VStr base_url)]) ;;
            log DEBUG (Exc e) ;;
            ret VNone)
  | _ => None
  end.

Definition get_page_by_title (space title : option str) (start limit : option Z)
    (expand : option str) : M value :=
  let url := lit "rest/api/content" in
  let params := [] in
  let params :=
    match start with
    | Some n => params ++ [(lit "start", VInt n)]
    | None => params
    end in
  let params :=
    match limit with
    | Some n => params ++ [(lit "limit", VInt n)]
    | None => params
    end in
  let params :=
    match expand with
    | Some e => params ++ [(lit "expand", VStr e)]
    | None => params
    end in
  let params :=
    match space with
    | Some k => params ++ [(lit "spaceKey", VStr k)]
    | None => params
    end in
  let params :=
    match title with
    | Some t => params ++ [(lit "title", VStr t)]
    | None => params
    end in
  if advanced_mode then get_json net url params
  else
    try_except
      (r <- get_json net url params ;;
       dict_get (or_empty r) (lit "results") (fun results =>
       first_item results (fun page => ret page)))
      (on_no_result title).

(** [except (HTTPError, KeyError, IndexError)] of [page_exists]. *)
Definition on_lookup_error (space title : str) (e : exn) : option (M bool) :=
  match e with
  | HTTPError _ | KeyError | IndexError =>
      Some (log INFO (Format (lit "Page " ++ quoted (lit "{title}") ++
                              lit " does not exist in space " ++
                              quoted (lit "{space}"))
                        [(lit "space", VStr space); (lit "title", VStr title)]) ;;
            ret false)
  | _ => None
  end.

Definition page_exists (space title : str) : M bool :=
  try_except
    (page <- get_page_by_title (Some space) (Some title) (Some 0%Z) (Some 1%Z)
               None ;;
     if truthy page then
       log INFO (Format (lit "Page " ++ quoted (lit "{title}") ++
                         lit " already exists in space " ++
                         quoted (lit "{space}"))
                   [(lit "space", VStr space); (lit "title", VStr title)]) ;;
       ret true
     else
       log INFO (Text (lit "Page does not exist because did not find by title search")) ;;
       ret false)
    (on_lookup_error space title).

Definition get_page_id (space title : str) : M value :=
  page <- get_page_by_title (Some space) (Some title) (Some 0%Z) (Some 1%Z)
            None ;;
  dict_get (or_empty page) (lit "id") (fun id => ret id).

Definition get_page_space (page_id : str) : M value :=
  page <- get_page_by_id net page_id (Some (lit "space")) None None ;;
  dict_get (or_empty page) (lit "space") (fun space =>
  dict_get (or_empty space) (lit "key") (fun key => ret key)).

End WithTransport.

End PagesMore.

(** ** Describing pages and histories *)

Module PagesMoreSpec.

Import Pages PagesSpec PagesMore.

Definition history_url (page_id : str) : str :=
  lit "rest/api/content/" ++ page_id ++ lit "/history".

(** [v.get(k)] as a value or the exception it raises. *)
Definition get_of (v : value) (k : str) : reply value :=
  match v with
  | VDict d => Received (match lookup k d with Some x => x | None => VNone end)
  | _ => Failed AttributeError
  end.

(** The expression
    [(((page or {}).get('body') or {}).get('storage') or {}).get('value')]
    of [is_page_content_is_already_updated]. *)
Definition stored_content (page : value) : reply value :=
  match get_of (or_empty page) (lit "body") with
  | Received b =>
      match get_of (or_empty b) (lit "storage") with
      | Received st => get_of (or_empty st) (lit "value")
      | Failed e => Failed e
      end
  | Failed e => Failed e
  end.

(** The three events the comparison logs. *)
Definition comparison (page_id body : str) (content : value) : list event :=
  [Logged DEBUG (Format (lit "Old Content: " ++ triple_quoted (lit "{body}"))
                   [(lit "body", content)]);
   Logged DEBUG (Format (lit "New Content: " ++ triple_quoted (lit "{body}"))
                   [(lit "body", VStr body)]);
   if equals_text content body
   then Logged WARNING (Format (lit "Content of {page_id} is exactly the same")
                          [(lit "page_id", VStr page_id)])
   else Logged INFO (Format (lit "Content of {page_id} differs")
                       [(lit "page_id", VStr page_id)])].

(** The stored content of [page] can be read and normalized, and is not
    the text [body]. *)
Definition differs (symbol_normalizer : value -> reply value)
    (page : value) (body : str) : Prop :=
  exists content compared,
    stored_content page = Received content /\
    normalized_content symbol_normalizer content = Received compared /\
    equals_text compared body = false.

(** [h['lastUpdated']['number']] is [number]. *)
Definition last_updated (h number : value) : Prop :=
  exists items last,
    h = VDict items /\
    lookup (lit "lastUpdated") items = Some (VDict last) /\
    lookup (lit "number") last = Some number.

Definition is_dict (v : value) : bool :=
  match v with VDict _ => true | _ => false end.

Definition is_number (v : value) : bool :=
  match v with VInt _ | VBool _ => true | _ => false end.

(** [h['lastUpdated']['number'] + 1] raises [TypeError]: [h] or
    [h['lastUpdated']] is not a dict, or the number is not one. *)
Definition version_type_error (h : value) : Prop :=
  is_dict h = false \/
  (exists items last,
     h = VDict items /\ lookup (lit "lastUpdated") items = Some last /\
     is_dict last = false) \/
  (exists number, last_updated h number /\ is_number number = false).

(** [h['lastUpdated']['number']] raises [KeyError]: a key is missing. *)
Definition version_key_error (h : value) : Prop :=
  (exists items, h = VDict items /\ lookup (lit "lastUpdated") items = None) \/
  (exists items last,
     h = VDict items /\
     lookup (lit "lastUpdated") items = Some (VDict last) /\
     lookup (lit "number") last = None).

(** The four shapes the requests of [update_page] can have. *)
Definition update_requests (page_id : str) (rs : list request) : Prop :=
  rs = [GetJson (content_url page_id) storage_params] \/
  rs = [GetJson (content_url page_id) storage_params;
        GetJson (content_url page_id) []] \/
  rs = [GetJson (content_url page_id) storage_params;
        GetJson (history_url page_id) []] \/
  exists data,
    rs = [GetJson (content_url page_id) storage_params;
          GetJson (history_url page_id) [];
          PutJson (content_url page_id) (VDict data)].

(** A server with a page and its history: requests for the history get
    [h], all others [page]. *)
Definition with_history (page h : value) : transport :=
  {| content_of := fun _ _ => Received [];
     json_of := fun _ path _ =>
       if eqb path (history_url (lit "1234")) then Received h else Received page;
     put_of := fun _ _ data => Received data |}.

Definition history_at (n : Z) : value :=
  VDict [(lit "lastUpdated",
          VDict [(lit "by", VStr (lit "admin")); (lit "number", VInt n)])].

End PagesMoreSpec.

(** ** Exporting a page *)

Module PdfExport.

Import Poller.

Section WithTransport.

Variable net : transport.

(** An attribute of the REST client: [self.api_version]. *)
Variable api_version : str.

(** [self.get(None, headers=headers, not_json_response=True)]: what the
    REST client does with no path is not part of this file. *)
Variable get_nowhere : M bytes.

Definition get_page_as_pdf (rounds : nat) (page_id : str) : M bytes :=
  let url := lit "spaces/flyingpdf/pdfpageexport.action?pageId=" ++ page_id in
  if eqb api_version (lit "cloud") then
    url <- get_pdf_download_url_for_confluence_cloud net rounds url ;;
    match url with
    | Some path => get_content net path
    | None => get_nowhere
    end
  else get_content net url.

Definition export_page (rounds : nat) (page_id : str) : M bytes :=
  get_page_as_pdf rounds page_id.

Definition get_page_as_word (page_id : str) : M bytes :=
  let url := lit "exportword?pageId=" ++ page_id in
  get_content net url.

End WithTransport.

End PdfExport.

(** ** Describing searches and views *)

Module LookupSpec.

Import Pages PagesSpec PagesMore Scenario.

Definition search_url : str := lit "rest/api/content".

(** The parameters [page_exists] and [get_page_id] search with. *)
Definition search_params (space title : str) : list (str * value) :=
  [(lit "start", VInt 0); (lit "limit", VInt 1);
   (lit "spaceKey", VStr space); (lit "title", VStr title)].

(** [r] is a search answer with the list [results]. *)
Definition has_results (r : value) (results : list value) : Prop :=
  exists items,
    r = VDict items /\ lookup (lit "results") items = Some (VList results).

Definition view_params : list (str * value) :=
  [(lit "expand", VStr (lit "body.view"))].

(** [page] is a page whose view body has the text [text], and whose
    links are the texts [base] and [tinyui]. *)
Definition views (page : value) (text base tinyui : str) : Prop :=
  exists items body view links,
    page = VDict items /\
    lookup (lit "body") items = Some (VDict body) /\
    lookup (lit "view") body = Some (VDict view) /\
    lookup (lit "value") view = Some (VStr text) /\
    lookup (lit "_links") items = Some (VDict links) /\
    lookup (lit "base") links = Some (VStr base) /\
    lookup (lit "tinyui") links = Some (VStr tinyui).

Definition found (id : str) : value :=
  VDict [(lit "results",
          VList [VDict [(lit "id", VStr id); (lit "type", VStr (lit "page"))]]);
         (lit "size", VInt 1)].

Definition viewed (text : str) : value :=
  VDict [(lit "id", VStr (lit "1234"));
         (lit "body", VDict [(lit "view", VDict [(lit "value", VStr text)])]);
         (lit "_links",
          VDict [(lit "base", VStr (lit "https://wiki.example.com"));
                 (lit "tinyui", VStr (lit "/x/AbC"))])].

(** A cloud server: the export page, two status documents, then the
    PDF. *)
Definition cloud : transport :=
  scripted started [in_progress; succeeded] (ascii_bytes "%PDF-1.4").

Definition nowhere : M bytes := raise (HTTPError (lit "404 Client Error")).

End LookupSpec.

(** ** Describing an export *)

Module PdfExportSpec.

(** The URL [get_page_as_pdf] starts from. *)
Definition pdf_export_url (page_id : str) : str :=
  lit "spaces/flyingpdf/pdfpageexport.action?pageId=" ++ page_id.

End PdfExportSpec.

(** ** Transports that fail *)

Module Outage.

(** [base], except that request number [n] raises [e]. *)
Definition failing_at (n : nat) (e : exn) (base : transport) : transport :=
  {| content_of := fun m path =>
       if Nat.eqb m n then Failed e else content_of base m path;
     json_of := fun m path params =>
       if Nat.eqb m n then Failed e else json_of base m path params;
     put_of := fun m path data =>
       if Nat.eqb m n then Failed e else put_of base m path data |}.

Definition gateway_timeout : exn := HTTPError (lit "504 Server Error").

End Outage.

(** * Properties *)

Unset Implicit Arguments.

(** ** Running the text operations *)

Example split_commas :
  split (lit ",") (lit "a,b,,c") = [lit "a"; lit "b"; lit ""; lit "c"].
Proof. reflexivity. Qed.

Example split_without_separator : split (lit "--") (lit "a-b") = [lit "a-b"].
Proof. reflexivity. Qed.

Example split_trailing : split (lit "ab") (lit "xabab") = [lit "x"; []; []].
Proof. reflexivity. Qed.

Example strip_both : strip (lit "  <a> b
") = lit "<a> b".
Proof. reflexivity. Qed.

Example decode_euro :
  decode [xe2; x82; xac; x41] = Some [8364%N; 65%N].
Proof. reflexivity. Qed.

Example decode_overlong : decode [xc0; x80] = None.
Proof. reflexivity. Qed.

Example decode_surrogate : decode [xed; xa0; x80] = None.
Proof. reflexivity. Qed.


(** ** Text *)

Module PyStrFacts.

Lemma eqb_eq (a b : str) : eqb a b = true <-> a = b.
Proof.
  revert b. induction a as [|x a IH]; intros [|y b]; simpl;
    try (split; [discriminate | congruence]); try tauto.
  rewrite andb_true_iff, N.eqb_eq, IH.
  split; [intros [-> ->]; reflexivity | intros E; inversion E; auto].
Qed.

Lemma eqb_refl (a : str) : eqb a a = true.
Proof. apply eqb_eq. reflexivity. Qed.

Lemma eqb_neq (a b : str) : eqb a b = false <-> a <> b.
Proof.
  rewrite <- eqb_eq. destruct (eqb a b); split; congruence.
Qed.

Lemma startswith_spec (p s : str) :
  startswith p s = true <-> exists r, s = p ++ r.
Proof.
  revert s. induction p as [|x p IH]; intros s; simpl.
  - split; [intros _; exists s; reflexivity | reflexivity].
  - destruct s as [|y s].
    + split; [discriminate | intros [r E]; discriminate].
    + rewrite andb_true_iff, N.eqb_eq, IH. split.
      * intros [-> [r ->]]. exists r. reflexivity.
      * intros [r E]. inversion E. split; [reflexivity | exists r; reflexivity].
Qed.

Lemma startswith_app (p r : str) : startswith p (p ++ r) = true.
Proof. apply startswith_spec. exists r. reflexivity. Qed.

Lemma skipn_length_app (p r : str) : skipn (List.length p) (p ++ r) = r.
Proof. induction p; simpl; auto. Qed.

Lemma partition_eq (sep s : str) :
  partition sep s =
  if startswith sep s then Some ([], skipn (List.length sep) s)
  else match s with
       | [] => None
       | c :: s' =>
           match partition sep s' with
           | Some (a, b) => Some (c :: a, b)
           | None => None
           end
       end.
Proof. destruct s; reflexivity. Qed.

(** A separator at the head of the text is the leftmost occurrence. *)
Lemma partition_here (sep r : str) : partition sep (sep ++ r) = Some ([], r).
Proof.
  rewrite partition_eq, startswith_app, skipn_length_app. reflexivity.
Qed.

(** What [partition] returns is a decomposition of the text. *)
Lemma partition_some (sep s a b : str) :
  partition sep s = Some (a, b) -> s = a ++ sep ++ b.
Proof.
  revert a b. induction s as [|c s IH]; intros a b; simpl.
  - destruct (startswith sep []) eqn:E; [|discriminate].
    intros H. inversion H; subst. apply startswith_spec in E as [r E].
    symmetry in E. apply app_eq_nil in E as [-> ->]. reflexivity.
  - destruct (startswith sep (c :: s)) eqn:E.
    + intros H. inversion H; subst. apply startswith_spec in E as [r E].
      rewrite E at 1. rewrite E, skipn_length_app. reflexivity.
    + destruct (partition sep s) as [[a' b']|]; [|discriminate].
      intros H. inversion H; subst. simpl. f_equal. now apply IH.
Qed.

(** [partition] fails exactly on the texts the separator does not
    occur in. *)
Lemma partition_none (sep s : str) :
  partition sep s = None <-> ~ occurs sep s.
Proof.
  induction s as [|c s IH]; simpl.
  - destruct (startswith sep []) eqn:E.
    + split; [discriminate|]. intros H. exfalso. apply H.
      apply startswith_spec in E as [r E]. exists [], r. exact E.
    + split; [|reflexivity]. intros _ (pre & post & H).
      symmetry in H. apply app_eq_nil in H as [-> H].
      apply app_eq_nil in H as [-> ->]. discriminate E.
  - destruct (startswith sep (c :: s)) eqn:E.
    + split; [discriminate|]. intros H. exfalso. apply H.
      apply startswith_spec in E as [r E]. exists [], r. exact E.
    + destruct (partition sep s) as [[a b]|] eqn:P.
      * split; [discriminate|]. intros H. exfalso. apply H.
        apply partition_some in P. exists (c :: a), b. now rewrite P.
      * split; [|reflexivity]. intros _ (pre & post & H).
        destruct pre as [|x pre].
        -- simpl in H. rewrite H, startswith_app in E. discriminate.
        -- inversion H; subst. apply (proj1 IH eq_refl).
           exists pre, post. reflexivity.
Qed.

Lemma partition_occurs (sep s : str) :
  occurs sep s -> exists a b, partition sep s = Some (a, b).
Proof.
  intros H. destruct (partition sep s) as [[a b]|] eqn:P; [eauto|].
  apply partition_none in P. contradiction.
Qed.

(** A prefix free of the separator's first code point is skipped. *)
Lemma partition_skip (c : char) (sep' u v : str) :
  ~ In c u ->
  partition (c :: sep') (u ++ v) =
  match partition (c :: sep') v with
  | Some (a, b) => Some (u ++ a, b)
  | None => None
  end.
Proof.
  induction u as [|x u IH]; intros Hin.
  - simpl app. destruct (partition (c :: sep') v) as [[a b]|]; reflexivity.
  - change ((x :: u) ++ v) with (x :: (u ++ v)).
    cbn [partition startswith].
    assert (N.eqb c x = false) as ->.
    { apply N.eqb_neq. intros ->. apply Hin. now left. }
    cbn [andb]. rewrite IH by (intros H; apply Hin; now right).
    destruct (partition (c :: sep') v) as [[a b]|]; reflexivity.
Qed.

(** A separator whose first code point does not come back in it cannot
    overlap itself, so the leftmost occurrence in [pre ++ sep ++ post]
    is the one written when [sep] does not occur in [pre]. *)
Lemma partition_first (c : char) (sep' pre post : str) :
  ~ In c sep' ->
  ~ occurs (c :: sep') pre ->
  partition (c :: sep') (pre ++ (c :: sep') ++ post) = Some (pre, post).
Proof.
  intros Hc. induction pre as [|x pre IH]; intros Hpre.
  - exact (partition_here (c :: sep') post).
  - change ((x :: pre) ++ (c :: sep') ++ post)
      with (x :: (pre ++ (c :: sep') ++ post)).
    assert (startswith (c :: sep') (x :: (pre ++ (c :: sep') ++ post)) = false)
      as E.
    { destruct (startswith _ _) eqn:E; [exfalso | reflexivity].
      apply startswith_spec in E as [r E].
      change (x :: pre ++ (c :: sep') ++ post)
        with ((x :: pre) ++ (c :: sep') ++ post) in E.
      apply app_eq_app in E as [l [[E1 E2] | [E1 E2]]].
      - apply Hpre. exists [], l. exact E1.
      - destruct l as [|y l].
        + apply Hpre. exists [], []. rewrite E1. now rewrite !app_nil_r.
        + inversion E1; subst. inversion E2; subst.
          apply Hc. apply in_or_app. right. now left. }
    rewrite partition_eq, E.
    rewrite IH; [reflexivity|].
    intros (p & q & H). apply Hpre. exists (x :: p), q. now rewrite H.
Qed.

Lemma partition_shorter (sep s a b : str) :
  sep <> [] -> partition sep s = Some (a, b) -> List.length b < List.length s.
Proof.
  intros Hsep P. apply partition_some in P. subst s.
  rewrite !length_app. destruct sep; [congruence | simpl; lia].
Qed.

Lemma partition_empty (sep : str) : sep <> [] -> partition sep [] = None.
Proof. destruct sep; [congruence | reflexivity]. Qed.

(** Any two numbers of rounds from [length s] on give the same split. *)
Lemma split_from_stable (sep : str) :
  sep <> [] ->
  forall n m s, List.length s <= n -> List.length s <= m ->
  split_from n sep s = split_from m sep s.
Proof.
  intros Hsep.
  induction n as [|n IH]; intros m s Hn Hm.
  - destruct s; [|simpl in Hn; lia].
    destruct m; cbn [split_from]; [reflexivity|].
    now rewrite partition_empty.
  - destruct m as [|m].
    + destruct s; [|simpl in Hm; lia].
      cbn [split_from]. now rewrite partition_empty.
    + cbn [split_from].
      destruct (partition sep s) as [[a b]|] eqn:P; [|reflexivity].
      f_equal. apply partition_shorter in P; [|exact Hsep].
      apply IH; lia.
Qed.

Lemma split_from_enough (sep : str) (n : nat) (s : str) :
  sep <> [] -> List.length s <= n -> split_from n sep s = split sep s.
Proof.
  intros Hsep Hn. unfold split. apply split_from_stable; auto.
Qed.

(** The equation of [split]. *)
Lemma split_unfold (sep s : str) :
  sep <> [] ->
  split sep s =
  match partition sep s with
  | None => [s]
  | Some (a, b) => a :: split sep b
  end.
Proof.
  intros Hsep. destruct s as [|c s].
  - unfold split. cbn [List.length split_from]. now rewrite partition_empty.
  - unfold split at 1. change (List.length (c :: s)) with (S (List.length s)).
    cbn [split_from].
    destruct (partition sep (c :: s)) as [[a b]|] eqn:P; [|reflexivity].
    f_equal. apply split_from_enough; [exact Hsep|].
    apply partition_shorter in P; [|exact Hsep]. simpl in P. lia.
Qed.

(** Without the separator the text comes back whole, so there is no
    second part. *)
Lemma split_absent (sep s : str) :
  sep <> [] -> ~ occurs sep s -> split sep s = [s].
Proof.
  intros Hsep H. rewrite split_unfold by exact Hsep.
  apply partition_none in H. now rewrite H.
Qed.

Lemma split_head (sep s : str) :
  sep <> [] ->
  nth_error (split sep s) 0 =
  Some (match partition sep s with Some (a, _) => a | None => s end).
Proof.
  intros Hsep. rewrite split_unfold by exact Hsep.
  destruct (partition sep s) as [[a b]|]; reflexivity.
Qed.

Lemma split_second (sep s : str) :
  sep <> [] ->
  nth_error (split sep s) 1 =
  match partition sep s with
  | Some (_, b) =>
      Some (match partition sep b with Some (a, _) => a | None => b end)
  | None => None
  end.
Proof.
  intros Hsep. rewrite split_unfold by exact Hsep.
  destruct (partition sep s) as [[a b]|]; [|reflexivity].
  cbn [nth_error]. apply split_head. exact Hsep.
Qed.

End PyStrFacts.

Import PyStrFacts.

Module WorldFacts.

Lemma requests_app (a b : list event) :
  requests (a ++ b) = requests a ++ requests b.
Proof.
  induction a as [|[r|l m|s] a IH]; simpl; rewrite ?IH; reflexivity.
Qed.

Lemma sleeps_app (a b : list event) : sleeps (a ++ b) = sleeps a ++ sleeps b.
Proof.
  induction a as [|[r|l m|s] a IH]; simpl; rewrite ?IH; reflexivity.
Qed.

Lemma record_record w a b : record (record w a) b = record w (a ++ b).
Proof. unfold record; simpl. now rewrite app_assoc. Qed.

Lemma record_after w a b : record (after w a) b = after w (a ++ b).
Proof. unfold record, after; simpl. now rewrite app_assoc. Qed.

Lemma after_record w a b : after (record w a) b = after w (a ++ b).
Proof. unfold record, after; simpl. now rewrite app_assoc. Qed.

Lemma bind_emit {A} (e : event) (k : M A) (w : world) :
  (emit e ;; k) w = k (record w [e]).
Proof. reflexivity. Qed.

Lemma bind_log {A} lvl msg (k : M A) (w : world) :
  (log lvl msg ;; k) w = k (record w [Logged lvl msg]).
Proof. reflexivity. Qed.

Lemma bind_sleep {A} s (k : M A) (w : world) :
  (sleep s ;; k) w = k (record w [Slept s]).
Proof. reflexivity. Qed.

Lemma bind_send {A B} (r : request) (answer : nat -> reply A) (k : A -> M B)
    (w : world) (a : A) :
  answer (sent w) = Received a ->
  (x <- send r answer ;; k x) w = k a (after w [Sent r]).
Proof. intros H. unfold bind, send. rewrite H. reflexivity. Qed.

Lemma bind_send_failed {A B} (r : request) (answer : nat -> reply A)
    (k : A -> M B) (w : world) (e : exn) :
  answer (sent w) = Failed e ->
  (x <- send r answer ;; k x) w = (Raise e, after w [Sent r]).
Proof. intros H. unfold bind, send. rewrite H. reflexivity. Qed.

Lemma try_except_ret {A} (m : M A) h w a w' :
  m w = (Ret a, w') -> try_except m h w = (Ret a, w').
Proof. intros H. unfold try_except. now rewrite H. Qed.

Lemma try_except_running {A} (m : M A) h w w' :
  m w = (Running, w') -> try_except m h w = (Running, w').
Proof. intros H. unfold try_except. now rewrite H. Qed.

Lemma try_except_caught {A} (m : M A) h w e w' k :
  m w = (Raise e, w') -> h e = Some k -> try_except m h w = k w'.
Proof. intros H He. unfold try_except. now rewrite H, He. Qed.

Lemma try_except_passed {A} (m : M A) h w e w' :
  m w = (Raise e, w') -> h e = None -> try_except m h w = (Raise e, w').
Proof. intros H He. unfold try_except. now rewrite H, He. Qed.

End WorldFacts.

Import WorldFacts.

(** ** The poller *)

Module PollerFacts.

Import Poller PollerSpec.

(** One iteration on a document that has lines 6, 7 and 8. *)
Lemma poll_loop_fields net rounds poll_url w doc l6 l7 l8 :
  answers net (sent w) poll_url doc ->
  line doc 6 = Some l6 -> line doc 7 = Some l7 -> line doc 8 = Some l8 ->
  poll_loop net (S rounds) poll_url w =
  (if eqb (strip l8) complete_true then
     if eqb (strip l7) successful_true then
       log INFO (Text (strip l6)) ;;
       log INFO (Text (lit "Downloading content...")) ;;
       log DEBUG (Text (lit "Extract taskId and download PDF.")) ;;
       item (split newline doc) 3 (fun current_status =>
       item (split href_marker current_status) 1 (fun after =>
       item (split quot after) 0 (fun download_url =>
       ret (Some download_url))))
     else if eqb (strip l7) successful_false then
       log ERROR (Text (lit "PDF conversion not successful.")) ;;
       ret None
     else poll_loop net rounds poll_url
   else
     log INFO (Text (strip l6)) ;;
     poll_loop net rounds poll_url)
    (after w (poll_and_sleep poll_url)).
Proof.
  intros (bs & Hnet & Hdec) H6 H7 H8. unfold line in *.
  cbn [poll_loop]. unfold get_content.
  rewrite bind_send with (a := bs) by exact Hnet.
  unfold decode_strict. rewrite Hdec.
  unfold item at 1. rewrite H6. unfold item at 1. rewrite H7.
  unfold item at 1. rewrite H8.
  rewrite bind_log, bind_sleep, bind_log, !record_record, record_after.
  reflexivity.
Qed.

Lemma line_before (doc : str) (i j : nat) (l : str) :
  line doc j = Some l -> i <= j -> exists l', line doc i = Some l'.
Proof.
  unfold line. intros Hj Hij.
  destruct (nth_error (split newline doc) i) as [l'|] eqn:E; [eauto|].
  apply nth_error_None in E.
  assert (nth_error (split newline doc) j <> None) as H by congruence.
  apply nth_error_Some in H. lia.
Qed.

(** An iteration on a pending document sends one request, sleeps once
    and goes round again. *)
Lemma poll_loop_pending net poll_url w doc :
  answers net (sent w) poll_url doc -> pending doc ->
  exists evs,
    (forall rounds,
       poll_loop net (S rounds) poll_url w =
       poll_loop net rounds poll_url (after w evs)) /\
    requests evs = [GetContent poll_url] /\ sleeps evs = [5%Z].
Proof.
  intros Hnet [(l8 & H8 & Hno) | (l7 & l8 & H7 & H8 & Hc & Ht & Hf)].
  - destruct (line_before doc 6 8 l8 H8) as [l6 H6]; [lia|].
    destruct (line_before doc 7 8 l8 H8) as [l7 H7]; [lia|].
    exists (poll_and_sleep poll_url ++ [Logged INFO (Text (strip l6))]).
    split; [intros rounds | split; reflexivity].
    rewrite (poll_loop_fields net rounds poll_url w doc l6 l7 l8 Hnet H6 H7 H8).
    apply eqb_neq in Hno. rewrite Hno, bind_log, record_after. reflexivity.
  - destruct (line_before doc 6 8 l8 H8) as [l6 H6]; [lia|].
    exists (poll_and_sleep poll_url).
    split; [intros rounds | split; reflexivity].
    rewrite (poll_loop_fields net rounds poll_url w doc l6 l7 l8 Hnet H6 H7 H8).
    apply eqb_eq in Hc. apply eqb_neq in Ht, Hf. rewrite Hc, Ht, Hf.
    reflexivity.
Qed.

(** [k] pending documents in a row take [k] iterations. *)
Lemma poll_loop_skip net poll_url k :
  forall w,
  (forall i, i < k ->
     exists doc, answers net (sent w + i) poll_url doc /\ pending doc) ->
  exists evs,
    (forall rounds,
       poll_loop net (k + rounds) poll_url w =
       poll_loop net rounds poll_url
         {| sent := sent w + k; trace := trace w ++ evs |}) /\
    requests evs = repeat (GetContent poll_url) k /\
    sleeps evs = repeat 5%Z k.
Proof.
  induction k as [|k IH]; intros w H.
  - exists []. rewrite app_nil_r, Nat.add_0_r. destruct w; repeat split.
  - destruct (H 0) as (doc & Hdoc & Hp); [lia|].
    rewrite Nat.add_0_r in Hdoc.
    destruct (poll_loop_pending net poll_url w doc Hdoc Hp)
      as (e1 & E1 & R1 & S1).
    destruct (IH (after w e1)) as (e2 & E2 & R2 & S2).
    { intros i Hi. destruct (H (S i)) as (d & Hd & Hpd); [lia|].
      exists d. split; [|exact Hpd].
      cbn [after sent]. now rewrite Nat.add_succ_comm. }
    exists (e1 ++ e2). split; [intros rounds|split].
    + change (S k + rounds) with (S (k + rounds)). rewrite E1, E2.
      cbn [after sent trace]. now rewrite app_assoc, Nat.add_succ_comm.
    + rewrite requests_app, R1, R2. reflexivity.
    + rewrite sleeps_app, S1, S2. reflexivity.
Qed.

(** The initiating request, when its answer carries a task identifier. *)
Lemma export_and_poll_initiated net rounds url w text t :
  answers net (sent w) url text -> task_id_of text = Some t ->
  export_and_poll net rounds url w =
  poll_loop net rounds (poll_prefix ++ t) (after w (initiating url)).
Proof.
  intros (bs & Hnet & Hdec) Ht. unfold export_and_poll, get_content.
  rewrite bind_log.
  rewrite bind_send with (a := bs) by exact Hnet.
  unfold decode_strict. rewrite Hdec. unfold task_id_of in Ht.
  rewrite after_record.
  unfold item at 1.
  destruct (nth_error (split task_marker text) 1) as [a|]; [|discriminate].
  unfold item. rewrite Ht. reflexivity.
Qed.

(** A call that reaches poll [k] is, from there on, the loop started in
    a world with [k] polls and [k] sleeps behind it. *)
Lemma get_pdf_reaches net url w t k :
  reaches net url w t k ->
  exists evs,
    (forall rounds,
       get_pdf_download_url_for_confluence_cloud net (k + rounds) url w =
       try_except (poll_loop net rounds (poll_prefix ++ t)) on_index_error
         {| sent := S (sent w) + k;
            trace := trace w ++ initiating url ++ evs |}) /\
    requests evs = repeat (GetContent (poll_prefix ++ t)) k /\
    sleeps evs = repeat 5%Z k.
Proof.
  intros [(text & Hnet & Ht) Hk].
  destruct (poll_loop_skip net (poll_prefix ++ t) k
              (after w (initiating url)) Hk) as (evs & E & R & Sl).
  exists evs. split; [intros rounds | split; assumption].
  unfold get_pdf_download_url_for_confluence_cloud, try_except.
  rewrite (export_and_poll_initiated net (k + rounds) url w text t Hnet Ht).
  rewrite E. cbn [after sent trace]. rewrite <- app_assoc. reflexivity.
Qed.

Lemma reaches_le net url w t k j :
  reaches net url w t k -> j <= k -> reaches net url w t j.
Proof.
  intros [Hi Hk] Hj. split; [exact Hi|].
  intros i Hlt. apply Hk. lia.
Qed.

(** While the documents are pending the call is still running. *)
Lemma get_pdf_running net url w t k rounds :
  reaches net url w t k -> rounds <= k ->
  fst (get_pdf_download_url_for_confluence_cloud net rounds url w) = Running.
Proof.
  intros H Hle.
  destruct (get_pdf_reaches net url w t rounds
              (reaches_le net url w t k rounds H Hle)) as (evs & E & _).
  specialize (E 0). rewrite Nat.add_0_r in E. rewrite E. reflexivity.
Qed.

(** The last iteration of a call that receives [doc] at poll [k]. *)
Lemma get_pdf_polled net url w t k doc rounds :
  polled net url w t k doc -> k < rounds ->
  exists wk r,
    rounds = k + S r /\
    answers net (sent wk) (poll_prefix ++ t) doc /\
    get_pdf_download_url_for_confluence_cloud net rounds url w =
    try_except (poll_loop net (S r) (poll_prefix ++ t)) on_index_error wk /\
    requests (trace wk) =
      requests (trace w) ++ GetContent url :: repeat (GetContent (poll_prefix ++ t)) k /\
    sleeps (trace wk) = sleeps (trace w) ++ repeat 5%Z k.
Proof.
  intros [Hr Hdoc] Hlt.
  destruct (get_pdf_reaches net url w t k Hr) as (evs & E & R & Sl).
  eexists. exists (rounds - S k).
  split; [lia|]. split; [|split; [|split]].
  2: { replace rounds with (k + S (rounds - S k)) at 1 by lia. apply E. }
  - exact Hdoc.
  - cbn [trace]. rewrite !requests_app, R. reflexivity.
  - cbn [trace]. rewrite !sleeps_app, Sl. reflexivity.
Qed.

(** An iteration on a document without a line 8. *)
Lemma poll_loop_short net rounds poll_url w doc :
  answers net (sent w) poll_url doc -> line doc 8 = None ->
  poll_loop net (S rounds) poll_url w =
  (Raise IndexError, after w [Sent (GetContent poll_url)]).
Proof.
  intros (bs & Hnet & Hdec) H8. unfold line in H8.
  cbn [poll_loop]. unfold get_content.
  rewrite bind_send with (a := bs) by exact Hnet.
  unfold decode_strict. rewrite Hdec. unfold item.
  destruct (nth_error (split newline doc) 6); [|reflexivity].
  destruct (nth_error (split newline doc) 7); [|reflexivity].
  rewrite H8. reflexivity.
Qed.

(** An iteration on a body that is not UTF-8. *)
Lemma poll_loop_undecodable net rounds poll_url w bs :
  content_of net (sent w) poll_url = Received bs -> decode bs = None ->
  poll_loop net (S rounds) poll_url w =
  (Raise UnicodeDecodeError, after w [Sent (GetContent poll_url)]).
Proof.
  intros Hnet Hdec. cbn [poll_loop]. unfold get_content.
  rewrite bind_send with (a := bs) by exact Hnet.
  unfold decode_strict. rewrite Hdec. reflexivity.
Qed.

(** An iteration on a document that reports a failed export. *)
Lemma poll_loop_failed net rounds poll_url w doc l7 l8 :
  answers net (sent w) poll_url doc ->
  line doc 7 = Some l7 -> line doc 8 = Some l8 ->
  strip l8 = complete_true -> strip l7 = successful_false ->
  poll_loop net (S rounds) poll_url w =
  (Ret None,
   after w (poll_and_sleep poll_url ++
            [Logged ERROR (Text (lit "PDF conversion not successful."))])).
Proof.
  intros Hnet H7 H8 Hc Hf.
  destruct (line_before doc 6 8 l8 H8) as [l6 H6]; [lia|].
  rewrite (poll_loop_fields net rounds poll_url w doc l6 l7 l8 Hnet H6 H7 H8).
  rewrite Hc, Hf, eqb_refl.
  change (eqb successful_false successful_true) with false.
  rewrite eqb_refl, bind_log, record_after. reflexivity.
Qed.

(** An iteration on a document that reports a successful export. *)
Lemma poll_loop_successful net rounds poll_url w doc l3 l6 l7 l8 :
  answers net (sent w) poll_url doc ->
  line doc 3 = Some l3 -> line doc 6 = Some l6 ->
  line doc 7 = Some l7 -> line doc 8 = Some l8 ->
  strip l8 = complete_true -> strip l7 = successful_true ->
  poll_loop net (S rounds) poll_url w =
  (match download_path_of l3 with
   | Some path => Ret (Some path)
   | None => Raise IndexError
   end,
   after w (poll_and_sleep poll_url ++ downloading (strip l6))).
Proof.
  intros Hnet H3 H6 H7 H8 Hc Ht.
  rewrite (poll_loop_fields net rounds poll_url w doc l6 l7 l8 Hnet H6 H7 H8).
  rewrite Hc, Ht, !eqb_refl, !bind_log, !record_record, record_after.
  unfold line in H3. unfold item at 1. rewrite H3.
  unfold download_path_of, item.
  destruct (nth_error (split href_marker l3) 1) as [a|]; [|reflexivity].
  destruct (nth_error (split quot a) 0); reflexivity.
Qed.

(** An iteration whose request fails. *)
Lemma poll_loop_transport_failed net rounds poll_url w e :
  content_of net (sent w) poll_url = Failed e ->
  poll_loop net (S rounds) poll_url w =
  (Raise e, after w [Sent (GetContent poll_url)]).
Proof.
  intros Hnet. cbn [poll_loop]. unfold get_content.
  now rewrite bind_send_failed with (e := e).
Qed.

(** Whatever the transport answers, the loop only adds to the trace, and
    the requests it adds all go to the poll URL. *)
Lemma poll_loop_trace net poll_url rounds :
  forall w, exists evs j,
    trace (snd (poll_loop net rounds poll_url w)) = trace w ++ evs /\
    requests evs = repeat (GetContent poll_url) j.
Proof.
  induction rounds as [|rounds IH]; intros w.
  - exists [], 0. cbn. now rewrite app_nil_r.
  - destruct (content_of net (sent w) poll_url) as [bs|e] eqn:Hnet.
    2: { rewrite (poll_loop_transport_failed net rounds poll_url w e Hnet).
         exists [Sent (GetContent poll_url)], 1. split; reflexivity. }
    destruct (decode bs) as [doc|] eqn:Hdec.
    2: { rewrite (poll_loop_undecodable net rounds poll_url w bs Hnet Hdec).
         exists [Sent (GetContent poll_url)], 1. split; reflexivity. }
    assert (answers net (sent w) poll_url doc) as Hdoc by (exists bs; auto).
    destruct (line doc 8) as [l8|] eqn:H8.
    2: { rewrite (poll_loop_short net rounds poll_url w doc Hdoc H8).
         exists [Sent (GetContent poll_url)], 1. split; reflexivity. }
    destruct (line_before doc 7 8 l8 H8) as [l7 H7]; [lia|].
    destruct (line_before doc 6 8 l8 H8) as [l6 H6]; [lia|].
    destruct (line_before doc 3 8 l8 H8) as [l3 H3]; [lia|].
    assert (pending doc ->
            exists evs j,
              trace (snd (poll_loop net (S rounds) poll_url w)) = trace w ++ evs /\
              requests evs = repeat (GetContent poll_url) j) as Hpending.
    { intros Hp.
      destruct (poll_loop_pending net poll_url w doc Hdoc Hp)
        as (e1 & E1 & R1 & _).
      destruct (IH (after w e1)) as (e2 & j & E2 & R2).
      exists (e1 ++ e2), (S j). rewrite E1, E2. cbn [after trace].
      rewrite requests_app, R1, R2, app_assoc. split; reflexivity. }
    destruct (eqb (strip l8) complete_true) eqn:Hc.
    2: { apply Hpending. left. exists l8. split; [exact H8|].
         now apply eqb_neq. }
    apply eqb_eq in Hc.
    destruct (eqb (strip l7) successful_true) eqn:Ht.
    { apply eqb_eq in Ht.
      rewrite (poll_loop_successful net rounds poll_url w doc l3 l6 l7 l8
                 Hdoc H3 H6 H7 H8 Hc Ht).
      exists (poll_and_sleep poll_url ++ downloading (strip l6)), 1.
      split; reflexivity. }
    destruct (eqb (strip l7) successful_false) eqn:Hf.
    { apply eqb_eq in Hf.
      rewrite (poll_loop_failed net rounds poll_url w doc l7 l8
                 Hdoc H7 H8 Hc Hf).
      eexists _, 1. split; reflexivity. }
    apply Hpending. right. exists l7, l8.
    repeat split; try assumption; now apply eqb_neq.
Qed.

(** The ways one iteration of the loop can go, whatever the transport
    answers. *)
Lemma poll_loop_cases net poll_url w :
  (exists e,
     content_of net (sent w) poll_url = Failed e /\
     forall rounds,
       poll_loop net (S rounds) poll_url w =
       (Raise e, after w [Sent (GetContent poll_url)])) \/
  (exists bs,
     content_of net (sent w) poll_url = Received bs /\ decode bs = None /\
     forall rounds,
       poll_loop net (S rounds) poll_url w =
       (Raise UnicodeDecodeError, after w [Sent (GetContent poll_url)])) \/
  (exists doc,
     answers net (sent w) poll_url doc /\ line doc 8 = None /\
     forall rounds,
       poll_loop net (S rounds) poll_url w =
       (Raise IndexError, after w [Sent (GetContent poll_url)])) \/
  (exists doc l3 l6 l7 l8,
     answers net (sent w) poll_url doc /\ line doc 3 = Some l3 /\
     line doc 7 = Some l7 /\ line doc 8 = Some l8 /\
     strip l8 = complete_true /\ strip l7 = successful_true /\
     forall rounds,
       poll_loop net (S rounds) poll_url w =
       (match download_path_of l3 with
        | Some path => Ret (Some path)
        | None => Raise IndexError
        end,
        after w (poll_and_sleep poll_url ++ downloading (strip l6)))) \/
  (exists doc,
     answers net (sent w) poll_url doc /\
     forall rounds,
       poll_loop net (S rounds) poll_url w =
       (Ret None,
        after w (poll_and_sleep poll_url ++
                 [Logged ERROR (Text (lit "PDF conversion not successful."))]))) \/
  (exists doc evs,
     answers net (sent w) poll_url doc /\ pending doc /\
     (forall rounds,
        poll_loop net (S rounds) poll_url w =
        poll_loop net rounds poll_url (after w evs)) /\
     requests evs = [GetContent poll_url] /\ sleeps evs = [5%Z]).
Proof.
  destruct (content_of net (sent w) poll_url) as [bs|e] eqn:Hnet.
  2: { left. exists e. split; [reflexivity|]. intros rounds.
       apply poll_loop_transport_failed. exact Hnet. }
  right.
  destruct (decode bs) as [doc|] eqn:Hdec.
  2: { left. exists bs. repeat split; try assumption. intros rounds.
       now apply poll_loop_undecodable with (bs := bs). }
  right.
  assert (answers net (sent w) poll_url doc) as Hdoc by (exists bs; auto).
  destruct (line doc 8) as [l8|] eqn:H8.
  2: { left. exists doc. repeat split; try assumption. intros rounds.
       now apply poll_loop_short with (doc := doc). }
  right.
  destruct (line_before doc 7 8 l8 H8) as [l7 H7]; [lia|].
  destruct (line_before doc 6 8 l8 H8) as [l6 H6]; [lia|].
  destruct (line_before doc 3 8 l8 H8) as [l3 H3]; [lia|].
  assert (pending doc ->
          exists doc evs,
            answers net (sent w) poll_url doc /\ pending doc /\
            (forall rounds,
               poll_loop net (S rounds) poll_url w =
               poll_loop net rounds poll_url (after w evs)) /\
            requests evs = [GetContent poll_url] /\ sleeps evs = [5%Z])
    as Hpending.
  { intros Hp.
    destruct (poll_loop_pending net poll_url w doc Hdoc Hp) as (evs & E & R & Sl).
    exists doc, evs. repeat split; assumption. }
  destruct (eqb (strip l8) complete_true) eqn:Hc.
  2: { do 2 right. apply Hpending. left. exists l8. split; [exact H8|].
       now apply eqb_neq. }
  apply eqb_eq in Hc.
  destruct (eqb (strip l7) successful_true) eqn:Ht.
  { left. apply eqb_eq in Ht. exists doc, l3, l6, l7, l8.
    repeat split; try assumption. intros rounds.
    now apply poll_loop_successful with (doc := doc) (l7 := l7) (l8 := l8). }
  right.
  destruct (eqb (strip l7) successful_false) eqn:Hf.
  { left. apply eqb_eq in Hf. exists doc. split; [exact Hdoc|]. intros rounds.
    now apply poll_loop_failed with (doc := doc) (l7 := l7) (l8 := l8). }
  right. apply Hpending. right. exists l7, l8.
  repeat split; try assumption; now apply eqb_neq.
Qed.

(** What the handler of the call does to an outcome. *)
Lemma handled_outcome (m : M (option str)) w :
  exists evs,
    requests evs = [] /\ sleeps evs = [] /\
    snd (try_except m on_index_error w) = record (snd (m w)) evs /\
    fst (try_except m on_index_error w) =
      match fst (m w) with
      | Raise IndexError => Ret None
      | o => o
      end.
Proof.
  unfold try_except.
  assert (forall w1 : world, w1 = record w1 []) as Hnil.
  { intros [n tr]. unfold record. cbn. now rewrite app_nil_r. }
  destruct (m w) as [[a|e|] w1]; cbn [fst snd].
  - exists []. repeat split. apply Hnil.
  - destruct e; cbn [on_index_error];
      try (exists []; repeat split; apply Hnil).
    exists [Logged ERROR (Exc IndexError)]. rewrite bind_log. repeat split.
  - exists []. repeat split. apply Hnil.
Qed.

(** A loop followed for at least one round sends at least one poll. *)
Lemma poll_loop_first_poll net poll_url rounds w :
  exists evs j,
    trace (snd (poll_loop net (S rounds) poll_url w)) = trace w ++ evs /\
    requests evs = repeat (GetContent poll_url) (S j).
Proof.
  assert (forall o evs,
            requests evs = [GetContent poll_url] ->
            poll_loop net (S rounds) poll_url w = (o, after w evs) ->
            exists evs j,
              trace (snd (poll_loop net (S rounds) poll_url w)) = trace w ++ evs /\
              requests evs = repeat (GetContent poll_url) (S j)) as Hend.
  { intros o evs R E. exists evs, 0. rewrite E. split; [reflexivity | exact R]. }
  destruct (poll_loop_cases net poll_url w)
    as [(e' & Hnet & E) | [(bs & _ & _ & E) | [(doc & _ & _ & E)
       | [(doc & l3 & l6 & l7 & l8 & _ & _ & _ & _ & _ & _ & E)
       | [(doc & _ & E) | (doc & e1 & _ & _ & E & R1 & _)]]]]];
    try (eapply Hend; [|apply (E rounds)]; reflexivity).
  destruct (poll_loop_trace net poll_url rounds (after w e1))
    as (e2 & j & E2 & R2).
  exists (e1 ++ e2), j. rewrite E, E2. cbn [after trace].
  rewrite requests_app, R1, R2, app_assoc. split; reflexivity.
Qed.

End PollerFacts.

(** ** The statements of the specification about the poller *)

Module PollerClaims.

Import Poller PollerSpec PollerFacts Scenario.

Example run_succeeded :
  get_pdf_download_url_for_confluence_cloud
    (scripted started [in_progress; succeeded] failed) 5 export_url w0
  = (Ret (Some (lit "reports/x.pdf")),
     {| sent := 3;
        trace := initiating export_url
                 ++ poll_and_sleep poll_42 ++ [Logged INFO (Text (lit "40%"))]
                 ++ poll_and_sleep poll_42 ++ downloading (lit "100%") |}).
Proof. vm_compute. reflexivity. Qed.

Example run_truncated :
  get_pdf_download_url_for_confluence_cloud
    (scripted started [truncated] failed) 5 export_url w0
  = (Ret None,
     {| sent := 2;
        trace := initiating export_url
                 ++ [Sent (GetContent poll_42); Logged ERROR (Exc IndexError)] |}).
Proof. vm_compute. reflexivity. Qed.

Lemma task_id_absent text :
  ~ occurs task_marker text -> task_id_of text = None.
Proof.
  intros H. unfold task_id_of.
  rewrite split_absent; [reflexivity | discriminate | exact H].
Qed.

(** Without a task identifier the call ends after the initiating
    request. *)
Lemma get_pdf_not_initiated net rounds url w text :
  answers net (sent w) url text -> task_id_of text = None ->
  get_pdf_download_url_for_confluence_cloud net rounds url w =
  (Ret None, after w (initiating url ++ [Logged ERROR (Exc IndexError)])).
Proof.
  intros (bs & Hnet & Hdec) Ht.
  assert (export_and_poll net rounds url w =
          (Raise IndexError, after w (initiating url))) as E.
  { unfold export_and_poll, get_content. rewrite bind_log.
    rewrite bind_send with (a := bs) by exact Hnet.
    unfold decode_strict. rewrite Hdec, after_record.
    unfold task_id_of in Ht. unfold item at 1.
    destruct (nth_error (split task_marker text) 1) as [a|]; [|reflexivity].
    rewrite split_head in Ht by discriminate. discriminate. }
  unfold get_pdf_download_url_for_confluence_cloud.
  rewrite (try_except_caught _ _ _ _ _ _ E eq_refl).
  rewrite bind_log, record_after. reflexivity.
Qed.

(** A body that is not valid UTF-8 ends the call at the initiating
    request, with the decoding error. *)
Lemma get_pdf_undecodable net rounds url w bs :
  content_of net (sent w) url = Received bs -> decode bs = None ->
  get_pdf_download_url_for_confluence_cloud net rounds url w =
  (Raise UnicodeDecodeError, after w (initiating url)).
Proof.
  intros Hnet Hdec.
  unfold get_pdf_download_url_for_confluence_cloud.
  apply try_except_passed; [|reflexivity].
  unfold export_and_poll, get_content. rewrite bind_log.
  rewrite bind_send with (a := bs) by exact Hnet.
  unfold decode_strict. rewrite Hdec, after_record. reflexivity.
Qed.

(** C6, as the code has it: when the body of the initiating response
    decodes as UTF-8 and its text does not contain the ajs-taskId marker
    ([task_marker]), the call returns [None] at once, and the index error
    is logged.  When the body is not valid UTF-8 the call raises
    [UnicodeDecodeError] instead.  In both cases the initiating request is
    the only request sent and nothing is slept: no poll is issued. *)
Theorem missing_task_marker_returns_none net rounds url w bs :
  content_of net (sent w) url = Received bs ->
  (forall text,
     decode bs = Some text -> ~ occurs task_marker text ->
     get_pdf_download_url_for_confluence_cloud net rounds url w =
     (Ret None, after w (initiating url ++ [Logged ERROR (Exc IndexError)]))) /\
  (decode bs = None ->
   get_pdf_download_url_for_confluence_cloud net rounds url w =
   (Raise UnicodeDecodeError, after w (initiating url))) /\
  ((forall text, decode bs = Some text -> ~ occurs task_marker text) ->
   requests (trace (snd (get_pdf_download_url_for_confluence_cloud
                           net rounds url w)))
     = requests (trace w) ++ [GetContent url] /\
   sleeps (trace (snd (get_pdf_download_url_for_confluence_cloud
                         net rounds url w)))
     = sleeps (trace w)).
Proof.
  intros Hnet.
  assert (forall text,
            decode bs = Some text -> ~ occurs task_marker text ->
            get_pdf_download_url_for_confluence_cloud net rounds url w =
            (Ret None,
             after w (initiating url ++ [Logged ERROR (Exc IndexError)])))
    as Hnone.
  { intros text Hdec Habsent.
    apply (get_pdf_not_initiated net rounds url w text).
    - exists bs. split; assumption.
    - apply task_id_absent, Habsent. }
  split; [exact Hnone|]. split.
  - apply (get_pdf_undecodable net rounds url w bs Hnet).
  - intros Habsent.
    destruct (decode bs) as [text|] eqn:Hdec.
    + rewrite (Hnone text eq_refl (Habsent text eq_refl)).
      cbn [snd after trace]. rewrite requests_app, sleeps_app.
      cbn [requests sleeps initiating app]. now rewrite app_nil_r.
    + rewrite (get_pdf_undecodable net rounds url w bs Hnet Hdec).
      cbn [snd after trace]. rewrite requests_app, sleeps_app.
      cbn [requests sleeps initiating app]. now rewrite app_nil_r.
Qed.

Lemma missing_task_marker_witness :
  get_pdf_download_url_for_confluence_cloud
    (scripted not_started [succeeded] succeeded) 3 export_url w0 =
    (Ret None,
     after w0 (initiating export_url ++ [Logged ERROR (Exc IndexError)])) /\
  requests (trace (snd (get_pdf_download_url_for_confluence_cloud
                          (scripted not_started [succeeded] succeeded)
                          3 export_url w0)))
    = requests (trace w0) ++ [GetContent export_url] /\
  sleeps (trace (snd (get_pdf_download_url_for_confluence_cloud
                        (scripted not_started [succeeded] succeeded)
                        3 export_url w0)))
    = sleeps (trace w0).
Proof.
  destruct (missing_task_marker_returns_none
              (scripted not_started [succeeded] succeeded) 3 export_url w0
              not_started eq_refl) as (Hnone & _ & Hreq).
  assert (forall text,
            decode not_started = Some text -> ~ occurs task_marker text)
    as Habsent.
  { intros text Hdec. vm_compute in Hdec. injection Hdec as <-.
    apply partition_none. vm_compute. reflexivity. }
  split.
  - apply (Hnone (text_of not_started) eq_refl (Habsent _ eq_refl)).
  - apply (Hreq Habsent).
Defined.

(** C6 as stated fails: the body of the initiating response, two bytes
    that are not valid UTF-8, does not contain the marker, and the call
    does not return [None]: the strict decoding fails and
    [UnicodeDecodeError] reaches the caller. *)
Lemma undecodable_body_without_marker :
  content_of (scripted not_utf8 [succeeded] succeeded) (sent w0) export_url
    = Received not_utf8 /\
  ~ occurs task_marker (map Byte.to_N not_utf8) /\
  fst (get_pdf_download_url_for_confluence_cloud
         (scripted not_utf8 [succeeded] succeeded) 3 export_url w0)
  = Raise UnicodeDecodeError.
Proof.
  split; [reflexivity|]. split; [|reflexivity].
  apply partition_none. vm_compute. reflexivity.
Qed.

(** C7: when a polled status document splits on newline into fewer than
    9 lines, the index error does not reach the caller: the call returns
    [None]. *)
Theorem short_document_returns_none net url w t k doc rounds :
  polled net url w t k doc ->
  List.length (split newline doc) < 9 ->
  k < rounds ->
  fst (get_pdf_download_url_for_confluence_cloud net rounds url w) = Ret None.
Proof.
  intros Hp Hshort Hk.
  destruct (get_pdf_polled net url w t k doc rounds Hp Hk)
    as (wk & r & _ & Hdoc & E & _).
  rewrite E.
  assert (line doc 8 = None) as H8 by (apply nth_error_None; lia).
  erewrite try_except_caught;
    [| apply (poll_loop_short net r (poll_prefix ++ t) wk doc Hdoc H8)
     | reflexivity ].
  reflexivity.
Qed.

Lemma short_document_witness :
  fst (get_pdf_download_url_for_confluence_cloud
         (scripted started [in_progress; truncated] succeeded) 4 export_url w0)
  = Ret None.
Proof.
  apply (short_document_returns_none
           (scripted started [in_progress; truncated] succeeded)
           export_url w0 (lit "42") 1 (text_of truncated) 4).
  - split; [split|].
    + exists (text_of started). split; [|reflexivity].
      exists started. split; reflexivity.
    + intros i Hi. exists (text_of in_progress).
      destruct i as [|i]; [|lia]. split.
      * exists in_progress. split; reflexivity.
      * left. eexists. split; [vm_compute; reflexivity|]. vm_compute. discriminate.
    + exists truncated. split; reflexivity.
  - vm_compute. lia.
  - lia.
Defined.

(** C5: when a polled status document has the complete-true tag on line
    8 and the successful-false tag on line 7, the call returns [None]
    without raising, and what it logs last is the failed conversion, not an
    index error. *)
Theorem failed_export_returns_none net url w t k doc l7 l8 rounds :
  polled net url w t k doc ->
  line doc 8 = Some l8 -> strip l8 = complete_true ->
  line doc 7 = Some l7 -> strip l7 = successful_false ->
  k < rounds ->
  exists w',
    get_pdf_download_url_for_confluence_cloud net rounds url w = (Ret None, w') /\
    last (trace w') (Slept 0) =
      Logged ERROR (Text (lit "PDF conversion not successful.")).
Proof.
  intros Hp H8 Hc H7 Hf Hk.
  destruct (get_pdf_polled net url w t k doc rounds Hp Hk)
    as (wk & r & _ & Hdoc & E & _).
  rewrite E.
  eexists. split.
  - apply try_except_ret.
    apply (poll_loop_failed net r (poll_prefix ++ t) wk doc l7 l8 Hdoc H7 H8 Hc Hf).
  - cbn [after trace]. rewrite app_assoc. apply last_last.
Qed.

Lemma failed_export_witness :
  exists w',
    get_pdf_download_url_for_confluence_cloud
      (scripted started [in_progress; failed] succeeded) 4 export_url w0
      = (Ret None, w') /\
    last (trace w') (Slept 0) =
      Logged ERROR (Text (lit "PDF conversion not successful.")).
Proof.
  apply (failed_export_returns_none
           (scripted started [in_progress; failed] succeeded)
           export_url w0 (lit "42") 1 (text_of failed)
           (lit "  <isSuccessful>false</isSuccessful>")
           (lit "  <isComplete>true</isComplete>") 4).
  - split; [split|].
    + exists (text_of started). split; [|reflexivity].
      exists started. split; reflexivity.
    + intros i Hi. exists (text_of in_progress).
      destruct i as [|i]; [|lia]. split.
      * exists in_progress. split; reflexivity.
      * left. eexists. split; [vm_compute; reflexivity|]. vm_compute. discriminate.
    + exists failed. split; reflexivity.
  - reflexivity.
  - reflexivity.
  - reflexivity.
  - reflexivity.
  - lia.
Defined.

Lemma href_marker_cons : href_marker = 104%N :: lit "ref=&quot;/wiki/".
Proof. reflexivity. Qed.

Lemma quot_cons : quot = 38%N :: lit "quot".
Proof. reflexivity. Qed.

Ltac not_in_literal :=
  let H := fresh in
  intros H; vm_compute in H;
  repeat (destruct H as [H|H]; [discriminate H|]); exact H.

(** The path the source slices out of a line whose first link is the one
    to [reports/x.pdf]. *)
Lemma download_path_first_link pre post :
  ~ occurs href_marker pre ->
  download_path_of (pre ++ href_marker ++ lit "reports/x.pdf" ++ quot ++ post)
  = Some (lit "reports/x.pdf").
Proof.
  intros Hpre. unfold download_path_of.
  rewrite split_second by discriminate.
  rewrite href_marker_cons in *.
  rewrite partition_first; [|not_in_literal|exact Hpre].
  assert (exists z,
            match partition (104%N :: lit "ref=&quot;/wiki/")
                    (lit "reports/x.pdf" ++ quot ++ post) with
            | Some (a, _) => a
            | None => lit "reports/x.pdf" ++ quot ++ post
            end = lit "reports/x.pdf" ++ quot ++ z) as [z ->].
  { replace (lit "reports/x.pdf" ++ quot ++ post)
      with ((lit "reports/x.pdf" ++ quot) ++ post) by now rewrite <- app_assoc.
    rewrite partition_skip by not_in_literal.
    destruct (partition _ post) as [[a b]|].
    - exists a. now rewrite <- app_assoc.
    - exists post. reflexivity. }
  rewrite split_head by discriminate.
  rewrite quot_cons.
  rewrite partition_first; [reflexivity|not_in_literal|].
  apply partition_none. reflexivity.
Qed.

(** C3, as the code has it: when a polled status document has the
    complete-true tag on line 8, the successful-true tag on line 7, and on
    line 3 the link [href=&quot;/wiki/reports/x.pdf&quot] with no
    [href=&quot;/wiki/] before it on that line, the call returns
    [reports/x.pdf]. *)
Theorem first_link_is_returned net url w t k doc l7 l8 pre post rounds :
  polled net url w t k doc ->
  line doc 8 = Some l8 -> strip l8 = complete_true ->
  line doc 7 = Some l7 -> strip l7 = successful_true ->
  line doc 3 = Some (pre ++ href_marker ++ lit "reports/x.pdf" ++ quot ++ post) ->
  ~ occurs href_marker pre ->
  k < rounds ->
  fst (get_pdf_download_url_for_confluence_cloud net rounds url w)
  = Ret (Some (lit "reports/x.pdf")).
Proof.
  intros Hp H8 Hc H7 Ht H3 Hpre Hk.
  destruct (get_pdf_polled net url w t k doc rounds Hp Hk)
    as (wk & r & _ & Hdoc & E & _).
  destruct (line_before doc 6 8 l8 H8) as [l6 H6]; [lia|].
  pose proof (poll_loop_successful net r (poll_prefix ++ t) wk doc _ l6 l7 l8
                Hdoc H3 H6 H7 H8 Hc Ht) as P.
  rewrite download_path_first_link in P by exact Hpre.
  rewrite E, (try_except_ret _ _ _ _ _ P). reflexivity.
Qed.

Lemma first_link_witness :
  fst (get_pdf_download_url_for_confluence_cloud
         (scripted started [succeeded] failed) 1 export_url w0)
  = Ret (Some (lit "reports/x.pdf")).
Proof.
  apply (first_link_is_returned
           (scripted started [succeeded] failed) export_url w0 (lit "42") 0
           (text_of succeeded)
           (lit "  <isSuccessful>true</isSuccessful>")
           (lit "  <isComplete>true</isComplete>")
           (lit "  <currentStatus>") (lit ";</currentStatus>") 1).
  - split; [split|].
    + exists (text_of started). split; [|reflexivity].
      exists started. split; reflexivity.
    + intros i Hi. lia.
    + exists succeeded. split; reflexivity.
  - reflexivity.
  - reflexivity.
  - reflexivity.
  - reflexivity.
  - reflexivity.
  - apply partition_none. reflexivity.
  - lia.
Defined.

(** C3 as stated fails: line 8 is the complete-true tag, line 7 the
    successful-true tag, line 3 contains
    [href=&quot;/wiki/reports/x.pdf&quot;], and the call returns [a], the
    path of an earlier link on line 3. *)
Lemma link_elsewhere_on_line_3 :
  let doc := text_of succeeded_two_links in
  line doc 8 = Some complete_true /\
  line doc 7 = Some successful_true /\
  (exists l3, line doc 3 = Some l3 /\
              occurs (lit "href=&quot;/wiki/reports/x.pdf&quot;") l3) /\
  polled (scripted started [succeeded_two_links] failed) export_url w0
    (lit "42") 0 doc /\
  fst (get_pdf_download_url_for_confluence_cloud
         (scripted started [succeeded_two_links] failed) 1 export_url w0)
  = Ret (Some (lit "a")) /\
  lit "a" <> lit "reports/x.pdf".
Proof.
  cbv zeta. repeat split.
  - exists (lit two_links). split; [reflexivity|].
    exists (lit "<a href=&quot;/wiki/a&quot;>a</a> <a "), (lit ">x</a>").
    reflexivity.
  - exists (text_of started). split; [|reflexivity].
    exists started. split; reflexivity.
  - intros i Hi. lia.
  - exists succeeded_two_links. split; reflexivity.
  - discriminate.
Qed.

(** C4: when the polls are answered by finitely many documents that
    report not complete, followed by one that reports complete and
    successful, the call does not end while the not-complete documents
    last (with no more rounds than there are such documents it is still
    running), and with one more round it returns the download path of the
    last document, having sent one poll per document. *)
Theorem polls_until_complete net url w t docs final l3 l7 l8 path rounds :
  initiated net url w t ->
  (forall i doc, nth_error docs i = Some doc ->
     answers net (S (sent w) + i) (poll_prefix ++ t) doc /\ not_complete doc) ->
  answers net (S (sent w) + List.length docs) (poll_prefix ++ t) final ->
  line final 8 = Some l8 -> strip l8 = complete_true ->
  line final 7 = Some l7 -> strip l7 = successful_true ->
  line final 3 = Some l3 -> download_path_of l3 = Some path ->
  (rounds <= List.length docs ->
     fst (get_pdf_download_url_for_confluence_cloud net rounds url w) = Running) /\
  (List.length docs < rounds ->
     fst (get_pdf_download_url_for_confluence_cloud net rounds url w)
       = Ret (Some path) /\
     requests (trace (snd (get_pdf_download_url_for_confluence_cloud
                             net rounds url w)))
       = requests (trace w) ++
         GetContent url ::
         repeat (GetContent (poll_prefix ++ t)) (S (List.length docs))).
Proof.
  intros Hinit Hdocs Hfinal H8 Hc H7 Ht H3 Hpath.
  assert (reaches net url w t (List.length docs)) as Hr.
  { split; [exact Hinit|]. intros i Hi.
    destruct (nth_error docs i) as [doc|] eqn:E.
    - exists doc. destruct (Hdocs i doc E) as [Ha Hn].
      split; [exact Ha | left; exact Hn].
    - apply nth_error_None in E. lia. }
  split; intros Hrounds.
  - apply (get_pdf_running net url w t (List.length docs) rounds Hr Hrounds).
  - destruct (get_pdf_polled net url w t (List.length docs) final rounds
                (conj Hr Hfinal) Hrounds)
      as (wk & r & _ & Hdoc & E & R & _).
    destruct (line_before final 6 8 l8 H8) as [l6 H6]; [lia|].
    pose proof (poll_loop_successful net r (poll_prefix ++ t) wk final l3 l6 l7 l8
                  Hdoc H3 H6 H7 H8 Hc Ht) as P.
    rewrite Hpath in P.
    rewrite E, (try_except_ret _ _ _ _ _ P).
    split; [reflexivity|].
    cbn [snd after trace]. rewrite !requests_app, R.
    cbn [requests poll_and_sleep downloading app].
    rewrite <- app_assoc. cbn [app].
    now rewrite <- repeat_cons.
Qed.

Lemma polls_until_complete_witness :
  (3 <= 2 ->
     fst (get_pdf_download_url_for_confluence_cloud
            (scripted started [in_progress; in_progress; succeeded] failed)
            3 export_url w0) = Running) /\
  (2 < 3 ->
     fst (get_pdf_download_url_for_confluence_cloud
            (scripted started [in_progress; in_progress; succeeded] failed)
            3 export_url w0)
       = Ret (Some (lit "reports/x.pdf")) /\
     requests (trace (snd (get_pdf_download_url_for_confluence_cloud
            (scripted started [in_progress; in_progress; succeeded] failed)
            3 export_url w0)))
       = requests (trace w0) ++
         GetContent export_url :: repeat (GetContent (poll_prefix ++ lit "42")) 3).
Proof.
  apply (polls_until_complete
           (scripted started [in_progress; in_progress; succeeded] failed)
           export_url w0 (lit "42")
           [text_of in_progress; text_of in_progress] (text_of succeeded)
           (lit link)
           (lit "  <isSuccessful>true</isSuccessful>")
           (lit "  <isComplete>true</isComplete>")
           (lit "reports/x.pdf") 3).
  - exists (text_of started). split; [|reflexivity].
    exists started. split; reflexivity.
  - intros i doc Hi.
    destruct i as [|[|i]]; cbn in Hi; try (destruct i; discriminate Hi);
      injection Hi as <-.
    + split; [exists in_progress; split; reflexivity|].
      eexists. split; [vm_compute; reflexivity|]. vm_compute. discriminate.
    + split; [exists in_progress; split; reflexivity|].
      eexists. split; [vm_compute; reflexivity|]. vm_compute. discriminate.
  - exists succeeded. split; reflexivity.
  - reflexivity.
  - reflexivity.
  - reflexivity.
  - reflexivity.
  - reflexivity.
  - reflexivity.
Defined.

(** C10: when a polled status document has the complete-true tag on
    line 8 and a line 7 that is neither success tag, that iteration neither
    returns a path nor fails: after it the call is still running, and with
    more rounds it goes on to the next poll.  A transport that answers
    every poll this way keeps the call running whatever the number of
    rounds. *)
Theorem unrecognized_success_keeps_polling net url w t k doc :
  polled net url w t k doc ->
  unrecognized doc ->
  fst (get_pdf_download_url_for_confluence_cloud net (S k) url w) = Running /\
  (exists w',
     sent w' = S (sent w) + S k /\
     forall rounds,
       get_pdf_download_url_for_confluence_cloud net (S k + rounds) url w =
       try_except (poll_loop net rounds (poll_prefix ++ t)) on_index_error w') /\
  ((forall i, exists d,
      answers net (S (sent w) + i) (poll_prefix ++ t) d /\ unrecognized d) ->
   forall rounds,
     fst (get_pdf_download_url_for_confluence_cloud net rounds url w) = Running).
Proof.
  intros [Hr Hdoc] Hu.
  assert (reaches net url w t (S k)) as Hr'.
  { destruct Hr as [Hi Hk]. split; [exact Hi|]. intros i Hlt.
    destruct (Nat.eq_dec i k) as [->|Hne].
    - exists doc. split; [exact Hdoc | right; exact Hu].
    - apply Hk. lia. }
  split; [|split].
  - apply (get_pdf_running net url w t (S k) (S k) Hr'). lia.
  - destruct (get_pdf_reaches net url w t (S k) Hr') as (evs & E & _).
    eexists. split; [|exact E]. reflexivity.
  - intros Hall rounds.
    apply (get_pdf_running net url w t rounds rounds); [|lia].
    destruct Hr as [Hi _]. split; [exact Hi|]. intros i _.
    destruct (Hall i) as (d & Hd & Hud). exists d.
    split; [exact Hd | right; exact Hud].
Qed.

Lemma unrecognized_success_witness :
  fst (get_pdf_download_url_for_confluence_cloud
         (scripted started [] undecided) 1 export_url w0) = Running /\
  (exists w',
     sent w' = S (sent w0) + 1 /\
     forall rounds,
       get_pdf_download_url_for_confluence_cloud
         (scripted started [] undecided) (1 + rounds) export_url w0 =
       try_except (poll_loop (scripted started [] undecided) rounds
                     (poll_prefix ++ lit "42")) on_index_error w') /\
  ((forall i, exists d,
      answers (scripted started [] undecided) (S (sent w0) + i)
        (poll_prefix ++ lit "42") d /\ unrecognized d) ->
   forall rounds,
     fst (get_pdf_download_url_for_confluence_cloud
            (scripted started [] undecided) rounds export_url w0) = Running).
Proof.
  apply (unrecognized_success_keeps_polling
           (scripted started [] undecided) export_url w0 (lit "42") 0
           (text_of undecided)).
  - split; [split|].
    + exists (text_of started). split; [|reflexivity].
      exists started. split; reflexivity.
    + intros i Hi. lia.
    + exists undecided. split; reflexivity.
  - exists (lit "  <isSuccessful>unknown</isSuccessful>"),
      (lit "  <isComplete>true</isComplete>").
    repeat split; try reflexivity; vm_compute; discriminate.
Defined.

(** C8: for the task identifier [t] sliced out of the initiating
    response, every poll of the call is a request to
    [runningtaskxml.action?taskId=] followed by [t], and a call that gets as
    far as poll [k] sends at least [k + 1] of them.  What the call does
    with the document of poll [k] is decided by the elements 6, 7 and 8 of
    its split on newline, stripped.  Element 8 is the completion tag: when
    it is not the complete-true tag the call logs the percentage and polls
    again.  Element 7 is the success tag: on a complete document the
    successful-true tag ends the call with the download logged after the
    percentage, the successful-false tag ends it with [None] and the failed
    conversion logged, and any other value makes the call poll again.
    Element 6 is the percentage that is logged. *)
Theorem poll_url_and_fields net url w t k doc l6 l7 l8 rounds :
  polled net url w t k doc ->
  nth_error (split newline doc) 6 = Some l6 ->
  nth_error (split newline doc) 7 = Some l7 ->
  nth_error (split newline doc) 8 = Some l8 ->
  k < rounds ->
  let poll_url := lit "runningtaskxml.action?taskId=" ++ t in
  let percentage_complete := strip l6 in
  let is_successful := strip l7 in
  let is_complete := strip l8 in
  let call := get_pdf_download_url_for_confluence_cloud net rounds url w in
  exists before rest j,
    trace (snd call) =
      trace w ++ initiating url ++ before ++ poll_and_sleep poll_url ++ rest /\
    requests before = repeat (GetContent poll_url) k /\
    requests rest = repeat (GetContent poll_url) j /\
    requests (trace (snd call)) =
      requests (trace w) ++
      GetContent url :: repeat (GetContent poll_url) (S k + j) /\
    (is_complete <> complete_true ->
     (exists rest', rest = Logged INFO (Text percentage_complete) :: rest') /\
     (S k < rounds -> 0 < j)) /\
    (is_complete = complete_true -> is_successful = successful_true ->
     (exists rest', rest = downloading percentage_complete ++ rest') /\
     j = 0 /\ exists result, fst call = Ret result) /\
    (is_complete = complete_true -> is_successful = successful_false ->
     rest = [Logged ERROR (Text (lit "PDF conversion not successful."))] /\
     fst call = Ret None) /\
    (is_complete = complete_true ->
     is_successful <> successful_true -> is_successful <> successful_false ->
     S k < rounds -> 0 < j).
Proof.
  intros [Hr Hdoc] H6 H7 H8 Hk. cbv zeta.
  change (lit "runningtaskxml.action?taskId=") with poll_prefix.
  destruct (get_pdf_reaches net url w t k Hr) as (evs & E & R & _).
  specialize (E (S (rounds - S k))).
  replace (k + S (rounds - S k)) with rounds in E by lia.
  set (pu := poll_prefix ++ t) in *.
  set (wk := {| sent := S (sent w) + k;
                trace := trace w ++ initiating url ++ evs |}) in *.
  remember (rounds - S k) as r eqn:Hrounds in *.
  assert (answers net (sent wk) pu doc) as Hdoc' by exact Hdoc.
  destruct (line_before doc 3 8 l8 H8) as [l3 H3]; [lia|].
  pose proof (poll_loop_fields net r pu wk doc l6 l7 l8 Hdoc' H6 H7 H8) as F.
  assert (forall w',
            exists e j,
              trace (snd (poll_loop net r pu w')) = trace w' ++ e /\
              requests e = repeat (GetContent pu) j /\
              (S k < rounds -> 0 < j)) as Hgo.
  { intros w'. destruct r as [|r'].
    - destruct (poll_loop_trace net pu 0 w') as (e & j & Et & Rt).
      exists e, j. repeat split; try assumption. lia.
    - destruct (poll_loop_first_poll net pu r' w') as (e & j & Et & Rt).
      exists e, (S j). repeat split; try assumption. lia. }
  assert (forall tr rest j,
            tr = trace w ++ initiating url ++ evs ++ poll_and_sleep pu ++ rest ->
            requests rest = repeat (GetContent pu) j ->
            requests tr =
            requests (trace w) ++
            GetContent url :: repeat (GetContent pu) (S k + j)) as Hreq.
  { intros tr rest j -> Rr. rewrite !requests_app, R, Rr.
    cbn [requests initiating poll_and_sleep app].
    replace (S k + j) with (k + S j) by lia.
    now rewrite repeat_app. }
  destruct (handled_outcome (poll_loop net (S r) pu) wk)
    as (h & Rh & _ & Hsnd & Hfst).
  assert (forall w' e j,
            snd (poll_loop net (S r) pu wk) = w' ->
            trace w' = trace wk ++ poll_and_sleep pu ++ e ->
            requests e = repeat (GetContent pu) j ->
            trace (snd (get_pdf_download_url_for_confluence_cloud
                          net rounds url w))
            = trace w ++ initiating url ++ evs ++ poll_and_sleep pu ++ e ++ h /\
            requests (e ++ h) = repeat (GetContent pu) j) as Hend.
  { intros w' e j Hw' Ht Re. rewrite E, Hsnd, Hw'. cbn [record trace].
    rewrite Ht. unfold wk. cbn [trace]. rewrite <- !app_assoc.
    split; [reflexivity|]. now rewrite requests_app, Re, Rh, app_nil_r. }
  destruct (eqb (strip l8) complete_true) eqn:Hc.
  2: { apply eqb_neq in Hc.
       rewrite bind_log, record_after in F.
       destruct (Hgo (after wk (poll_and_sleep pu ++
                                [Logged INFO (Text (strip l6))])))
         as (e & j & Et & Rt & Hj).
       destruct (Hend _ (Logged INFO (Text (strip l6)) :: e) j eq_refl)
         as [Htr Hrs].
       { rewrite F, Et. cbn [after trace]. now rewrite <- ?app_assoc. }
       { exact Rt. }
       exists evs, ((Logged INFO (Text (strip l6)) :: e) ++ h), j.
       split; [exact Htr|]. split; [exact R|]. split; [exact Hrs|].
       split; [exact (Hreq _ _ _ Htr Hrs)|].
       split; [|repeat split; intros; contradiction].
       intros _. split; [|exact Hj]. eexists. reflexivity. }
  apply eqb_eq in Hc.
  destruct (eqb (strip l7) successful_true) eqn:Hs.
  { apply eqb_eq in Hs.
    pose proof (poll_loop_successful net r pu wk doc l3 l6 l7 l8
                  Hdoc' H3 H6 H7 H8 Hc Hs) as P.
    destruct (Hend _ (downloading (strip l6)) 0 eq_refl) as [Htr Hrs].
    { rewrite P. cbn [snd after trace]. now rewrite <- ?app_assoc. }
    { reflexivity. }
    exists evs, (downloading (strip l6) ++ h), 0.
    split; [exact Htr|]. split; [exact R|]. split; [exact Hrs|].
    split; [exact (Hreq _ _ _ Htr Hrs)|].
    split; [intros Hno; contradiction|].
    split; [|split; [intros _ Hf | intros _ Hno; contradiction]].
    - intros _ _. split; [eexists; reflexivity|]. split; [reflexivity|].
      rewrite E, Hfst, P. cbn [fst].
      destruct (download_path_of l3); eexists; reflexivity.
    - rewrite Hs in Hf. discriminate Hf. }
  apply eqb_neq in Hs.
  destruct (eqb (strip l7) successful_false) eqn:Hf.
  { apply eqb_eq in Hf.
    pose proof (poll_loop_failed net r pu wk doc l7 l8 Hdoc' H7 H8 Hc Hf) as P.
    pose proof (try_except_ret _ on_index_error _ _ _ P) as T.
    exists evs, [Logged ERROR (Text (lit "PDF conversion not successful."))], 0.
    assert (trace (snd (get_pdf_download_url_for_confluence_cloud
                          net rounds url w))
            = trace w ++ initiating url ++ evs ++ poll_and_sleep pu ++
              [Logged ERROR (Text (lit "PDF conversion not successful."))])
      as Htr.
    { rewrite E, T. cbn [snd after trace]. unfold wk. cbn [trace].
      now rewrite <- !app_assoc. }
    split; [exact Htr|]. split; [exact R|]. split; [reflexivity|].
    split; [exact (Hreq _ _ 0 Htr eq_refl)|].
    split; [intros Hno; contradiction|].
    split; [intros _ Hyes; contradiction|].
    split; [|intros _ _ Hno; contradiction].
    intros _ _. split; [reflexivity|]. now rewrite E, T. }
  apply eqb_neq in Hf.
  destruct (Hgo (after wk (poll_and_sleep pu))) as (e & j & Et & Rt & Hj).
  destruct (Hend _ e j eq_refl) as [Htr Hrs].
  { rewrite F, Et. cbn [after trace]. now rewrite <- ?app_assoc. }
  { exact Rt. }
  exists evs, (e ++ h), j.
  split; [exact Htr|]. split; [exact R|]. split; [exact Hrs|].
  split; [exact (Hreq _ _ _ Htr Hrs)|].
  split; [intros Hno; contradiction|].
  split; [intros _ Hyes; contradiction|].
  split; [intros _ Hyes; contradiction|].
  intros _ _ _. exact Hj.
Qed.

Lemma poll_url_and_fields_witness :
  exists before rest j,
    trace (snd (get_pdf_download_url_for_confluence_cloud
                   (scripted started [in_progress; succeeded] failed)
                   5 export_url w0)) =
      trace w0 ++ initiating export_url ++ before ++
      poll_and_sleep (lit "runningtaskxml.action?taskId=" ++ lit "42") ++ rest /\
    requests before =
      repeat (GetContent (lit "runningtaskxml.action?taskId=" ++ lit "42")) 0 /\
    requests rest =
      repeat (GetContent (lit "runningtaskxml.action?taskId=" ++ lit "42")) j /\
    requests (trace (snd (get_pdf_download_url_for_confluence_cloud
                   (scripted started [in_progress; succeeded] failed)
                   5 export_url w0))) =
      requests (trace w0) ++
      GetContent export_url ::
      repeat (GetContent (lit "runningtaskxml.action?taskId=" ++ lit "42"))
        (1 + j) /\
    (strip (lit "  <isComplete>false</isComplete>") <> complete_true ->
     (exists rest', rest = Logged INFO (Text (strip (lit "  40%"))) :: rest') /\
     (1 < 5 -> 0 < j)) /\
    (strip (lit "  <isComplete>false</isComplete>") = complete_true ->
     strip (lit "  <isSuccessful>false</isSuccessful>") = successful_true ->
     (exists rest', rest = downloading (strip (lit "  40%")) ++ rest') /\
     j = 0 /\
     exists result, fst (get_pdf_download_url_for_confluence_cloud
                   (scripted started [in_progress; succeeded] failed)
                   5 export_url w0) = Ret result) /\
    (strip (lit "  <isComplete>false</isComplete>") = complete_true ->
     strip (lit "  <isSuccessful>false</isSuccessful>") = successful_false ->
     rest = [Logged ERROR (Text (lit "PDF conversion not successful."))] /\
     fst (get_pdf_download_url_for_confluence_cloud
                   (scripted started [in_progress; succeeded] failed)
                   5 export_url w0) = Ret None) /\
    (strip (lit "  <isComplete>false</isComplete>") = complete_true ->
     strip (lit "  <isSuccessful>false</isSuccessful>") <> successful_true ->
     strip (lit "  <isSuccessful>false</isSuccessful>") <> successful_false ->
     1 < 5 -> 0 < j).
Proof.
  apply (poll_url_and_fields
           (scripted started [in_progress; succeeded] failed) export_url w0
           (lit "42") 0 (text_of in_progress) (lit "  40%")
           (lit "  <isSuccessful>false</isSuccessful>")
           (lit "  <isComplete>false</isComplete>") 5).
  - split; [split|].
    + exists (text_of started). split; [|reflexivity].
      exists started. split; reflexivity.
    + intros i Hi. lia.
    + exists in_progress. split; reflexivity.
  - reflexivity.
  - reflexivity.
  - reflexivity.
  - lia.
Defined.

(** C2, as the code has it: an iteration that finds lines 6, 7 and 8
    sleeps 5 before it looks at them, so the poll, the sleep and the two
    log lines around it come first in what the iteration adds to the
    trace whether the document reports complete or not; when line 8 is not
    the complete-true tag the iteration then logs the percentage and the
    loop goes round again. *)
Theorem sleeps_before_checking net rounds poll_url w doc l6 l8 :
  answers net (sent w) poll_url doc ->
  line doc 6 = Some l6 -> line doc 8 = Some l8 ->
  (exists evs,
     trace (snd (poll_loop net (S rounds) poll_url w))
     = trace w ++
       [Sent (GetContent poll_url);
        Logged INFO (Text (lit "Sleep for 5s."));
        Slept 5;
        Logged INFO (Text (lit "Check if export task has completed."))] ++ evs) /\
  (strip l8 <> complete_true ->
   poll_loop net (S rounds) poll_url w =
   poll_loop net rounds poll_url
     (after w (poll_and_sleep poll_url ++ [Logged INFO (Text (strip l6))]))).
Proof.
  intros Hdoc H6 H8.
  destruct (line_before doc 7 8 l8 H8) as [l7 H7]; [lia|].
  destruct (line_before doc 3 8 l8 H8) as [l3 H3]; [lia|].
  fold (poll_and_sleep poll_url).
  assert (forall evs,
            exists evs',
              trace (snd (poll_loop net rounds poll_url
                            (after w (poll_and_sleep poll_url ++ evs))))
              = trace w ++ poll_and_sleep poll_url ++ evs') as Hgo.
  { intros evs.
    destruct (poll_loop_trace net poll_url rounds
                (after w (poll_and_sleep poll_url ++ evs))) as (e & _ & E & _).
    exists (evs ++ e). rewrite E. cbn [after trace].
    now rewrite <- !app_assoc. }
  pose proof (poll_loop_fields net rounds poll_url w doc l6 l7 l8
                Hdoc H6 H7 H8) as F.
  destruct (eqb (strip l8) complete_true) eqn:Hc.
  - split; [|intros Hno; apply eqb_eq in Hc; contradiction].
    apply eqb_eq in Hc.
    destruct (eqb (strip l7) successful_true) eqn:Ht.
    { apply eqb_eq in Ht.
      rewrite (poll_loop_successful net rounds poll_url w doc l3 l6 l7 l8
                 Hdoc H3 H6 H7 H8 Hc Ht).
      exists (downloading (strip l6)). cbn [snd after trace]. reflexivity. }
    destruct (eqb (strip l7) successful_false) eqn:Hf.
    { apply eqb_eq in Hf.
      rewrite (poll_loop_failed net rounds poll_url w doc l7 l8
                 Hdoc H7 H8 Hc Hf).
      eexists. cbn [snd after trace]. reflexivity. }
    rewrite F. destruct (Hgo []) as [e E]. exists e.
    rewrite app_nil_r in E. exact E.
  - rewrite bind_log, record_after in F. split.
    + rewrite F. apply Hgo.
    + intros _. exact F.
Qed.

Lemma sleeps_before_checking_witness :
  (exists evs,
     trace (snd (poll_loop (scripted started [succeeded_at_once] failed) 1
                   poll_42 (after w0 (initiating export_url))))
     = trace (after w0 (initiating export_url)) ++
       [Sent (GetContent poll_42);
        Logged INFO (Text (lit "Sleep for 5s."));
        Slept 5;
        Logged INFO (Text (lit "Check if export task has completed."))] ++ evs) /\
  (strip complete_true <> complete_true ->
   poll_loop (scripted started [succeeded_at_once] failed) 1 poll_42
     (after w0 (initiating export_url)) =
   poll_loop (scripted started [succeeded_at_once] failed) 0 poll_42
     (after (after w0 (initiating export_url))
        (poll_and_sleep poll_42 ++ [Logged INFO (Text (strip (lit "100%")))]))).
Proof.
  apply (sleeps_before_checking
           (scripted started [succeeded_at_once] failed) 0 poll_42
           (after w0 (initiating export_url)) (text_of succeeded_at_once)
           (lit "100%") complete_true).
  - exists succeeded_at_once. split; reflexivity.
  - reflexivity.
  - reflexivity.
Defined.

(** C2 as stated fails: the only iteration of this call is on a document
    that reports complete, the call returns the path, and the trace has the
    sleep of 5 in it. *)
Lemma complete_iteration_sleeps :
  polled (scripted started [succeeded_at_once] failed) export_url w0
    (lit "42") 0 (text_of succeeded_at_once) /\
  line (text_of succeeded_at_once) 8 = Some complete_true /\
  fst (get_pdf_download_url_for_confluence_cloud
         (scripted started [succeeded_at_once] failed) 1 export_url w0)
    = Ret (Some (lit "reports/x.pdf")) /\
  sleeps (trace (snd (get_pdf_download_url_for_confluence_cloud
                        (scripted started [succeeded_at_once] failed)
                        1 export_url w0)))
    = [5%Z].
Proof.
  repeat split.
  - exists (text_of started). split; [|reflexivity].
    exists started. split; reflexivity.
  - intros i Hi. lia.
  - exists succeeded_at_once. split; reflexivity.
Qed.

(** C1, as the code has it: the handler is for [IndexError] only.  A
    received response that decodes but lacks what the parsing indexes (no
    task marker in the initiating response; a polled document without a
    line 8, or one that reports success without a link on line 3) makes the
    call return [None].  A received body that is not valid UTF-8, in the
    initiating response or in a poll, makes the call raise
    [UnicodeDecodeError] to its caller. *)
Theorem index_errors_caught_decode_errors_raised net url w rounds bs :
  content_of net (sent w) url = Received bs ->
  (decode bs = None ->
   fst (get_pdf_download_url_for_confluence_cloud net rounds url w)
   = Raise UnicodeDecodeError) /\
  (forall text,
     decode bs = Some text -> task_id_of text = None ->
     fst (get_pdf_download_url_for_confluence_cloud net rounds url w)
     = Ret None) /\
  (forall text t k bs',
     decode bs = Some text -> task_id_of text = Some t ->
     (forall i, i < k ->
        exists doc,
          answers net (S (sent w) + i) (poll_prefix ++ t) doc /\ pending doc) ->
     content_of net (S (sent w) + k) (poll_prefix ++ t) = Received bs' ->
     k < rounds ->
     (decode bs' = None ->
      fst (get_pdf_download_url_for_confluence_cloud net rounds url w)
      = Raise UnicodeDecodeError) /\
     (forall doc,
        decode bs' = Some doc -> malformed doc ->
        fst (get_pdf_download_url_for_confluence_cloud net rounds url w)
        = Ret None)).
Proof.
  intros Hnet. split; [|split].
  - intros Hdec.
    now rewrite (get_pdf_undecodable net rounds url w bs Hnet Hdec).
  - intros text Hdec Ht.
    assert (answers net (sent w) url text) as Hans by (exists bs; auto).
    now rewrite (get_pdf_not_initiated net rounds url w text Hans Ht).
  - intros text t k bs' Hdec Ht Hpend Hnet' Hk.
    assert (reaches net url w t k) as Hr.
    { split; [exists text; split; [exists bs; auto | exact Ht] | exact Hpend]. }
    destruct (get_pdf_reaches net url w t k Hr) as (evs & E & _).
    specialize (E (S (rounds - S k))).
    replace (k + S (rounds - S k)) with rounds in E by lia.
    rewrite E. clear E.
    set (wk := {| sent := S (sent w) + k;
                  trace := trace w ++ initiating url ++ evs |}).
    split.
    + intros Hdec'.
      erewrite try_except_passed;
        [| apply (poll_loop_undecodable net _ (poll_prefix ++ t) wk bs'
                    Hnet' Hdec')
         | reflexivity ].
      reflexivity.
    + intros doc Hdec'.
      assert (answers net (sent wk) (poll_prefix ++ t) doc) as Hdoc
          by (exists bs'; auto).
      intros [H8 | (l3 & l7 & l8 & H3 & H7 & H8 & Hc & Hs & Hpath)].
      * erewrite try_except_caught;
          [| apply (poll_loop_short net _ (poll_prefix ++ t) wk doc Hdoc H8)
           | reflexivity ].
        reflexivity.
      * destruct (line_before doc 6 8 l8 H8) as [l6 H6]; [lia|].
        pose proof (poll_loop_successful net (rounds - S k) (poll_prefix ++ t)
                      wk doc l3 l6 l7 l8 Hdoc H3 H6 H7 H8 Hc Hs) as P.
        rewrite Hpath in P.
        erewrite try_except_caught; [| exact P | reflexivity ].
        reflexivity.
Qed.

Lemma index_errors_caught_witness :
  fst (get_pdf_download_url_for_confluence_cloud
         (scripted started [in_progress; truncated] not_utf8) 3 export_url w0)
  = Ret None.
Proof.
  destruct (index_errors_caught_decode_errors_raised
              (scripted started [in_progress; truncated] not_utf8)
              export_url w0 3 started eq_refl) as (_ & _ & H).
  destruct (H (text_of started) (lit "42") 1 truncated) as [_ H'].
  - reflexivity.
  - reflexivity.
  - intros i Hi. exists (text_of in_progress).
    destruct i as [|i]; [|lia]. split.
    + exists in_progress. split; reflexivity.
    + left. eexists. split; [vm_compute; reflexivity|]. vm_compute. discriminate.
  - reflexivity.
  - lia.
  - apply (H' (text_of truncated)); [reflexivity|].
    left. reflexivity.
Defined.

(** C1 as stated fails: the initiating response is received, its body is
    not valid UTF-8, and the caller sees [UnicodeDecodeError] raised, not
    [None] returned. *)
Lemma undecodable_response_raises :
  content_of (scripted not_utf8 [] not_utf8) (sent w0) export_url
    = Received not_utf8 /\
  decode not_utf8 = None /\
  get_pdf_download_url_for_confluence_cloud
    (scripted not_utf8 [] not_utf8) 1 export_url w0
  = (Raise UnicodeDecodeError, after w0 (initiating export_url)).
Proof. repeat split. Qed.

End PollerClaims.

(** ** Updating a page *)

Module PagesClaims.

Import Pages PagesSpec.

Example update_same_content :
  update_page (serving (stored_page (lit "<p>1.0</p>"))) as_is
    (lit "1234") (lit "Release notes") (lit "<p>1.0</p>") None
    (lit "page") (lit "storage") false fresh
  = (Ret (stored_page (lit "<p>1.0</p>")),
     {| sent := 2;
        trace := updating (lit "Release notes") (lit "page")
                 :: Sent (GetJson (content_url (lit "1234")) storage_params)
                 :: compared (lit "1234") (lit "<p>1.0</p>")
                 ++ [Sent (GetJson (content_url (lit "1234")) [])] |}).
Proof. vm_compute. reflexivity. Qed.

Example update_other_content :
  requests (trace (snd (update_page (serving (stored_page (lit "<p>1.0</p>")))
    as_is (lit "1234") (lit "Release notes") (lit "<p>1.1</p>") None
    (lit "page") (lit "storage") false fresh)))
  = [GetJson (content_url (lit "1234")) storage_params;
     GetJson (lit "rest/api/content/1234/history") []].
Proof. vm_compute. reflexivity. Qed.

Lemma get_page_by_id_storage net page_id :
  get_page_by_id net page_id (Some (lit "body.storage")) None None =
  get_json net (content_url page_id) storage_params.
Proof. reflexivity. Qed.

Lemma get_page_by_id_plain net page_id :
  get_page_by_id net page_id None None None =
  get_json net (content_url page_id) [].
Proof. reflexivity. Qed.

(** The comparison, on a page that stores [content]. *)
Lemma same_content_is_already_updated net symbol_normalizer page_id body w
    page content :
  json_of net (sent w) (content_url page_id) storage_params = Received page ->
  stores page content ->
  normalized_content symbol_normalizer content = Received (VStr body) ->
  is_page_content_is_already_updated net symbol_normalizer page_id body w =
  (Ret true,
   after w (Sent (GetJson (content_url page_id) storage_params)
            :: compared page_id body)).
Proof.
  intros Hnet (items & b & st & -> & Hb & Hst & Hv) Hsame.
  unfold is_page_content_is_already_updated.
  rewrite get_page_by_id_storage. unfold get_json.
  rewrite bind_send with (a := VDict items) by exact Hnet.
  assert (forall d k v, lookup k d = Some v -> or_empty (VDict d) = VDict d) as Hor.
  { intros [|x d] k v H; [discriminate | reflexivity]. }
  rewrite (Hor items _ _ Hb). cbn [dict_get]. rewrite Hb.
  rewrite (Hor b _ _ Hst). cbn [dict_get]. rewrite Hst.
  rewrite (Hor st _ _ Hv). cbn [dict_get]. rewrite Hv.
  assert (normalized symbol_normalizer content = ret (VStr body)) as ->.
  { unfold normalized, normalized_content in *.
    destruct (truthy content);
      [rewrite Hsame | injection Hsame as ->]; reflexivity. }
  unfold bind at 1. cbn [ret].
  rewrite !bind_log. cbn [equals_text]. rewrite eqb_refl.
  rewrite bind_log, !record_record, record_after. reflexivity.
Qed.

(** C9: when the page fetched for the comparison stores content that,
    after symbol normalization, equals the candidate body, [update_page]
    is the plain [get_page_by_id] that follows the comparison: it returns
    what that request returns, and the requests of the call are the two
    GETs; no PUT is sent. *)
Theorem unchanged_content_is_not_written net symbol_normalizer
    page_id title body parent_id type representation minor_edit w page content :
  json_of net (sent w) (content_url page_id) storage_params = Received page ->
  stores page content ->
  normalized_content symbol_normalizer content = Received (VStr body) ->
  update_page net symbol_normalizer page_id title body parent_id type
    representation minor_edit w =
    get_page_by_id net page_id None None None
      (after w (updating title type
                :: Sent (GetJson (content_url page_id) storage_params)
                :: compared page_id body)) /\
  requests (trace (snd (update_page net symbol_normalizer page_id title body
                          parent_id type representation minor_edit w)))
    = requests (trace w) ++
      [GetJson (content_url page_id) storage_params;
       GetJson (content_url page_id) []].
Proof.
  intros Hnet Hstores Hsame.
  assert (update_page net symbol_normalizer page_id title body parent_id type
            representation minor_edit w =
          get_page_by_id net page_id None None None
            (after w (updating title type
                      :: Sent (GetJson (content_url page_id) storage_params)
                      :: compared page_id body))) as E.
  { unfold update_page. rewrite bind_log. unfold bind at 1.
    fold (updating title type).
    rewrite (same_content_is_already_updated net symbol_normalizer page_id body
               (record w [updating title type]) page content Hnet Hstores Hsame).
    rewrite after_record. reflexivity. }
  split; [exact E|].
  rewrite E, get_page_by_id_plain. unfold get_json, send. cbn [after sent trace].
  destruct (json_of net (S (sent w)) _ _); cbn [of_reply ret raise snd trace];
    rewrite !requests_app; cbn [requests compared updating app];
    rewrite <- app_assoc; reflexivity.
Qed.

Lemma unchanged_content_witness :
  update_page (serving (stored_page (lit "<p>1.0</p>"))) as_is
    (lit "1234") (lit "Release notes") (lit "<p>1.0</p>") None
    (lit "page") (lit "storage") false fresh =
    get_page_by_id (serving (stored_page (lit "<p>1.0</p>"))) (lit "1234")
      None None None
      (after fresh
         (updating (lit "Release notes") (lit "page")
          :: Sent (GetJson (content_url (lit "1234")) storage_params)
          :: compared (lit "1234") (lit "<p>1.0</p>"))) /\
  requests (trace (snd (update_page (serving (stored_page (lit "<p>1.0</p>")))
                          as_is (lit "1234") (lit "Release notes")
                          (lit "<p>1.0</p>") None (lit "page") (lit "storage")
                          false fresh)))
    = requests (trace fresh) ++
      [GetJson (content_url (lit "1234")) storage_params;
       GetJson (content_url (lit "1234")) []].
Proof.
  apply (unchanged_content_is_not_written
           (serving (stored_page (lit "<p>1.0</p>"))) as_is
           (lit "1234") (lit "Release notes") (lit "<p>1.0</p>") None
           (lit "page") (lit "storage") false fresh
           (stored_page (lit "<p>1.0</p>")) (VStr (lit "<p>1.0</p>"))).
  - reflexivity.
  - eexists _, _, _. repeat split; reflexivity.
  - reflexivity.
Defined.

End PagesClaims.

(** ** More about text *)

Module PyStrMoreFacts.

Import PyStrMore.

Lemma occurs_app_l (sep a b : str) : occurs sep a -> occurs sep (a ++ b).
Proof.
  intros (p & q & ->). exists p, (q ++ b). now rewrite <- !app_assoc.
Qed.

Lemma occurs_app_r (sep a b : str) : occurs sep b -> occurs sep (a ++ b).
Proof.
  intros (p & q & ->). exists (a ++ p), q. now rewrite <- !app_assoc.
Qed.

(** The text before the leftmost occurrence is free of the separator. *)
Lemma partition_before_free (sep : str) :
  sep <> [] ->
  forall s a b, partition sep s = Some (a, b) -> ~ occurs sep a.
Proof.
  intros Hsep. induction s as [|c s IH]; intros a b; rewrite partition_eq.
  - destruct (startswith sep []) eqn:E; [|discriminate].
    apply startswith_spec in E as [r E]. symmetry in E.
    apply app_eq_nil in E as [E _]. congruence.
  - destruct (startswith sep (c :: s)) eqn:E.
    + intros H. injection H as <- _. intros (p & q & H).
      symmetry in H. apply app_eq_nil in H as [_ H].
      apply app_eq_nil in H as [H _]. congruence.
    + destruct (partition sep s) as [[a' b']|] eqn:P; [|discriminate].
      intros H. injection H as <- <-. intros (p & q & H).
      destruct p as [|x p].
      * simpl in H. apply partition_some in P.
        assert (startswith sep (c :: s) = true) as E'.
        { apply startswith_spec. exists (q ++ sep ++ b').
          rewrite P. change (c :: a' ++ sep ++ b') with ((c :: a') ++ sep ++ b').
          rewrite H. now rewrite <- app_assoc. }
        congruence.
      * injection H as _ H. apply (IH a' b' eq_refl). now exists p, q.
Qed.

(** The first part of a split is a prefix of the text and free of the
    separator. *)
Lemma split_first_part (sep s h : str) :
  sep <> [] ->
  nth_error (split sep s) 0 = Some h ->
  ~ occurs sep h /\ exists r, s = h ++ r.
Proof.
  intros Hsep. rewrite split_head by exact Hsep. intros H. injection H as <-.
  destruct (partition sep s) as [[a b]|] eqn:P.
  - split; [apply (partition_before_free sep Hsep s a b P)|].
    exists (sep ++ b). now apply partition_some.
  - split; [now apply partition_none|]. exists []. now rewrite app_nil_r.
Qed.

(** The second part of a split comes right after the first separator
    and is free of the separator. *)
Lemma split_second_part (sep s h : str) :
  sep <> [] ->
  nth_error (split sep s) 1 = Some h ->
  ~ occurs sep h /\ exists a r, s = a ++ sep ++ h ++ r.
Proof.
  intros Hsep. rewrite split_second by exact Hsep.
  destruct (partition sep s) as [[a b]|] eqn:P; [|discriminate].
  intros H. injection H as <-. apply partition_some in P.
  destruct (partition sep b) as [[a' b']|] eqn:P'.
  - split; [apply (partition_before_free sep Hsep b a' b' P')|].
    exists a, (sep ++ b'). apply partition_some in P'. now rewrite P, P'.
  - split; [now apply partition_none|]. exists a, []. now rewrite app_nil_r.
Qed.

(** For a separator that cannot overlap itself, the leftmost occurrence
    in [pre ++ sep ++ post] is the one written when [sep] does not occur in
    [pre]. *)
Lemma partition_first_unbordered (sep pre post : str) :
  unbordered sep = true ->
  ~ occurs sep pre ->
  partition sep (pre ++ sep ++ post) = Some (pre, post).
Proof.
  intros Hu. induction pre as [|x pre IH]; intros Hpre.
  - exact (partition_here sep post).
  - change ((x :: pre) ++ sep ++ post) with (x :: (pre ++ sep ++ post)).
    assert (startswith sep (x :: (pre ++ sep ++ post)) = false) as E.
    { destruct (startswith _ _) eqn:E; [exfalso | reflexivity].
      apply startswith_spec in E as [r E].
      change (x :: pre ++ sep ++ post) with ((x :: pre) ++ sep ++ post) in E.
      apply app_eq_app in E as [l [[E1 E2] | [E1 E2]]].
      - apply Hpre. exists [], l. exact E1.
      - destruct l as [|y l].
        + apply Hpre. exists [], []. rewrite E1. now rewrite !app_nil_r.
        + assert (startswith (y :: l) sep = true) as Hb.
          { apply app_eq_app in E2 as [l2 [[E3 E4] | [E3 E4]]].
            - apply startswith_spec. now exists l2.
            - exfalso. rewrite E3 in E1.
              apply (f_equal (@List.length char)) in E1.
              rewrite !length_app in E1. simpl in E1. lia. }
          unfold unbordered in Hu. rewrite forallb_forall in Hu.
          specialize (Hu (List.length (x :: pre))).
          assert (skipn (List.length (x :: pre)) sep = y :: l) as Hs.
          { rewrite E1. apply skipn_length_app. }
          rewrite Hs, Hb in Hu. discriminate Hu.
          apply in_seq. apply (f_equal (@List.length char)) in E1.
          rewrite length_app in E1. simpl in *. lia. }
    rewrite partition_eq, E.
    rewrite IH; [reflexivity|].
    intros (p & q & H). apply Hpre. exists (x :: p), q. now rewrite H.
Qed.

Lemma join_single (sep p : str) : join sep [p] = p.
Proof. reflexivity. Qed.

Lemma join_cons (sep p q : str) (ps : list str) :
  join sep (p :: q :: ps) = p ++ sep ++ join sep (q :: ps).
Proof. reflexivity. Qed.

(** [sep.join(s.split(sep)) == s]. *)
Lemma join_split (sep : str) :
  sep <> [] -> forall s, join sep (split sep s) = s.
Proof.
  intros Hsep s.
  remember (List.length s) as n eqn:Hn. revert s Hn.
  induction n as [n IH] using lt_wf_ind. intros s ->.
  rewrite split_unfold by exact Hsep.
  destruct (partition sep s) as [[a b]|] eqn:P; [|reflexivity].
  assert (Hb := P). apply partition_shorter in Hb; [|exact Hsep].
  apply partition_some in P. subst s.
  specialize (IH _ Hb b eq_refl).
  rewrite (split_unfold sep b Hsep) in *.
  destruct (partition sep b) as [[a' b']|].
  - rewrite join_cons, IH. reflexivity.
  - rewrite join_cons. reflexivity.
Qed.

(** Every part of a split is free of the separator. *)
Lemma split_parts_free (sep : str) :
  sep <> [] -> forall s p, In p (split sep s) -> ~ occurs sep p.
Proof.
  intros Hsep s.
  remember (List.length s) as n eqn:Hn. revert s Hn.
  induction n as [n IH] using lt_wf_ind. intros s -> p.
  rewrite split_unfold by exact Hsep.
  destruct (partition sep s) as [[a b]|] eqn:P.
  - intros [<- | Hin].
    + apply (partition_before_free sep Hsep s a b P).
    + apply partition_shorter in P; [|exact Hsep].
      apply (IH _ P b eq_refl p Hin).
  - intros [<- | []]. now apply partition_none.
Qed.

(** An occurrence of [old] in [a ++ c :: b] lies in [a] or in [b] when
    [c] is not a code point of [old]. *)
Lemma occurs_around (old a b : str) (c : char) :
  ~ In c old -> occurs old (a ++ c :: b) -> occurs old a \/ occurs old b.
Proof.
  intros Hc (x & y & H).
  apply app_eq_app in H as [l [[E1 E2] | [E1 E2]]].
  - apply app_eq_app in E2 as [l2 [[E3 E4] | [E3 E4]]].
    + destruct l2 as [|d l2].
      * left. rewrite app_nil_r in E3. subst. exists x, []. now rewrite app_nil_r.
      * injection E4 as <- _. exfalso. apply Hc. rewrite E3.
        apply in_or_app. right. now left.
    + left. subst. exists x, l2. reflexivity.
  - destruct l as [|d l].
    + simpl in E2. destruct old as [|o old].
      * left. exists a, []. now rewrite !app_nil_r.
      * injection E2 as <- _. exfalso. apply Hc. now left.
    + injection E2 as _ ->. right. now exists l, y.
Qed.

Lemma join_free (old : str) (c : char) (parts : list str) :
  ~ In c old ->
  (forall p, In p parts -> ~ occurs old p) ->
  parts <> [] ->
  ~ occurs old (join [c] parts).
Proof.
  intros Hc. induction parts as [|p ps IH]; intros Hfree Hne; [congruence|].
  destruct ps as [|q ps].
  - rewrite join_single. apply Hfree. now left.
  - rewrite join_cons. cbn [app]. intros H.
    apply occurs_around in H as [H | H]; [| |exact Hc].
    + apply (Hfree p); [now left | exact H].
    + revert H. apply IH; [|discriminate].
      intros p' Hp'. apply Hfree. now right.
Qed.

Lemma split_not_nil (sep s : str) : sep <> [] -> split sep s <> [].
Proof.
  intros Hsep. rewrite split_unfold by exact Hsep.
  destruct (partition sep s) as [[a b]|]; discriminate.
Qed.

End PyStrMoreFacts.

Import PyStrMoreFacts.

(** ** More about the poller *)

Module PollerMore.

Import Poller PollerSpec PollerFacts Scenario Outage.

(** The start of a call, whatever the transport answers. *)
Lemma export_and_poll_cases net url w :
  (exists e,
     content_of net (sent w) url = Failed e /\
     forall rounds,
       export_and_poll net rounds url w = (Raise e, after w (initiating url))) \/
  (exists bs,
     content_of net (sent w) url = Received bs /\ decode bs = None /\
     forall rounds,
       export_and_poll net rounds url w =
       (Raise UnicodeDecodeError, after w (initiating url))) \/
  (exists text,
     answers net (sent w) url text /\ task_id_of text = None /\
     forall rounds,
       export_and_poll net rounds url w =
       (Raise IndexError, after w (initiating url))) \/
  (exists text t,
     answers net (sent w) url text /\ task_id_of text = Some t /\
     forall rounds,
       export_and_poll net rounds url w =
       poll_loop net rounds (poll_prefix ++ t) (after w (initiating url))).
Proof.
  destruct (content_of net (sent w) url) as [bs|e] eqn:Hnet.
  2: { left. exists e. split; [reflexivity|]. intros rounds.
       unfold export_and_poll, get_content. rewrite bind_log.
       rewrite bind_send_failed with (e := e) by exact Hnet.
       now rewrite after_record. }
  right.
  destruct (decode bs) as [text|] eqn:Hdec.
  2: { left. exists bs. repeat split; try assumption. intros rounds.
       unfold export_and_poll, get_content. rewrite bind_log.
       rewrite bind_send with (a := bs) by exact Hnet.
       unfold decode_strict. now rewrite Hdec, after_record. }
  right.
  assert (answers net (sent w) url text) as Hans by (exists bs; auto).
  destruct (task_id_of text) as [t|] eqn:Ht.
  - right. exists text, t. repeat split; try assumption. intros rounds.
    now apply export_and_poll_initiated with (text := text).
  - left. exists text. repeat split; try assumption. intros rounds.
    unfold export_and_poll, get_content. rewrite bind_log.
    rewrite bind_send with (a := bs) by exact Hnet.
    unfold decode_strict. rewrite Hdec, after_record.
    unfold task_id_of in Ht. unfold item at 1.
    destruct (nth_error (split task_marker text) 1) as [a|]; [|reflexivity].
    rewrite split_head in Ht by discriminate. discriminate.
Qed.

(** What the loop does to the world, whatever the transport answers:
    [j] polls, [j'] sleeps of 5, and only the last poll can be without its
    sleep. *)
Lemma poll_loop_effects net poll_url rounds :
  forall w, exists evs j j',
    snd (poll_loop net rounds poll_url w) =
      {| sent := sent w + j; trace := trace w ++ evs |} /\
    requests evs = repeat (GetContent poll_url) j /\
    sleeps evs = repeat 5%Z j' /\
    j' <= j /\ j <= S j' /\ j <= rounds.
Proof.
  induction rounds as [|rounds IH]; intros w.
  - exists [], 0, 0. cbn. rewrite app_nil_r, Nat.add_0_r.
    destruct w; repeat split; lia.
  - assert (forall o,
              poll_loop net (S rounds) poll_url w =
              (o, after w [Sent (GetContent poll_url)]) ->
              exists evs j j',
                snd (poll_loop net (S rounds) poll_url w) =
                  {| sent := sent w + j; trace := trace w ++ evs |} /\
                requests evs = repeat (GetContent poll_url) j /\
                sleeps evs = repeat 5%Z j' /\
                j' <= j /\ j <= S j' /\ j <= S rounds) as Hearly.
    { intros o E. exists [Sent (GetContent poll_url)], 1, 0. rewrite E.
      cbn [snd after]. rewrite Nat.add_1_r. repeat split; lia. }
    assert (forall o evs,
              requests evs = [] -> sleeps evs = [] ->
              poll_loop net (S rounds) poll_url w =
              (o, after w (poll_and_sleep poll_url ++ evs)) ->
              exists evs j j',
                snd (poll_loop net (S rounds) poll_url w) =
                  {| sent := sent w + j; trace := trace w ++ evs |} /\
                requests evs = repeat (GetContent poll_url) j /\
                sleeps evs = repeat 5%Z j' /\
                j' <= j /\ j <= S j' /\ j <= S rounds) as Hlate.
    { intros o e R Sl E. exists (poll_and_sleep poll_url ++ e), 1, 1. rewrite E.
      cbn [snd after]. rewrite Nat.add_1_r, requests_app, sleeps_app, R, Sl.
      repeat split; lia. }
    destruct (poll_loop_cases net poll_url w)
      as [(e & _ & E) | [(bs & _ & _ & E) | [(doc & _ & _ & E)
         | [(doc & l3 & l6 & l7 & l8 & _ & _ & _ & _ & _ & _ & E)
         | [(doc & _ & E) | (doc & e1 & _ & _ & E & R1 & S1)]]]]].
    + apply (Hearly _ (E rounds)).
    + apply (Hearly _ (E rounds)).
    + apply (Hearly _ (E rounds)).
    + apply (Hlate _ (downloading (strip l6)) eq_refl eq_refl (E rounds)).
    + apply (Hlate _ [Logged ERROR (Text (lit "PDF conversion not successful."))]
               eq_refl eq_refl (E rounds)).
    + destruct (IH (after w e1)) as (e2 & j & j' & E2 & R2 & S2 & H1 & H2 & H3).
      exists (e1 ++ e2), (S j), (S j'). rewrite E, E2. cbn [after sent trace].
      rewrite requests_app, sleeps_app, R1, R2, S1, S2, app_assoc.
      replace (S (sent w) + j) with (sent w + S j) by lia.
      repeat split; lia.
Qed.

(** The exceptions that leave the loop. *)
Lemma poll_loop_raises net poll_url rounds :
  forall w e,
    fst (poll_loop net rounds poll_url w) = Raise e ->
    e = IndexError \/ e = UnicodeDecodeError \/
    exists n, content_of net n poll_url = Failed e.
Proof.
  induction rounds as [|rounds IH]; intros w e H.
  - discriminate H.
  - destruct (poll_loop_cases net poll_url w)
      as [(e' & Hnet & E) | [(bs & _ & _ & E) | [(doc & _ & _ & E)
         | [(doc & l3 & l6 & l7 & l8 & _ & _ & _ & _ & _ & _ & E)
         | [(doc & _ & E) | (doc & e1 & _ & _ & E & _)]]]]];
      rewrite E in H; cbn [fst] in H.
    + injection H as <-. right. right. now exists (sent w).
    + injection H as <-. auto.
    + injection H as <-. auto.
    + destruct (download_path_of l3); [discriminate|]. injection H as <-. auto.
    + discriminate.
    + apply (IH _ _ H).
Qed.

(** A path that leaves the loop was sliced out of line 3 of a received
    document that reports complete and successful. *)
Lemma poll_loop_returns_path net poll_url rounds :
  forall w path,
    fst (poll_loop net rounds poll_url w) = Ret (Some path) ->
    exists n doc l3 l7 l8,
      answers net n poll_url doc /\
      line doc 3 = Some l3 /\ line doc 7 = Some l7 /\ line doc 8 = Some l8 /\
      strip l8 = complete_true /\ strip l7 = successful_true /\
      download_path_of l3 = Some path.
Proof.
  induction rounds as [|rounds IH]; intros w path H.
  - discriminate H.
  - destruct (poll_loop_cases net poll_url w)
      as [(e' & Hnet & E) | [(bs & _ & _ & E) | [(doc & _ & _ & E)
         | [(doc & l3 & l6 & l7 & l8 & Hdoc & H3 & H7 & H8 & Hc & Ht & E)
         | [(doc & _ & E) | (doc & e1 & _ & _ & E & _)]]]]];
      rewrite E in H; cbn [fst] in H; try discriminate.
    + destruct (download_path_of l3) as [p|] eqn:Hp; [|discriminate].
      injection H as <-.
      exists (sent w), doc, l3, l7, l8. repeat split; assumption.
    + apply (IH _ _ H).
Qed.

(** Whatever the transport answers, a call followed for [rounds] rounds
    sends the initiating request and [j] polls, [j <= rounds]; every sleep
    is of 5, there is at most one per poll, and only the last poll can be
    without its sleep. *)
Theorem sleeps_five_per_poll net rounds url w :
  exists j j',
    sent (snd (get_pdf_download_url_for_confluence_cloud net rounds url w))
      = sent w + 1 + j /\
    List.length
      (requests (trace (snd (get_pdf_download_url_for_confluence_cloud
                               net rounds url w))))
      = List.length (requests (trace w)) + 1 + j /\
    sleeps (trace (snd (get_pdf_download_url_for_confluence_cloud
                          net rounds url w)))
      = sleeps (trace w) ++ repeat 5%Z j' /\
    j' <= j /\ j <= S j' /\ j <= rounds.
Proof.
  unfold get_pdf_download_url_for_confluence_cloud.
  destruct (handled_outcome (export_and_poll net rounds url) w)
    as (h & Rh & Sh & -> & _).
  assert (snd (export_and_poll net rounds url w) = after w (initiating url) ->
          exists j j',
            sent (record (snd (export_and_poll net rounds url w)) h)
              = sent w + 1 + j /\
            List.length
              (requests (trace (record (snd (export_and_poll net rounds url w)) h)))
              = List.length (requests (trace w)) + 1 + j /\
            sleeps (trace (record (snd (export_and_poll net rounds url w)) h))
              = sleeps (trace w) ++ repeat 5%Z j' /\
            j' <= j /\ j <= S j' /\ j <= rounds) as Hstart.
  { intros ->. exists 0, 0. cbn [record after sent trace].
    rewrite !requests_app, !sleeps_app, Rh, Sh, !length_app.
    cbn. rewrite !app_nil_r. repeat split; lia. }
  destruct (export_and_poll_cases net url w)
    as [(e & _ & E) | [(bs & _ & _ & E) | [(text & _ & _ & E)
       | (text & t & _ & _ & E)]]];
    try (apply Hstart; rewrite E; reflexivity).
  rewrite E.
  destruct (poll_loop_effects net (poll_prefix ++ t) rounds
              (after w (initiating url)))
    as (evs & j & j' & -> & R & Sl & H1 & H2 & H3).
  exists j, j'. cbn [record after sent trace].
  rewrite !requests_app, !sleeps_app, Rh, Sh, R, Sl, !length_app, repeat_length.
  cbn. rewrite !app_nil_r. repeat split; lia.
Qed.

(** An exception that reaches the caller is never [IndexError]; it is
    [UnicodeDecodeError] or an exception the transport raised. *)
Theorem raises_only_decode_and_transport_errors net rounds url w e :
  fst (get_pdf_download_url_for_confluence_cloud net rounds url w) = Raise e ->
  e <> IndexError /\
  (e = UnicodeDecodeError \/ exists n path, content_of net n path = Failed e).
Proof.
  unfold get_pdf_download_url_for_confluence_cloud.
  destruct (handled_outcome (export_and_poll net rounds url) w)
    as (_ & _ & _ & _ & ->).
  intros H.
  assert (e <> IndexError /\ fst (export_and_poll net rounds url w) = Raise e)
    as [Hne H'].
  { destruct (fst (export_and_poll net rounds url w)) as [a|e'|];
      try discriminate.
    destruct e'; try discriminate; injection H as <-;
      split; congruence. }
  split; [exact Hne|]. clear H.
  destruct (export_and_poll_cases net url w)
    as [(e' & Hnet & E) | [(bs & _ & _ & E) | [(text & _ & _ & E)
       | (text & t & _ & _ & E)]]];
    rewrite E in H'; cbn [fst] in H'.
  - injection H' as <-. right. eauto.
  - injection H' as <-. now left.
  - injection H' as <-. congruence.
  - destruct (poll_loop_raises net _ rounds _ e H') as [-> | [-> | [n Hn]]].
    + congruence.
    + now left.
    + right. eauto.
Qed.

Lemma raises_only_witness :
  gateway_timeout <> IndexError /\
  (gateway_timeout = UnicodeDecodeError \/
   exists n path,
     content_of (failing_at 2 gateway_timeout
                   (scripted started [in_progress] succeeded)) n path
     = Failed gateway_timeout).
Proof.
  apply (raises_only_decode_and_transport_errors
           (failing_at 2 gateway_timeout
              (scripted started [in_progress] succeeded))
           4 export_url w0 gateway_timeout).
  reflexivity.
Defined.

(** The download path, as the source slices it: it stands on the line
    right after an href marker, and holds neither the marker nor
    [&quot]. *)
Lemma download_path_shape l3 path :
  download_path_of l3 = Some path ->
  occurs (href_marker ++ path) l3 /\
  ~ occurs quot path /\ ~ occurs href_marker path.
Proof.
  unfold download_path_of.
  destruct (nth_error (split href_marker l3) 1) as [a|] eqn:Ha; [|discriminate].
  intros Hp.
  destruct (split_second_part href_marker l3 a) as (Fa & pre & r & ->);
    [discriminate | exact Ha |].
  destruct (split_first_part quot a path) as (Fp & r' & ->);
    [discriminate | exact Hp |].
  repeat split.
  - exists pre, (r' ++ r). now rewrite <- !app_assoc.
  - exact Fp.
  - intros H. apply Fa. now apply occurs_app_l.
Qed.

(** A path returned by the call was sliced out of a received status
    document: one that reports complete and successful and has the path
    on line 3 right after an href marker.  The path holds no [&quot]. *)
Theorem returned_path_comes_from_line_3 net rounds url w path :
  fst (get_pdf_download_url_for_confluence_cloud net rounds url w)
    = Ret (Some path) ->
  (exists n poll_url doc l3 l7 l8,
     answers net n poll_url doc /\
     line doc 3 = Some l3 /\ line doc 7 = Some l7 /\ line doc 8 = Some l8 /\
     strip l8 = complete_true /\ strip l7 = successful_true /\
     occurs (href_marker ++ path) l3) /\
  ~ occurs quot path /\ ~ occurs href_marker path.
Proof.
  unfold get_pdf_download_url_for_confluence_cloud.
  destruct (handled_outcome (export_and_poll net rounds url) w)
    as (_ & _ & _ & _ & ->).
  intros H.
  assert (fst (export_and_poll net rounds url w) = Ret (Some path)) as H'.
  { destruct (fst (export_and_poll net rounds url w)) as [a|e'|];
      try discriminate; [exact H|].
    destruct e'; discriminate. }
  clear H.
  destruct (export_and_poll_cases net url w)
    as [(e' & Hnet & E) | [(bs & _ & _ & E) | [(text & _ & _ & E)
       | (text & t & _ & _ & E)]]];
    rewrite E in H'; cbn [fst] in H'; try discriminate.
  destruct (poll_loop_returns_path net _ rounds _ path H')
    as (n & doc & l3 & l7 & l8 & Hdoc & H3 & H7 & H8 & Hc & Ht & Hp).
  destruct (download_path_shape l3 path Hp) as (Ho & Hq & Hh).
  split; [|split; assumption].
  exists n, (poll_prefix ++ t), doc, l3, l7, l8. repeat split; assumption.
Qed.

Lemma returned_path_witness :
  (exists n poll_url doc l3 l7 l8,
     answers (scripted started [in_progress; succeeded] failed) n poll_url doc /\
     line doc 3 = Some l3 /\ line doc 7 = Some l7 /\ line doc 8 = Some l8 /\
     strip l8 = complete_true /\ strip l7 = successful_true /\
     occurs (href_marker ++ lit "reports/x.pdf") l3) /\
  ~ occurs quot (lit "reports/x.pdf") /\
  ~ occurs href_marker (lit "reports/x.pdf").
Proof.
  apply (returned_path_comes_from_line_3
           (scripted started [in_progress; succeeded] failed) 5 export_url w0
           (lit "reports/x.pdf")).
  reflexivity.
Defined.

(** When the initiating request itself fails, no poll is sent: the
    transport's exception reaches the caller as it is, except an
    [IndexError], which the handler turns into [None]. *)
Theorem failed_initiating_request net rounds url w e :
  content_of net (sent w) url = Failed e ->
  get_pdf_download_url_for_confluence_cloud net rounds url w =
  match e with
  | IndexError =>
      (Ret None, after w (initiating url ++ [Logged ERROR (Exc IndexError)]))
  | _ => (Raise e, after w (initiating url))
  end.
Proof.
  intros Hnet.
  assert (export_and_poll net rounds url w = (Raise e, after w (initiating url)))
    as E.
  { unfold export_and_poll, get_content. rewrite bind_log.
    rewrite bind_send_failed with (e := e) by exact Hnet.
    now rewrite after_record. }
  unfold get_pdf_download_url_for_confluence_cloud, try_except. rewrite E.
  destruct e; cbn [on_index_error]; try reflexivity.
  now rewrite bind_log, record_after.
Qed.

Lemma failed_initiating_request_witness :
  get_pdf_download_url_for_confluence_cloud
    (failing_at 0 gateway_timeout (scripted started [succeeded] failed))
    4 export_url w0 =
  (Raise gateway_timeout, after w0 (initiating export_url)).
Proof.
  apply (failed_initiating_request
           (failing_at 0 gateway_timeout (scripted started [succeeded] failed))
           4 export_url w0 gateway_timeout).
  reflexivity.
Defined.

(** When a poll fails, the transport's exception reaches the caller as
    it is, except an [IndexError], which the handler turns into [None]; the
    failed poll is the last request and is not followed by a sleep. *)
Theorem failed_poll_request net url w t k e rounds :
  reaches net url w t k ->
  content_of net (S (sent w) + k) (poll_prefix ++ t) = Failed e ->
  k < rounds ->
  fst (get_pdf_download_url_for_confluence_cloud net rounds url w) =
    match e with
    | IndexError => Ret None
    | _ => Raise e
    end /\
  requests (trace (snd (get_pdf_download_url_for_confluence_cloud
                          net rounds url w)))
    = requests (trace w) ++
      GetContent url :: repeat (GetContent (poll_prefix ++ t)) (S k) /\
  sleeps (trace (snd (get_pdf_download_url_for_confluence_cloud
                        net rounds url w)))
    = sleeps (trace w) ++ repeat 5%Z k.
Proof.
  intros Hr Hnet Hk.
  destruct (get_pdf_reaches net url w t k Hr) as (evs & E & R & Sl).
  specialize (E (S (rounds - S k))).
  replace (k + S (rounds - S k)) with rounds in E by lia.
  rewrite E. clear E. unfold try_except.
  rewrite (poll_loop_transport_failed net (rounds - S k) (poll_prefix ++ t)
             {| sent := S (sent w) + k;
                trace := trace w ++ initiating url ++ evs |} e Hnet).
  set (wk := trace w ++ initiating url ++ evs).
  assert (requests (wk ++ [Sent (GetContent (poll_prefix ++ t))]) =
          requests (trace w) ++
          GetContent url :: repeat (GetContent (poll_prefix ++ t)) (S k)) as HR.
  { unfold wk. rewrite !requests_app, R. cbn [requests initiating app].
    rewrite <- app_assoc. cbn [app]. now rewrite <- repeat_cons. }
  assert (sleeps (wk ++ [Sent (GetContent (poll_prefix ++ t))]) =
          sleeps (trace w) ++ repeat 5%Z k) as HS.
  { unfold wk. rewrite !sleeps_app, Sl. cbn [sleeps initiating app].
    now rewrite app_nil_r. }
  destruct e; cbn [on_index_error fst snd after trace];
    try (repeat split; assumption).
  rewrite bind_log. cbn [ret fst snd record after trace].
  rewrite requests_app, sleeps_app, HR, HS. cbn [requests sleeps].
  rewrite !app_nil_r. repeat split.
Qed.

Lemma failed_poll_request_witness :
  fst (get_pdf_download_url_for_confluence_cloud
         (failing_at 2 gateway_timeout
            (scripted started [in_progress] succeeded)) 4 export_url w0)
    = Raise gateway_timeout /\
  requests (trace (snd (get_pdf_download_url_for_confluence_cloud
         (failing_at 2 gateway_timeout
            (scripted started [in_progress] succeeded)) 4 export_url w0)))
    = requests (trace w0) ++
      GetContent export_url :: repeat (GetContent (poll_prefix ++ lit "42")) 2 /\
  sleeps (trace (snd (get_pdf_download_url_for_confluence_cloud
         (failing_at 2 gateway_timeout
            (scripted started [in_progress] succeeded)) 4 export_url w0)))
    = sleeps (trace w0) ++ repeat 5%Z 1.
Proof.
  apply (failed_poll_request
           (failing_at 2 gateway_timeout
              (scripted started [in_progress] succeeded))
           export_url w0 (lit "42") 1 gateway_timeout 4).
  - split.
    + exists (text_of started). split; [|reflexivity].
      exists started. split; reflexivity.
    + intros i Hi. exists (text_of in_progress).
      destruct i as [|i]; [|lia]. split.
      * exists in_progress. split; reflexivity.
      * left. eexists. split; [vm_compute; reflexivity|]. vm_compute. discriminate.
  - reflexivity.
  - lia.
Defined.

(** The identifier between the task marker and the next [task_end] (a
    double quote and a closing angle bracket) is what the source slices
    out, when the marker occurs once. *)
Lemma task_id_of_meta pre t post :
  ~ occurs task_marker pre ->
  ~ occurs task_marker (t ++ task_end ++ post) ->
  ~ occurs task_end t ->
  task_id_of (pre ++ task_marker ++ t ++ task_end ++ post) = Some t.
Proof.
  intros Hpre Hrest Ht. unfold task_id_of.
  rewrite split_second by discriminate.
  rewrite partition_first_unbordered by (reflexivity || exact Hpre).
  apply partition_none in Hrest. rewrite Hrest.
  rewrite split_head by discriminate.
  rewrite partition_first_unbordered by (reflexivity || exact Ht).
  reflexivity.
Qed.

(** When the initiating response carries the task marker once, followed
    by an identifier [t] and the closing [task_end], every poll of the call goes
    to [runningtaskxml.action?taskId=] followed by [t], and a call followed
    for at least one round sends at least one. *)
Theorem polls_the_task_of_the_meta_tag net rounds url w pre t post :
  answers net (sent w) url (pre ++ task_marker ++ t ++ task_end ++ post) ->
  ~ occurs task_marker pre ->
  ~ occurs task_marker (t ++ task_end ++ post) ->
  ~ occurs task_end t ->
  exists j,
    requests (trace (snd (get_pdf_download_url_for_confluence_cloud
                            net rounds url w)))
    = requests (trace w) ++
      GetContent url ::
      repeat (GetContent (lit "runningtaskxml.action?taskId=" ++ t)) j /\
    (0 < rounds -> 0 < j).
Proof.
  intros Hnet Hpre Hrest Ht.
  pose proof (task_id_of_meta pre t post Hpre Hrest Ht) as Hid.
  unfold get_pdf_download_url_for_confluence_cloud.
  destruct (handled_outcome (export_and_poll net rounds url) w)
    as (h & Rh & _ & -> & _).
  rewrite (export_and_poll_initiated net rounds url w _ t Hnet Hid).
  fold poll_prefix.
  destruct rounds as [|rounds].
  - exists 0. cbn [poll_loop running snd record after trace].
    rewrite !requests_app, Rh. cbn [requests initiating app].
    rewrite !app_nil_r. split; [reflexivity | lia].
  - destruct (poll_loop_first_poll net (poll_prefix ++ t) rounds
                (after w (initiating url))) as (evs & j & E & R).
    exists (S j). cbn [record trace]. rewrite E. cbn [after trace].
    rewrite !requests_app, Rh, R. cbn [requests initiating app].
    rewrite !app_nil_r, <- app_assoc. split; [reflexivity | lia].
Qed.

Lemma polls_the_task_witness :
  exists j,
    requests (trace (snd (get_pdf_download_url_for_confluence_cloud
                            (scripted started [in_progress; succeeded] failed)
                            5 export_url w0)))
    = requests (trace w0) ++
      GetContent export_url ::
      repeat (GetContent (lit "runningtaskxml.action?taskId=" ++ lit "42")) j /\
    (0 < 5 -> 0 < j).
Proof.
  apply (polls_the_task_of_the_meta_tag
           (scripted started [in_progress; succeeded] failed) 5 export_url w0
           (lit "<meta ") (lit "42") []).
  - exists started. split; reflexivity.
  - apply partition_none. reflexivity.
  - apply partition_none. reflexivity.
  - apply partition_none. reflexivity.
Defined.

(** The path between the href marker and the next [&quot] is what the
    source slices out of a line that carries the marker once. *)
Lemma download_path_of_link pre path post :
  ~ occurs href_marker pre ->
  ~ occurs href_marker (path ++ quot ++ post) ->
  ~ occurs quot path ->
  download_path_of (pre ++ href_marker ++ path ++ quot ++ post) = Some path.
Proof.
  intros Hpre Hrest Hpath. unfold download_path_of.
  rewrite split_second by discriminate.
  rewrite partition_first_unbordered by (reflexivity || exact Hpre).
  apply partition_none in Hrest. rewrite Hrest.
  rewrite split_head by discriminate.
  rewrite partition_first_unbordered by (reflexivity || exact Hpath).
  reflexivity.
Qed.

(** When a polled document reports complete and successful and its line
    3 carries the href marker once, followed by a path free of [&quot]
    and then [&quot], the call returns that path. *)
Theorem returns_the_linked_path net url w t k doc l7 l8 pre path post rounds :
  polled net url w t k doc ->
  line doc 8 = Some l8 -> strip l8 = complete_true ->
  line doc 7 = Some l7 -> strip l7 = successful_true ->
  line doc 3 = Some (pre ++ href_marker ++ path ++ quot ++ post) ->
  ~ occurs href_marker pre ->
  ~ occurs href_marker (path ++ quot ++ post) ->
  ~ occurs quot path ->
  k < rounds ->
  fst (get_pdf_download_url_for_confluence_cloud net rounds url w)
  = Ret (Some path).
Proof.
  intros Hp H8 Hc H7 Ht H3 Hpre Hrest Hpath Hk.
  destruct (get_pdf_polled net url w t k doc rounds Hp Hk)
    as (wk & r & _ & Hdoc & E & _).
  destruct (line_before doc 6 8 l8 H8) as [l6 H6]; [lia|].
  pose proof (poll_loop_successful net r (poll_prefix ++ t) wk doc _ l6 l7 l8
                Hdoc H3 H6 H7 H8 Hc Ht) as P.
  rewrite (download_path_of_link pre path post Hpre Hrest Hpath) in P.
  rewrite E, (try_except_ret _ _ _ _ _ P). reflexivity.
Qed.

Lemma returns_the_linked_path_witness :
  fst (get_pdf_download_url_for_confluence_cloud
         (scripted started [in_progress; succeeded] failed) 2 export_url w0)
  = Ret (Some (lit "reports/x.pdf")).
Proof.
  apply (returns_the_linked_path
           (scripted started [in_progress; succeeded] failed)
           export_url w0 (lit "42") 1 (text_of succeeded)
           (lit "  <isSuccessful>true</isSuccessful>")
           (lit "  <isComplete>true</isComplete>")
           (lit "  <currentStatus>") (lit "reports/x.pdf")
           (lit ";</currentStatus>") 2).
  - split; [split|].
    + exists (text_of started). split; [|reflexivity].
      exists started. split; reflexivity.
    + intros i Hi. exists (text_of in_progress).
      destruct i as [|i]; [|lia]. split.
      * exists in_progress. split; reflexivity.
      * left. eexists. split; [vm_compute; reflexivity|]. vm_compute. discriminate.
    + exists succeeded. split; reflexivity.
  - reflexivity.
  - reflexivity.
  - reflexivity.
  - reflexivity.
  - reflexivity.
  - apply partition_none. reflexivity.
  - apply partition_none. reflexivity.
  - apply partition_none. reflexivity.
  - lia.
Defined.

(** Strict decoding never fails on ASCII: every byte is its own code
    point. *)
Lemma decode_ascii (bs : bytes) :
  PyStrMore.is_ascii bs = true -> decode bs = Some (map Byte.to_N bs).
Proof.
  induction bs as [|b bs IH]; [reflexivity|].
  cbn [PyStrMore.is_ascii forallb]. intros H. apply andb_true_iff in H as [Hb Hbs].
  cbn [decode map]. rewrite Hb, (IH Hbs). reflexivity.
Qed.

(** Where an exception that leaves the loop comes from. *)
Lemma poll_loop_raises_from net poll_url rounds :
  forall w e,
    fst (poll_loop net rounds poll_url w) = Raise e ->
    e = IndexError \/
    (exists n bs, content_of net n poll_url = Received bs /\ decode bs = None) \/
    exists n, content_of net n poll_url = Failed e.
Proof.
  induction rounds as [|rounds IH]; intros w e H.
  - discriminate H.
  - destruct (poll_loop_cases net poll_url w)
      as [(e' & Hnet & E) | [(bs & Hnet & Hdec & E) | [(doc & _ & _ & E)
         | [(doc & l3 & l6 & l7 & l8 & _ & _ & _ & _ & _ & _ & E)
         | [(doc & _ & E) | (doc & e1 & _ & _ & E & _)]]]]];
      rewrite E in H; cbn [fst] in H.
    + injection H as <-. right. right. now exists (sent w).
    + right. left. now exists (sent w), bs.
    + injection H as <-. auto.
    + destruct (download_path_of l3); [discriminate|]. injection H as <-. auto.
    + discriminate.
    + apply (IH _ _ H).
Qed.

(** When every body the transport returns is ASCII, no decoding fails:
    an exception that reaches the caller was raised by the transport. *)
Theorem ascii_responses_always_decode net rounds url w e :
  (forall n path bs, content_of net n path = Received bs -> PyStrMore.is_ascii bs = true) ->
  fst (get_pdf_download_url_for_confluence_cloud net rounds url w) = Raise e ->
  exists n path, content_of net n path = Failed e.
Proof.
  intros Hascii.
  assert (forall n path bs,
            content_of net n path = Received bs -> decode bs = None -> False)
    as Hdec.
  { intros n path bs Hnet H. rewrite (decode_ascii bs (Hascii n path bs Hnet)) in H.
    discriminate H. }
  unfold get_pdf_download_url_for_confluence_cloud.
  destruct (handled_outcome (export_and_poll net rounds url) w)
    as (_ & _ & _ & _ & ->).
  intros H.
  assert (e <> IndexError /\ fst (export_and_poll net rounds url w) = Raise e)
    as [Hne H'].
  { destruct (fst (export_and_poll net rounds url w)) as [a|e'|];
      try discriminate.
    destruct e'; try discriminate; injection H as <-;
      split; congruence. }
  clear H.
  destruct (export_and_poll_cases net url w)
    as [(e' & Hnet & E) | [(bs & Hnet & Hd & E) | [(text & _ & _ & E)
       | (text & t & _ & _ & E)]]];
    rewrite E in H'; cbn [fst] in H'.
  - injection H' as <-. eauto.
  - exfalso. apply (Hdec _ _ _ Hnet Hd).
  - injection H' as <-. congruence.
  - destruct (poll_loop_raises_from net _ rounds _ e H')
      as [-> | [(n & bs & Hnet & Hd) | [n Hn]]].
    + congruence.
    + exfalso. apply (Hdec _ _ _ Hnet Hd).
    + eauto.
Qed.

Lemma ascii_responses_witness :
  exists n path,
    content_of (failing_at 2 gateway_timeout
                  (scripted started [in_progress] succeeded)) n path
    = Failed gateway_timeout.
Proof.
  apply (ascii_responses_always_decode
           (failing_at 2 gateway_timeout
              (scripted started [in_progress] succeeded))
           4 export_url w0 gateway_timeout).
  - intros n path bs.
    destruct n as [|[|[|n]]]; cbn; intros H; try discriminate H;
      injection H as <-; reflexivity.
  - reflexivity.
Defined.

End PollerMore.

(** ** More about updating a page *)

Module PagesMoreFacts.

Import Pages PagesSpec PagesMore PagesMoreSpec.

Lemma dict_get_of {A} (v : value) (k : str) (cont : value -> M A) w :
  dict_get v k cont w =
  match get_of v k with
  | Received x => cont x w
  | Failed e => (Raise e, w)
  end.
Proof. destruct v; reflexivity. Qed.

Lemma equals_text_true (v : value) (body : str) :
  equals_text v body = true <-> v = VStr body.
Proof.
  destruct v; cbn [equals_text];
    try (split; [discriminate | intros H; discriminate H]).
  rewrite eqb_eq. split; [now intros -> | now intros [= ->]].
Qed.

(** The comparison, run on the page the transport answers with. *)
Lemma is_already_updated_run net symbol_normalizer page_id body w page :
  json_of net (sent w) (content_url page_id) storage_params = Received page ->
  is_page_content_is_already_updated net symbol_normalizer page_id body w =
  match stored_content page with
  | Failed e =>
      (Raise e, after w [Sent (GetJson (content_url page_id) storage_params)])
  | Received content =>
      match normalized_content symbol_normalizer content with
      | Failed e =>
          (Raise e, after w [Sent (GetJson (content_url page_id) storage_params)])
      | Received compared =>
          (Ret (equals_text compared body),
           after w (Sent (GetJson (content_url page_id) storage_params)
                    :: comparison page_id body compared))
      end
  end.
Proof.
  intros Hnet. unfold is_page_content_is_already_updated.
  change (get_page_by_id net page_id (Some (lit "body.storage")) None None)
    with (get_json net (content_url page_id) storage_params).
  unfold get_json. rewrite bind_send with (a := page) by exact Hnet.
  unfold stored_content. rewrite dict_get_of.
  destruct (get_of (or_empty page) (lit "body")) as [b|e]; [|reflexivity].
  rewrite dict_get_of.
  destruct (get_of (or_empty b) (lit "storage")) as [st|e]; [|reflexivity].
  rewrite dict_get_of.
  destruct (get_of (or_empty st) (lit "value")) as [content|e]; [|reflexivity].
  unfold bind at 1. unfold normalized, normalized_content.
  destruct (truthy content).
  - destruct (symbol_normalizer content) as [compared|e]; cbn [of_reply ret raise];
      [|reflexivity].
    rewrite !bind_log. unfold comparison.
    destruct (equals_text compared body);
      rewrite bind_log, !record_record, record_after; reflexivity.
  - cbn [ret]. rewrite !bind_log. unfold comparison.
    destruct (equals_text content body);
      rewrite bind_log, !record_record, record_after; reflexivity.
Qed.

(** The version lookup, run on the history the transport answers with. *)
Lemma next_version_found net page_id title type w h n :
  json_of net (sent w) (history_url page_id) [] = Received h ->
  last_updated h (VInt n) ->
  next_version net page_id title type w =
  (Ret (Some (VInt (n + 1))),
   after w [Sent (GetJson (history_url page_id) [])]).
Proof.
  intros Hnet (items & last & -> & Hl & Hn).
  unfold next_version, history, get_json.
  apply try_except_ret.
  rewrite bind_send with (a := VDict items) by exact Hnet.
  cbn [subscript]. rewrite Hl. cbn [subscript]. rewrite Hn. reflexivity.
Qed.

Lemma next_version_type_error net page_id title type w h :
  json_of net (sent w) (history_url page_id) [] = Received h ->
  version_type_error h ->
  next_version net page_id title type w =
  (Ret None,
   after w [Sent (GetJson (history_url page_id) []);
            Logged ERROR (Format (lit "Can't find '{title}' {type}!")
                            [(lit "title", VStr title); (lit "type", VStr type)]);
            Logged DEBUG (Exc TypeError)]).
Proof.
  intros Hnet Herr.
  assert ((h <- history net page_id ;;
           subscript h (lit "lastUpdated") (fun last =>
           subscript last (lit "number") (fun number =>
           plus_one number (fun version => ret (Some version))))) w =
          (Raise TypeError, after w [Sent (GetJson (history_url page_id) [])]))
    as E.
  { unfold history, get_json.
    rewrite bind_send with (a := h) by exact Hnet.
    destruct Herr as [Hd | [(items & last & -> & Hl & Hd)
                           | (number & (items & last & -> & Hl & Hn) & Hd)]].
    - destruct h; try reflexivity; discriminate Hd.
    - cbn [subscript]. rewrite Hl. destruct last; try reflexivity; discriminate Hd.
    - cbn [subscript]. rewrite Hl. cbn [subscript]. rewrite Hn.
      destruct number; try reflexivity; discriminate Hd. }
  unfold next_version.
  rewrite (try_except_caught _ _ _ _ _ _ E eq_refl).
  rewrite !bind_log, record_record, record_after. reflexivity.
Qed.

Lemma next_version_key_error net page_id title type w h :
  json_of net (sent w) (history_url page_id) [] = Received h ->
  version_key_error h ->
  next_version net page_id title type w =
  (Raise KeyError, after w [Sent (GetJson (history_url page_id) [])]).
Proof.
  intros Hnet Herr. unfold next_version.
  apply try_except_passed; [|reflexivity].
  unfold history, get_json.
  rewrite bind_send with (a := h) by exact Hnet.
  destruct Herr as [(items & -> & Hl) | (items & last & -> & Hl & Hn)].
  - cbn [subscript]. now rewrite Hl.
  - cbn [subscript]. rewrite Hl. cbn [subscript]. now rewrite Hn.
Qed.

(** [update_page] up to the version lookup, when the content differs. *)
Lemma update_page_differs net symbol_normalizer page_id title body parent_id
    type representation minor_edit w page :
  json_of net (sent w) (content_url page_id) storage_params = Received page ->
  differs symbol_normalizer page body ->
  exists evs,
    requests evs = [GetJson (content_url page_id) storage_params] /\
    update_page net symbol_normalizer page_id title body parent_id type
      representation minor_edit w =
    (version <- next_version net page_id title type ;;
     match version with
     | None => ret VNone
     | Some version =>
         _create_body body representation (fun body_dict =>
         let data :=
           [(lit "id", VStr page_id);
            (lit "type", VStr type);
            (lit "title", VStr title);
            (lit "body", body_dict);
            (lit "version", VDict [(lit "number", version);
                                   (lit "minorEdit", VBool minor_edit)])] in
         let data :=
           match parent_id with
           | Some ((_ :: _) as p) =>
               data ++ [(lit "ancestors",
                         VList [VDict [(lit "type", VStr (lit "page"));
                                       (lit "id", VStr p)]])]
           | _ => data
           end in
         put_json net (lit "rest/api/content/" ++ page_id) (VDict data))
     end) (after w evs).
Proof.
  intros Hnet (content & compared & Hc & Hn & He).
  exists (updating title type
          :: Sent (GetJson (content_url page_id) storage_params)
          :: comparison page_id body compared).
  split; [unfold comparison; destruct (equals_text compared body); reflexivity|].
  unfold update_page. rewrite bind_log. unfold bind at 1.
  fold (updating title type).
  rewrite (is_already_updated_run net symbol_normalizer page_id body
             (record w [updating title type]) page Hnet).
  rewrite Hc, Hn, He, after_record. reflexivity.
Qed.

(** A request, whatever its answer: one more request sent, and its
    event at the end of the trace. *)
Lemma send_effect {A} (r : request) (answer : nat -> reply A) w :
  exists o, send r answer w = (o, after w [Sent r]).
Proof.
  unfold send. destruct (answer (sent w)); eexists; reflexivity.
Qed.

(** Whatever the transport answers, the comparison sends its one GET. *)
Lemma is_already_updated_effects net symbol_normalizer page_id body w :
  exists o evs,
    is_page_content_is_already_updated net symbol_normalizer page_id body w =
    (o, after w (Sent (GetJson (content_url page_id) storage_params) :: evs)) /\
    requests evs = [].
Proof.
  destruct (json_of net (sent w) (content_url page_id) storage_params)
    as [page|e] eqn:Hnet.
  - rewrite (is_already_updated_run net symbol_normalizer page_id body w page
               Hnet).
    destruct (stored_content page) as [content|e];
      [|eexists _, []; split; reflexivity].
    destruct (normalized_content symbol_normalizer content) as [compared|e];
      [|eexists _, []; split; reflexivity].
    eexists _, _. split; [reflexivity|].
    unfold comparison. destruct (equals_text compared body); reflexivity.
  - unfold is_page_content_is_already_updated.
    change (get_page_by_id net page_id (Some (lit "body.storage")) None None)
      with (get_json net (content_url page_id) storage_params).
    unfold get_json. rewrite bind_send_failed with (e := e) by exact Hnet.
    eexists _, []. split; reflexivity.
Qed.

(** Whatever the transport answers, the version lookup sends its one
    GET. *)
Lemma next_version_effects net page_id title type w :
  exists o evs,
    next_version net page_id title type w =
    (o, after w (Sent (GetJson (history_url page_id) []) :: evs)) /\
    requests evs = [].
Proof.
  assert (exists o,
            (h <- history net page_id ;;
             subscript h (lit "lastUpdated") (fun last =>
             subscript last (lit "number") (fun number =>
             plus_one number (fun version => ret (Some version))))) w =
            (o, after w [Sent (GetJson (history_url page_id) [])])) as [o E].
  { unfold history, get_json.
    destruct (json_of net (sent w) (history_url page_id) []) as [h|e] eqn:Hnet.
    - rewrite bind_send with (a := h) by exact Hnet.
      unfold subscript at 1.
      destruct h; try (eexists; reflexivity).
      destruct (lookup (lit "lastUpdated") items) as [last|];
        [|eexists; reflexivity].
      unfold subscript.
      destruct last; try (eexists; reflexivity).
      destruct (lookup (lit "number") items0) as [number|];
        [|eexists; reflexivity].
      destruct number; eexists; reflexivity.
    - rewrite bind_send_failed with (e := e) by exact Hnet.
      eexists; reflexivity. }
  unfold next_version, try_except. rewrite E.
  destruct o as [a|e|]; try (eexists _, []; split; reflexivity).
  destruct e; cbn [on_missing_version];
    try (eexists _, []; split; reflexivity);
    rewrite !bind_log, record_record, record_after;
    eexists _, _; split; reflexivity.
Qed.

End PagesMoreFacts.

Module PagesMoreClaims.

Import Pages PagesSpec PagesMore PagesMoreSpec PagesMoreFacts.

(** The comparison answers [True] exactly when the stored content of
    the fetched page can be read and, normalized, is the candidate body;
    whatever the page, the comparison sends the one GET and nothing
    else. *)
Theorem already_updated_exactly_when_same net symbol_normalizer page_id body
    w page :
  json_of net (sent w) (content_url page_id) storage_params = Received page ->
  (fst (is_page_content_is_already_updated net symbol_normalizer page_id body w)
     = Ret true <->
   exists content,
     stored_content page = Received content /\
     normalized_content symbol_normalizer content = Received (VStr body)) /\
  requests (trace (snd (is_page_content_is_already_updated
                          net symbol_normalizer page_id body w)))
    = requests (trace w) ++ [GetJson (content_url page_id) storage_params].
Proof.
  intros Hnet.
  rewrite (is_already_updated_run net symbol_normalizer page_id body w page Hnet).
  destruct (stored_content page) as [content|e].
  2: { split; [|cbn; now rewrite requests_app].
       split; [discriminate | intros (c & H & _); discriminate H]. }
  destruct (normalized_content symbol_normalizer content) as [compared|e] eqn:Hn.
  2: { split; [|cbn; now rewrite requests_app].
       split; [discriminate|]. intros (c & [= <-] & H). congruence. }
  split.
  - cbn [fst]. split.
    + intros [= H]. apply equals_text_true in H. subst. now exists content.
    + intros (c & [= <-] & H). rewrite Hn in H. injection H as ->.
      f_equal. apply equals_text_true. reflexivity.
  - cbn [snd after trace]. rewrite requests_app. unfold comparison.
    destruct (equals_text compared body); reflexivity.
Qed.

Lemma already_updated_witness :
  (fst (is_page_content_is_already_updated
          (serving (stored_page (lit "<p>1.0</p>"))) as_is
          (lit "1234") (lit "<p>1.0</p>") fresh)
     = Ret true <->
   exists content,
     stored_content (stored_page (lit "<p>1.0</p>")) = Received content /\
     normalized_content as_is content = Received (VStr (lit "<p>1.0</p>"))) /\
  requests (trace (snd (is_page_content_is_already_updated
                          (serving (stored_page (lit "<p>1.0</p>"))) as_is
                          (lit "1234") (lit "<p>1.0</p>") fresh)))
    = requests (trace fresh) ++
      [GetJson (content_url (lit "1234")) storage_params].
Proof.
  apply (already_updated_exactly_when_same
           (serving (stored_page (lit "<p>1.0</p>"))) as_is
           (lit "1234") (lit "<p>1.0</p>") fresh
           (stored_page (lit "<p>1.0</p>"))).
  reflexivity.
Defined.

(** When the stored content differs from the candidate body and the
    history gives the number [n] for the last update, [update_page] ends
    with one PUT to the page's URL and returns what the PUT returns.  The
    data sent carry the version [n + 1] with the minor-edit flag, the body
    under the representation, the id, type and title, and an [ancestors]
    entry exactly when a non-empty parent id is given. *)
Theorem update_page_writes_next_version net symbol_normalizer page_id title body
    parent_id type representation minor_edit w page h n :
  json_of net (sent w) (content_url page_id) storage_params = Received page ->
  differs symbol_normalizer page body ->
  json_of net (S (sent w)) (history_url page_id) [] = Received h ->
  last_updated h (VInt n) ->
  In representation representations ->
  exists data w',
    update_page net symbol_normalizer page_id title body parent_id type
      representation minor_edit w =
    put_json net (content_url page_id) (VDict data) w' /\
    sent w' = S (S (sent w)) /\
    requests (trace w') =
      requests (trace w) ++
      [GetJson (content_url page_id) storage_params;
       GetJson (history_url page_id) []] /\
    lookup (lit "version") data =
      Some (VDict [(lit "number", VInt (n + 1));
                   (lit "minorEdit", VBool minor_edit)]) /\
    lookup (lit "body") data =
      Some (VDict [(representation,
                    VDict [(lit "value", VStr body);
                           (lit "representation", VStr representation)])]) /\
    lookup (lit "id") data = Some (VStr page_id) /\
    lookup (lit "type") data = Some (VStr type) /\
    lookup (lit "title") data = Some (VStr title) /\
    lookup (lit "ancestors") data =
      match parent_id with
      | Some ((_ :: _) as p) =>
          Some (VList [VDict [(lit "type", VStr (lit "page"));
                              (lit "id", VStr p)]])
      | _ => None
      end.
Proof.
  intros Hpage Hdiff Hhist Hlast Hrep.
  destruct (update_page_differs net symbol_normalizer page_id title body
              parent_id type representation minor_edit w page Hpage Hdiff)
    as (evs & R & ->).
  unfold bind at 1.
  rewrite (next_version_found net page_id title type (after w evs) h n
             Hhist Hlast).
  unfold _create_body.
  assert (existsb (eqb representation) representations = true) as ->.
  { apply existsb_exists. exists representation. split; [exact Hrep|].
    apply eqb_refl. }
  eexists. eexists. split; [reflexivity|].
  split; [reflexivity|]. split.
  { unfold after. cbn [sent trace]. rewrite !requests_app, R.
    now rewrite <- app_assoc. }
  destruct parent_id as [[|c p]|]; repeat split.
Qed.

Lemma update_page_writes_witness :
  exists data w',
    update_page (with_history (stored_page (lit "<p>1.0</p>")) (history_at 7))
      as_is (lit "1234") (lit "Release notes") (lit "<p>1.1</p>")
      (Some (lit "99")) (lit "page") (lit "storage") true fresh =
    put_json (with_history (stored_page (lit "<p>1.0</p>")) (history_at 7))
      (content_url (lit "1234")) (VDict data) w' /\
    sent w' = S (S (sent fresh)) /\
    requests (trace w') =
      requests (trace fresh) ++
      [GetJson (content_url (lit "1234")) storage_params;
       GetJson (history_url (lit "1234")) []] /\
    lookup (lit "version") data =
      Some (VDict [(lit "number", VInt (7 + 1));
                   (lit "minorEdit", VBool true)]) /\
    lookup (lit "body") data =
      Some (VDict [(lit "storage",
                    VDict [(lit "value", VStr (lit "<p>1.1</p>"));
                           (lit "representation", VStr (lit "storage"))])]) /\
    lookup (lit "id") data = Some (VStr (lit "1234")) /\
    lookup (lit "type") data = Some (VStr (lit "page")) /\
    lookup (lit "title") data = Some (VStr (lit "Release notes")) /\
    lookup (lit "ancestors") data =
      Some (VList [VDict [(lit "type", VStr (lit "page"));
                          (lit "id", VStr (lit "99"))]]).
Proof.
  apply (update_page_writes_next_version
           (with_history (stored_page (lit "<p>1.0</p>")) (history_at 7))
           as_is (lit "1234") (lit "Release notes") (lit "<p>1.1</p>")
           (Some (lit "99")) (lit "page") (lit "storage") true fresh
           (stored_page (lit "<p>1.0</p>")) (history_at 7) 7).
  - reflexivity.
  - exists (VStr (lit "<p>1.0</p>")), (VStr (lit "<p>1.0</p>")).
    repeat split.
  - reflexivity.
  - eexists _, _. repeat split.
  - vm_compute. tauto.
Defined.

(** When the stored content differs and the version cannot be computed
    because the history, or its [lastUpdated] entry, is not a dict, or the
    number is not a number, [update_page] returns [None] and writes
    nothing: its requests are the two GETs. *)
Theorem update_page_without_version net symbol_normalizer page_id title body
    parent_id type representation minor_edit w page h :
  json_of net (sent w) (content_url page_id) storage_params = Received page ->
  differs symbol_normalizer page body ->
  json_of net (S (sent w)) (history_url page_id) [] = Received h ->
  version_type_error h ->
  fst (update_page net symbol_normalizer page_id title body parent_id type
         representation minor_edit w) = Ret VNone /\
  requests (trace (snd (update_page net symbol_normalizer page_id title body
                          parent_id type representation minor_edit w)))
    = requests (trace w) ++
      [GetJson (content_url page_id) storage_params;
       GetJson (history_url page_id) []].
Proof.
  intros Hpage Hdiff Hhist Herr.
  destruct (update_page_differs net symbol_normalizer page_id title body
              parent_id type representation minor_edit w page Hpage Hdiff)
    as (evs & R & E).
  assert (exists evs',
            requests evs' = [GetJson (history_url page_id) []] /\
            update_page net symbol_normalizer page_id title body parent_id type
              representation minor_edit w =
            (Ret VNone, after (after w evs) evs')) as (evs' & R' & ->).
  { eexists. split; [|rewrite E; unfold bind at 1].
    2: {
      rewrite (next_version_type_error net page_id title type (after w evs) h
                 Hhist Herr).
      reflexivity. }
    reflexivity. }
  unfold after. cbn [fst snd sent trace]. rewrite !requests_app, R, R'.
  split; [reflexivity | now rewrite <- app_assoc].
Qed.

Lemma update_page_without_version_witness :
  fst (update_page (with_history (stored_page (lit "<p>1.0</p>")) VNone)
         as_is (lit "1234") (lit "Release notes") (lit "<p>1.1</p>") None
         (lit "page") (lit "storage") false fresh) = Ret VNone /\
  requests (trace (snd (update_page
         (with_history (stored_page (lit "<p>1.0</p>")) VNone)
         as_is (lit "1234") (lit "Release notes") (lit "<p>1.1</p>") None
         (lit "page") (lit "storage") false fresh)))
    = requests (trace fresh) ++
      [GetJson (content_url (lit "1234")) storage_params;
       GetJson (history_url (lit "1234")) []].
Proof.
  apply (update_page_without_version
           (with_history (stored_page (lit "<p>1.0</p>")) VNone)
           as_is (lit "1234") (lit "Release notes") (lit "<p>1.1</p>") None
           (lit "page") (lit "storage") false fresh
           (stored_page (lit "<p>1.0</p>")) VNone).
  - reflexivity.
  - exists (VStr (lit "<p>1.0</p>")), (VStr (lit "<p>1.0</p>")).
    repeat split.
  - reflexivity.
  - left. reflexivity.
Defined.

(** When the stored content differs and the history is a dict without
    the [lastUpdated] key, or its [lastUpdated] entry a dict without the
    [number] key, the [KeyError] is not handled: [update_page] raises it,
    after the two GETs and without a write. *)
Theorem update_page_raises_key_error net symbol_normalizer page_id title body
    parent_id type representation minor_edit w page h :
  json_of net (sent w) (content_url page_id) storage_params = Received page ->
  differs symbol_normalizer page body ->
  json_of net (S (sent w)) (history_url page_id) [] = Received h ->
  version_key_error h ->
  fst (update_page net symbol_normalizer page_id title body parent_id type
         representation minor_edit w) = Raise KeyError /\
  requests (trace (snd (update_page net symbol_normalizer page_id title body
                          parent_id type representation minor_edit w)))
    = requests (trace w) ++
      [GetJson (content_url page_id) storage_params;
       GetJson (history_url page_id) []].
Proof.
  intros Hpage Hdiff Hhist Herr.
  destruct (update_page_differs net symbol_normalizer page_id title body
              parent_id type representation minor_edit w page Hpage Hdiff)
    as (evs & R & E).
  assert (exists evs',
            requests evs' = [GetJson (history_url page_id) []] /\
            update_page net symbol_normalizer page_id title body parent_id type
              representation minor_edit w =
            (Raise KeyError, after (after w evs) evs')) as (evs' & R' & ->).
  { eexists. split; [|rewrite E; unfold bind at 1].
    2: {
      rewrite (next_version_key_error net page_id title type (after w evs) h
                 Hhist Herr).
      reflexivity. }
    reflexivity. }
  unfold after. cbn [fst snd sent trace]. rewrite !requests_app, R, R'.
  split; [reflexivity | now rewrite <- app_assoc].
Qed.

Lemma update_page_key_error_witness :
  fst (update_page
         (with_history (stored_page (lit "<p>1.0</p>"))
            (VDict [(lit "message", VStr (lit "No content found"))]))
         as_is (lit "1234") (lit "Release notes") (lit "<p>1.1</p>") None
         (lit "page") (lit "storage") false fresh) = Raise KeyError /\
  requests (trace (snd (update_page
         (with_history (stored_page (lit "<p>1.0</p>"))
            (VDict [(lit "message", VStr (lit "No content found"))]))
         as_is (lit "1234") (lit "Release notes") (lit "<p>1.1</p>") None
         (lit "page") (lit "storage") false fresh)))
    = requests (trace fresh) ++
      [GetJson (content_url (lit "1234")) storage_params;
       GetJson (history_url (lit "1234")) []].
Proof.
  apply (update_page_raises_key_error
           (with_history (stored_page (lit "<p>1.0</p>"))
              (VDict [(lit "message", VStr (lit "No content found"))]))
           as_is (lit "1234") (lit "Release notes") (lit "<p>1.1</p>") None
           (lit "page") (lit "storage") false fresh
           (stored_page (lit "<p>1.0</p>"))
           (VDict [(lit "message", VStr (lit "No content found"))])).
  - reflexivity.
  - exists (VStr (lit "<p>1.0</p>")), (VStr (lit "<p>1.0</p>")).
    repeat split.
  - reflexivity.
  - left. eexists. split; reflexivity.
Defined.

(** A representation outside the five accepted ones is found out only
    after the page and its history have been read: [update_page] raises
    [ValueError] after the two GETs, and writes nothing. *)
Theorem update_page_rejects_representation net symbol_normalizer page_id title
    body parent_id type representation minor_edit w page h n :
  json_of net (sent w) (content_url page_id) storage_params = Received page ->
  differs symbol_normalizer page body ->
  json_of net (S (sent w)) (history_url page_id) [] = Received h ->
  last_updated h (VInt n) ->
  ~ In representation representations ->
  fst (update_page net symbol_normalizer page_id title body parent_id type
         representation minor_edit w) = Raise ValueError /\
  requests (trace (snd (update_page net symbol_normalizer page_id title body
                          parent_id type representation minor_edit w)))
    = requests (trace w) ++
      [GetJson (content_url page_id) storage_params;
       GetJson (history_url page_id) []].
Proof.
  intros Hpage Hdiff Hhist Hlast Hrep.
  destruct (update_page_differs net symbol_normalizer page_id title body
              parent_id type representation minor_edit w page Hpage Hdiff)
    as (evs & R & E).
  assert (existsb (eqb representation) representations = false) as Hno.
  { destruct (existsb _ _) eqn:Ex; [|reflexivity]. exfalso. apply Hrep.
    apply existsb_exists in Ex as (x & Hx & He).
    apply eqb_eq in He. now subst. }
  assert (update_page net symbol_normalizer page_id title body parent_id type
            representation minor_edit w =
          (Raise ValueError,
           after (after w evs) [Sent (GetJson (history_url page_id) [])]))
    as ->.
  { rewrite E. unfold bind at 1.
    rewrite (next_version_found net page_id title type (after w evs) h n
               Hhist Hlast).
    unfold _create_body. rewrite Hno. reflexivity. }
  unfold after. cbn [fst snd sent trace]. rewrite !requests_app, R.
  split; [reflexivity | now rewrite <- app_assoc].
Qed.

Lemma update_page_rejects_witness :
  fst (update_page (with_history (stored_page (lit "<p>1.0</p>")) (history_at 7))
         as_is (lit "1234") (lit "Release notes") (lit "<p>1.1</p>") None
         (lit "page") (lit "markdown") false fresh) = Raise ValueError /\
  requests (trace (snd (update_page
         (with_history (stored_page (lit "<p>1.0</p>")) (history_at 7))
         as_is (lit "1234") (lit "Release notes") (lit "<p>1.1</p>") None
         (lit "page") (lit "markdown") false fresh)))
    = requests (trace fresh) ++
      [GetJson (content_url (lit "1234")) storage_params;
       GetJson (history_url (lit "1234")) []].
Proof.
  apply (update_page_rejects_representation
           (with_history (stored_page (lit "<p>1.0</p>")) (history_at 7))
           as_is (lit "1234") (lit "Release notes") (lit "<p>1.1</p>") None
           (lit "page") (lit "markdown") false fresh
           (stored_page (lit "<p>1.0</p>")) (history_at 7) 7).
  - reflexivity.
  - exists (VStr (lit "<p>1.0</p>")), (VStr (lit "<p>1.0</p>")).
    repeat split.
  - reflexivity.
  - eexists _, _. repeat split.
  - vm_compute. intuition discriminate.
Defined.

(** Whatever the transport answers, [update_page] first reads the page,
    then either stops, or reads the page again and returns it, or reads the
    history; a PUT comes only after both reads, at most once, as the last
    request, and goes to the URL of the page. *)
Theorem update_page_writes_at_most_once net symbol_normalizer page_id title body
    parent_id type representation minor_edit w :
  exists rs,
    requests (trace (snd (update_page net symbol_normalizer page_id title body
                            parent_id type representation minor_edit w)))
    = requests (trace w) ++ rs /\
    update_requests page_id rs.
Proof.
  unfold update_page. rewrite bind_log. fold (updating title type).
  unfold bind at 1.
  destruct (is_already_updated_effects net symbol_normalizer page_id body
              (record w [updating title type])) as (o & e1 & -> & R1).
  rewrite after_record.
  set (w1 := after w ([updating title type] ++
                      Sent (GetJson (content_url page_id) storage_params) :: e1)).
  assert (requests (trace w1) =
          requests (trace w) ++
          [GetJson (content_url page_id) storage_params]) as Hw1.
  { unfold w1, after. cbn [trace]. rewrite requests_app.
    cbn [app requests updating]. now rewrite R1. }
  destruct o as [[|]|e|].
  - change (get_page_by_id net page_id None None None)
      with (get_json net (content_url page_id) []).
    unfold get_json.
    destruct (send_effect (GetJson (content_url page_id) [])
                (fun n => json_of net n (content_url page_id) []) w1) as [o ->].
    eexists. split; [|right; left; reflexivity].
    unfold after. cbn [snd trace]. rewrite requests_app, Hw1.
    now rewrite <- app_assoc.
  - unfold bind at 1.
    destruct (next_version_effects net page_id title type w1)
      as (o & e2 & -> & R2).
    assert (requests (trace (after w1
              (Sent (GetJson (history_url page_id) []) :: e2))) =
            requests (trace w) ++
            [GetJson (content_url page_id) storage_params;
             GetJson (history_url page_id) []]) as Hw2.
    { unfold after at 1. cbn [trace]. rewrite requests_app, Hw1.
      cbn [requests]. now rewrite R2, <- app_assoc. }
    destruct o as [[version|]|e|];
      try (eexists; split; [exact Hw2 | right; right; left; reflexivity]).
    unfold _create_body.
    destruct (existsb (eqb representation) representations);
      [|eexists; split; [exact Hw2 | right; right; left; reflexivity]].
    unfold put_json.
    match goal with
    | |- context [send ?r ?f ?w2] =>
        destruct (send_effect r f w2) as [o ->]
    end.
    eexists. split; [|right; right; right; eexists; reflexivity].
    unfold after at 1. cbn [snd trace]. rewrite requests_app, Hw2.
    now rewrite <- app_assoc.
  - eexists. split; [exact Hw1 | left; reflexivity].
  - eexists. split; [exact Hw1 | left; reflexivity].
Qed.

Import PyStrMore.

(** The replacement [append_page] applies to the previous body leaves no
    [&oacute;] in it, changes nothing in a text without [&oacute;], and
    in a text with one [&oacute;] puts the letter in its place. *)
Theorem oacute_is_replaced (s : str) :
  ~ occurs oacute_entity (replace oacute_entity oacute_letter s) /\
  (~ occurs oacute_entity s -> replace oacute_entity oacute_letter s = s) /\
  (forall a b,
     s = a ++ oacute_entity ++ b ->
     ~ occurs oacute_entity a -> ~ occurs oacute_entity b ->
     replace oacute_entity oacute_letter s = a ++ oacute_letter ++ b).
Proof.
  unfold replace. split; [|split].
  - apply join_free.
    + intros H. vm_compute in H.
      repeat (destruct H as [H|H]; [discriminate H|]). exact H.
    + intros p. apply split_parts_free. discriminate.
    + apply split_not_nil. discriminate.
  - intros H. rewrite split_absent; [reflexivity | discriminate | exact H].
  - intros a b -> Ha Hb.
    rewrite split_unfold by discriminate.
    rewrite partition_first_unbordered by (reflexivity || exact Ha).
    rewrite split_absent; [reflexivity | discriminate | exact Hb].
Qed.

Lemma oacute_is_replaced_witness :
  replace oacute_entity oacute_letter (lit "Cami&oacute;n") =
  lit "Cami" ++ oacute_letter ++ lit "n".
Proof.
  destruct (oacute_is_replaced (lit "Cami&oacute;n")) as (_ & _ & H).
  apply (H (lit "Cami") (lit "n")).
  - reflexivity.
  - apply partition_none. reflexivity.
  - apply partition_none. reflexivity.
Defined.

(** [append_page] up to the history lookup, when the content differs
    from the text to append. *)
Lemma append_page_differs net symbol_normalizer page_id title append_body
    parent_id type representation minor_edit w page :
  json_of net (sent w) (content_url page_id) storage_params = Received page ->
  differs symbol_normalizer page append_body ->
  exists evs,
    requests evs = [GetJson (content_url page_id) storage_params] /\
    forall h,
      json_of net (S (sent w)) (history_url page_id) [] = Received h ->
      exists k,
        append_page net symbol_normalizer page_id title append_body parent_id
          type representation minor_edit w =
        k h (after (after w evs) [Sent (GetJson (history_url page_id) [])]) /\
        k = (fun h =>
          subscript h (lit "lastUpdated") (fun last =>
          subscript last (lit "number") (fun number =>
          plus_one number (fun version =>
          page <- get_page_by_id net page_id (Some (lit "body.storage")) None None ;;
          dict_get page (lit "body") (fun b =>
          dict_get (or_empty b) (lit "storage") (fun st =>
          dict_get st (lit "value") (fun previous_body =>
          str_replace previous_body oacute_entity oacute_letter
            (fun previous_body =>
          let body := previous_body ++ append_body in
          _create_body body representation (fun body_dict =>
          let data :=
            [(lit "id", VStr page_id);
             (lit "type", VStr type);
             (lit "title", VStr title);
             (lit "body", body_dict);
             (lit "version", VDict [(lit "number", version);
                                    (lit "minorEdit", VBool minor_edit)])] in
          let data :=
            match parent_id with
            | Some ((_ :: _) as p) =>
                data ++ [(lit "ancestors",
                          VList [VDict [(lit "type", VStr (lit "page"));
                                        (lit "id", VStr p)]])]
            | _ => data
            end in
          put_json net (lit "rest/api/content/" ++ page_id) (VDict data)))))))))).
Proof.
  intros Hnet (content & compared & Hc & Hn & He).
  exists (updating title type
          :: Sent (GetJson (content_url page_id) storage_params)
          :: comparison page_id append_body compared).
  split; [unfold comparison; destruct (equals_text compared append_body);
          reflexivity|].
  intros h Hh. eexists. split; [|reflexivity].
  unfold append_page. rewrite bind_log. unfold bind at 1.
  fold (updating title type).
  rewrite (is_already_updated_run net symbol_normalizer page_id append_body
             (record w [updating title type]) page Hnet).
  rewrite Hc, Hn, He, after_record.
  unfold history, get_json.
  rewrite bind_send with (a := h) by exact Hh. reflexivity.
Qed.

(** When the stored content differs from the text to append, the
    history gives the number [n], and the page read again stores the text
    [previous], [append_page] ends with one PUT to the page's URL and
    returns what the PUT returns.  The body sent is [previous], with
    [&oacute;] replaced, followed by the text to append; the version is
    [n + 1]. *)
Theorem append_page_appends net symbol_normalizer page_id title append_body
    parent_id type representation minor_edit w page h n again previous :
  json_of net (sent w) (content_url page_id) storage_params = Received page ->
  differs symbol_normalizer page append_body ->
  json_of net (S (sent w)) (history_url page_id) [] = Received h ->
  last_updated h (VInt n) ->
  json_of net (S (S (sent w))) (content_url page_id) storage_params
    = Received again ->
  stores again (VStr previous) ->
  In representation representations ->
  exists data w',
    append_page net symbol_normalizer page_id title append_body parent_id type
      representation minor_edit w =
    put_json net (content_url page_id) (VDict data) w' /\
    sent w' = S (S (S (sent w))) /\
    requests (trace w') =
      requests (trace w) ++
      [GetJson (content_url page_id) storage_params;
       GetJson (history_url page_id) [];
       GetJson (content_url page_id) storage_params] /\
    lookup (lit "body") data =
      Some (VDict [(representation,
                    VDict [(lit "value",
                            VStr (replace oacute_entity oacute_letter previous
                                  ++ append_body));
                           (lit "representation", VStr representation)])]) /\
    lookup (lit "version") data =
      Some (VDict [(lit "number", VInt (n + 1));
                   (lit "minorEdit", VBool minor_edit)]).
Proof.
  intros Hpage Hdiff Hhist (hi & last & -> & Hl & Hnum) Hagain
    (items & b & st & -> & Hb & Hst & Hv) Hrep.
  destruct (append_page_differs net symbol_normalizer page_id title append_body
              parent_id type representation minor_edit w page Hpage Hdiff)
    as (evs & R & H).
  destruct (H _ Hhist) as (k & -> & ->). clear H.
  cbn [subscript]. rewrite Hl. cbn [subscript]. rewrite Hnum. cbn [plus_one].
  change (get_page_by_id net page_id (Some (lit "body.storage")) None None)
    with (get_json net (content_url page_id) storage_params).
  unfold get_json. rewrite bind_send with (a := VDict items) by exact Hagain.
  cbn [dict_get]. rewrite Hb.
  assert (or_empty (VDict b) = VDict b) as ->.
  { destruct b; [discriminate Hst | reflexivity]. }
  cbn [dict_get]. rewrite Hst. cbn [dict_get]. rewrite Hv.
  cbn [str_replace]. unfold _create_body.
  assert (existsb (eqb representation) representations = true) as ->.
  { apply existsb_exists. exists representation. split; [exact Hrep|].
    apply eqb_refl. }
  eexists. eexists. split; [reflexivity|].
  split; [reflexivity|]. split.
  { unfold after. cbn [sent trace]. rewrite !requests_app, R.
    now rewrite <- !app_assoc. }
  destruct parent_id as [[|c p]|]; repeat split.
Qed.

Lemma append_page_appends_witness :
  exists data w',
    append_page (with_history (stored_page (lit "Cami&oacute;n")) (history_at 7))
      as_is (lit "1234") (lit "Release notes") (lit " rojo") None
      (lit "page") (lit "storage") false fresh =
    put_json (with_history (stored_page (lit "Cami&oacute;n")) (history_at 7))
      (content_url (lit "1234")) (VDict data) w' /\
    sent w' = S (S (S (sent fresh))) /\
    requests (trace w') =
      requests (trace fresh) ++
      [GetJson (content_url (lit "1234")) storage_params;
       GetJson (history_url (lit "1234")) [];
       GetJson (content_url (lit "1234")) storage_params] /\
    lookup (lit "body") data =
      Some (VDict [(lit "storage",
                    VDict [(lit "value",
                            VStr (replace oacute_entity oacute_letter
                                    (lit "Cami&oacute;n") ++ lit " rojo"));
                           (lit "representation", VStr (lit "storage"))])]) /\
    lookup (lit "version") data =
      Some (VDict [(lit "number", VInt (7 + 1));
                   (lit "minorEdit", VBool false)]).
Proof.
  apply (append_page_appends
           (with_history (stored_page (lit "Cami&oacute;n")) (history_at 7))
           as_is (lit "1234") (lit "Release notes") (lit " rojo") None
           (lit "page") (lit "storage") false fresh
           (stored_page (lit "Cami&oacute;n")) (history_at 7) 7
           (stored_page (lit "Cami&oacute;n")) (lit "Cami&oacute;n")).
  - reflexivity.
  - exists (VStr (lit "Cami&oacute;n")), (VStr (lit "Cami&oacute;n")).
    repeat split.
  - reflexivity.
  - eexists _, _. repeat split.
  - reflexivity.
  - eexists _, _, _. repeat split.
  - vm_compute. tauto.
Defined.

(** When the stored content is, normalized, the very text to append,
    [append_page] appends nothing: it reads the page again, returns it,
    and sends no PUT. *)
Theorem append_page_skips_same_text net symbol_normalizer page_id title
    append_body parent_id type representation minor_edit w page content :
  json_of net (sent w) (content_url page_id) storage_params = Received page ->
  stored_content page = Received content ->
  normalized_content symbol_normalizer content = Received (VStr append_body) ->
  exists w',
    append_page net symbol_normalizer page_id title append_body parent_id type
      representation minor_edit w =
    get_page_by_id net page_id None None None w' /\
    sent w' = S (sent w) /\
    requests (trace w') =
      requests (trace w) ++ [GetJson (content_url page_id) storage_params].
Proof.
  intros Hnet Hc Hn.
  exists (after w (updating title type
                   :: Sent (GetJson (content_url page_id) storage_params)
                   :: comparison page_id append_body (VStr append_body))).
  split; [|split].
  - unfold append_page. rewrite bind_log. unfold bind at 1.
    fold (updating title type).
    rewrite (is_already_updated_run net symbol_normalizer page_id append_body
               (record w [updating title type]) page Hnet).
    rewrite Hc, Hn. cbn [equals_text]. rewrite eqb_refl, after_record.
    reflexivity.
  - reflexivity.
  - unfold after. cbn [sent trace].
    rewrite !requests_app. unfold comparison. cbn [equals_text].
    rewrite eqb_refl. reflexivity.
Qed.

Lemma append_page_skips_witness :
  exists w',
    append_page (serving (stored_page (lit "<p>1.0</p>"))) as_is
      (lit "1234") (lit "Release notes") (lit "<p>1.0</p>") None
      (lit "page") (lit "storage") false fresh =
    get_page_by_id (serving (stored_page (lit "<p>1.0</p>"))) (lit "1234")
      None None None w' /\
    sent w' = S (sent fresh) /\
    requests (trace w') =
      requests (trace fresh) ++
      [GetJson (content_url (lit "1234")) storage_params].
Proof.
  apply (append_page_skips_same_text
           (serving (stored_page (lit "<p>1.0</p>"))) as_is
           (lit "1234") (lit "Release notes") (lit "<p>1.0</p>") None
           (lit "page") (lit "storage") false fresh
           (stored_page (lit "<p>1.0</p>")) (VStr (lit "<p>1.0</p>"))).
  - reflexivity.
  - reflexivity.
  - reflexivity.
Defined.

(** Where [update_page] returns [None], [append_page] raises: the
    version is computed outside any handler, so a history, or a
    [lastUpdated] entry, that is not a dict, or a number that is not one,
    makes [append_page] raise [TypeError] after two GETs, with no write. *)
Theorem append_page_raises_type_error net symbol_normalizer page_id title
    append_body parent_id type representation minor_edit w page h :
  json_of net (sent w) (content_url page_id) storage_params = Received page ->
  differs symbol_normalizer page append_body ->
  json_of net (S (sent w)) (history_url page_id) [] = Received h ->
  version_type_error h ->
  fst (append_page net symbol_normalizer page_id title append_body parent_id
         type representation minor_edit w) = Raise TypeError /\
  requests (trace (snd (append_page net symbol_normalizer page_id title
                          append_body parent_id type representation
                          minor_edit w)))
    = requests (trace w) ++
      [GetJson (content_url page_id) storage_params;
       GetJson (history_url page_id) []].
Proof.
  intros Hpage Hdiff Hhist Herr.
  destruct (append_page_differs net symbol_normalizer page_id title append_body
              parent_id type representation minor_edit w page Hpage Hdiff)
    as (evs & R & H).
  destruct (H _ Hhist) as (k & -> & ->). clear H.
  assert (forall A (c : value -> M A) w1,
            subscript h (lit "lastUpdated") (fun last =>
            subscript last (lit "number") (fun number =>
            plus_one number c)) w1 = (Raise TypeError, w1)) as E.
  { intros A c w1.
    destruct Herr as [Hd | [(items & last & -> & Hl & Hd)
                           | (number & (items & last & -> & Hl & Hn) & Hd)]].
    - destruct h; try reflexivity; discriminate Hd.
    - cbn [subscript]. rewrite Hl. destruct last; try reflexivity; discriminate Hd.
    - cbn [subscript]. rewrite Hl. cbn [subscript]. rewrite Hn.
      destruct number; try reflexivity; discriminate Hd. }
  rewrite E. unfold after. cbn [fst snd sent trace].
  rewrite !requests_app, R. split; [reflexivity | now rewrite <- app_assoc].
Qed.

Lemma append_page_raises_witness :
  fst (append_page (with_history (stored_page (lit "<p>1.0</p>")) VNone)
         as_is (lit "1234") (lit "Release notes") (lit "<p>more</p>") None
         (lit "page") (lit "storage") false fresh) = Raise TypeError /\
  requests (trace (snd (append_page
         (with_history (stored_page (lit "<p>1.0</p>")) VNone)
         as_is (lit "1234") (lit "Release notes") (lit "<p>more</p>") None
         (lit "page") (lit "storage") false fresh)))
    = requests (trace fresh) ++
      [GetJson (content_url (lit "1234")) storage_params;
       GetJson (history_url (lit "1234")) []].
Proof.
  apply (append_page_raises_type_error
           (with_history (stored_page (lit "<p>1.0</p>")) VNone)
           as_is (lit "1234") (lit "Release notes") (lit "<p>more</p>") None
           (lit "page") (lit "storage") false fresh
           (stored_page (lit "<p>1.0</p>")) VNone).
  - reflexivity.
  - exists (VStr (lit "<p>1.0</p>")), (VStr (lit "<p>1.0</p>")).
    repeat split.
  - reflexivity.
  - left. reflexivity.
Defined.

End PagesMoreClaims.

(** ** Looking pages up *)

Module LookupClaims.

Import Pages PagesSpec PagesMore PagesMoreSpec PagesMoreFacts LookupSpec.
Import PyStrMore.

Lemma search_request net base_url advanced_mode space title :
  get_page_by_title net base_url advanced_mode (Some space) (Some title)
    (Some 0%Z) (Some 1%Z) None =
  if advanced_mode
  then get_json net search_url (search_params space title)
  else
    try_except
      (r <- get_json net search_url (search_params space title) ;;
       dict_get (or_empty r) (lit "results") (fun results =>
       first_item results (fun page => ret page)))
      (on_no_result base_url (Some title)).
Proof. reflexivity. Qed.

Lemma has_results_get r results :
  has_results r results ->
  get_of (or_empty r) (lit "results") = Received (VList results).
Proof.
  intros (items & -> & H).
  destruct items as [|x items]; [discriminate H|].
  cbn [or_empty truthy get_of]. now rewrite H.
Qed.

(** The search outside advanced mode: the first result, or [None] when
    there is none. *)
Lemma get_page_by_title_first net base_url space title w r results :
  json_of net (sent w) search_url (search_params space title) = Received r ->
  has_results r results ->
  exists evs,
    requests evs = [GetJson search_url (search_params space title)] /\
    get_page_by_title net base_url false (Some space) (Some title)
      (Some 0%Z) (Some 1%Z) None w =
    (Ret (match results with x :: _ => x | [] => VNone end), after w evs).
Proof.
  intros Hnet Hres. rewrite search_request. cbv iota.
  unfold get_json.
  destruct results as [|x results].
  - eexists. split.
    2: { erewrite try_except_caught with (e := IndexError); [|
           rewrite bind_send with (a := r) by exact Hnet;
           rewrite dict_get_of, (has_results_get r [] Hres); reflexivity
         | reflexivity ].
         rewrite !bind_log, record_record, record_after. reflexivity. }
    reflexivity.
  - eexists. split.
    2: { apply try_except_ret.
         rewrite bind_send with (a := r) by exact Hnet.
         rewrite dict_get_of, (has_results_get r _ Hres). reflexivity. }
    reflexivity.
Qed.

(** Outside advanced mode [page_exists] answers by the first result of
    the search: [True] when there is one and it is truthy, [False] when
    the list of results is empty.  It sends the one search request. *)
Theorem page_exists_by_first_result net base_url space title w r results :
  json_of net (sent w) search_url (search_params space title) = Received r ->
  has_results r results ->
  fst (page_exists net base_url false space title w) =
    Ret (match results with x :: _ => truthy x | [] => false end) /\
  requests (trace (snd (page_exists net base_url false space title w))) =
    requests (trace w) ++ [GetJson search_url (search_params space title)].
Proof.
  intros Hnet Hres.
  destruct (get_page_by_title_first net base_url space title w r results
              Hnet Hres) as (evs & R & E).
  assert (exists evs',
            requests evs' = [] /\
            page_exists net base_url false space title w =
            (Ret (match results with x :: _ => truthy x | [] => false end),
             after w (evs ++ evs'))) as (evs' & R' & ->).
  { unfold page_exists.
    destruct results as [|x results].
    - eexists. split.
      2: { apply try_except_ret. unfold bind at 1. rewrite E.
           cbn [truthy]. rewrite bind_log, record_after. reflexivity. }
      reflexivity.
    - destruct (truthy x) eqn:Hx.
      + eexists. split.
        2: { apply try_except_ret. unfold bind at 1. rewrite E, Hx.
             rewrite bind_log, record_after. reflexivity. }
        reflexivity.
      + eexists. split.
        2: { apply try_except_ret. unfold bind at 1. rewrite E, Hx.
             rewrite bind_log, record_after. reflexivity. }
        reflexivity. }
  unfold after. cbn [fst snd trace].
  rewrite !requests_app, R, R', app_nil_r. split; reflexivity.
Qed.

Lemma page_exists_witness :
  fst (page_exists (serving (found (lit "1234"))) (lit "https://wiki.example.com")
         false (lit "DOC") (lit "Release notes") fresh) =
    Ret (truthy (VDict [(lit "id", VStr (lit "1234"));
                        (lit "type", VStr (lit "page"))])) /\
  requests (trace (snd (page_exists (serving (found (lit "1234")))
                          (lit "https://wiki.example.com")
                          false (lit "DOC") (lit "Release notes") fresh))) =
    requests (trace fresh) ++
    [GetJson search_url (search_params (lit "DOC") (lit "Release notes"))].
Proof.
  apply (page_exists_by_first_result
           (serving (found (lit "1234"))) (lit "https://wiki.example.com")
           (lit "DOC") (lit "Release notes") fresh (found (lit "1234"))
           [VDict [(lit "id", VStr (lit "1234"));
                   (lit "type", VStr (lit "page"))]]).
  - reflexivity.
  - eexists. split; reflexivity.
Defined.

(** An [HTTPError] of the search does not leave [page_exists]: in either
    mode it answers [False]. *)
Theorem page_exists_swallows_http_errors net base_url advanced_mode space title
    w msg :
  json_of net (sent w) search_url (search_params space title)
    = Failed (HTTPError msg) ->
  fst (page_exists net base_url advanced_mode space title w) = Ret false.
Proof.
  intros Hnet.
  assert (get_page_by_title net base_url advanced_mode (Some space) (Some title)
            (Some 0%Z) (Some 1%Z) None w =
          (Raise (HTTPError msg),
           after w [Sent (GetJson search_url (search_params space title))]))
    as E.
  { rewrite search_request. unfold get_json. destruct advanced_mode.
    - unfold send. rewrite Hnet. reflexivity.
    - apply try_except_passed; [|reflexivity].
      now rewrite bind_send_failed with (e := HTTPError msg). }
  unfold page_exists.
  erewrite try_except_caught with (e := HTTPError msg);
    [| unfold bind at 1; rewrite E; reflexivity | reflexivity ].
  rewrite bind_log. reflexivity.
Qed.

Lemma page_exists_swallows_witness :
  fst (page_exists
         (Outage.failing_at 0 (HTTPError (lit "401 Client Error"))
            (serving (found (lit "1234"))))
         (lit "https://wiki.example.com") false (lit "DOC")
         (lit "Release notes") fresh) = Ret false.
Proof.
  apply (page_exists_swallows_http_errors
           (Outage.failing_at 0 (HTTPError (lit "401 Client Error"))
              (serving (found (lit "1234"))))
           (lit "https://wiki.example.com") false (lit "DOC")
           (lit "Release notes") fresh (lit "401 Client Error")).
  reflexivity.
Defined.

(** Outside advanced mode [get_page_id] returns the [id] of the first
    result of the search, and [None] when the first result has no [id]
    or the list of results is empty; it raises nothing in these cases. *)
Theorem get_page_id_of_first_result net base_url space title w r results :
  json_of net (sent w) search_url (search_params space title) = Received r ->
  has_results r results ->
  (results = [] ->
   fst (get_page_id net base_url false space title w) = Ret VNone) /\
  (forall items rest,
     results = VDict items :: rest ->
     fst (get_page_id net base_url false space title w) =
     Ret (match lookup (lit "id") items with Some id => id | None => VNone end)).
Proof.
  intros Hnet Hres.
  destruct (get_page_by_title_first net base_url space title w r results
              Hnet Hres) as (evs & R & E).
  unfold get_page_id, bind. rewrite E. split.
  - intros ->. reflexivity.
  - intros items rest ->. destruct items; reflexivity.
Qed.

Lemma get_page_id_witness :
  fst (get_page_id (serving (found (lit "1234"))) (lit "https://wiki.example.com")
         false (lit "DOC") (lit "Release notes") fresh) = Ret (VStr (lit "1234")).
Proof.
  destruct (get_page_id_of_first_result
              (serving (found (lit "1234"))) (lit "https://wiki.example.com")
              (lit "DOC") (lit "Release notes") fresh (found (lit "1234"))
              [VDict [(lit "id", VStr (lit "1234"));
                      (lit "type", VStr (lit "page"))]]) as [_ H].
  - reflexivity.
  - eexists. split; reflexivity.
  - apply (H [(lit "id", VStr (lit "1234")); (lit "type", VStr (lit "page"))] []).
    reflexivity.
Defined.

Lemma contains_occurs (s t : str) : contains s t = true <-> occurs s t.
Proof.
  unfold contains. destruct (partition s t) as [[a b]|] eqn:P.
  - split; [intros _ | reflexivity].
    apply partition_some in P. now exists a, b.
  - split; [discriminate|]. intros H. apply partition_none in P. contradiction.
Qed.

(** For a page with a text view body and text links,
    [has_unknown_attachment_error] returns the link to the page, [base]
    followed by [tinyui], when the view body contains the placeholder of an
    unknown attachment, and the empty text when it does not. *)
Theorem unknown_attachment_link net page_id w page text base tinyui :
  json_of net (sent w) (content_url page_id) view_params = Received page ->
  views page text base tinyui ->
  (occurs unknown_attachment_identifier text ->
   fst (has_unknown_attachment_error net page_id w) = Ret (VStr (base ++ tinyui))) /\
  (~ occurs unknown_attachment_identifier text ->
   fst (has_unknown_attachment_error net page_id w) = Ret (VStr [])).
Proof.
  intros Hnet (items & body & view & links & -> & Hb & Hv & Ht & Hl & Hbase & Htiny).
  assert (forall d k v, lookup k d = Some v -> or_empty (VDict d) = VDict d) as Hor.
  { intros [|x d] k v H; [discriminate | reflexivity]. }
  assert (fst (has_unknown_attachment_error net page_id w) =
          Ret (VStr (if contains unknown_attachment_identifier text
                     then base ++ tinyui else []))) as E.
  { unfold has_unknown_attachment_error.
    change (get_page_by_id net page_id (Some (lit "body.view")) None None)
      with (get_json net (content_url page_id) view_params).
    unfold get_json. rewrite bind_send with (a := VDict items) by exact Hnet.
    assert (Nat.eqb (List.length items) 0 = false) as Hlen.
    { destruct items; [discriminate Hb | reflexivity]. }
    cbn [len]. rewrite Hlen.
    cbn [dict_get]. rewrite Hb, (Hor body _ _ Hv).
    cbn [dict_get]. rewrite Hv, (Hor view _ _ Ht).
    cbn [dict_get]. rewrite Ht.
    destruct text as [|c text].
    - cbn [or_empty truthy is_in lookup]. reflexivity.
    - cbn [or_empty truthy is_in].
      destruct (contains unknown_attachment_identifier (c :: text));
        [|reflexivity].
      cbn [dict_get]. rewrite Hl. cbn [dict_get]. rewrite Hbase.
      cbn [dict_get]. rewrite Htiny. reflexivity. }
  rewrite E. split; intros H.
  - apply contains_occurs in H. now rewrite H.
  - destruct (contains unknown_attachment_identifier text) eqn:C; [|reflexivity].
    apply contains_occurs in C. contradiction.
Qed.

Lemma unknown_attachment_witness :
  fst (has_unknown_attachment_error
         (serving (viewed (lit "<img src=/plugins/servlet/confluence/placeholder/unknown-attachment?locale=en>")))
         (lit "1234") fresh)
  = Ret (VStr (lit "https://wiki.example.com" ++ lit "/x/AbC")).
Proof.
  destruct (unknown_attachment_link
              (serving (viewed (lit "<img src=/plugins/servlet/confluence/placeholder/unknown-attachment?locale=en>")))
              (lit "1234") fresh
              (viewed (lit "<img src=/plugins/servlet/confluence/placeholder/unknown-attachment?locale=en>"))
              (lit "<img src=/plugins/servlet/confluence/placeholder/unknown-attachment?locale=en>")
              (lit "https://wiki.example.com") (lit "/x/AbC")) as [H _].
  - reflexivity.
  - eexists _, _, _, _. repeat split.
  - apply H. exists (lit "<img src=/"), (lit "?locale=en>"). reflexivity.
Defined.

(** [has_unknown_attachment_error] takes [len] of what the request
    returns: a page that was not found ([None]) makes it raise
    [TypeError], an empty dict makes it return the empty text. *)
Theorem unknown_attachment_without_page net page_id w page :
  json_of net (sent w) (content_url page_id) view_params = Received page ->
  (page = VNone ->
   fst (has_unknown_attachment_error net page_id w) = Raise TypeError) /\
  (page = VDict [] ->
   fst (has_unknown_attachment_error net page_id w) = Ret (VStr [])).
Proof.
  intros Hnet. unfold has_unknown_attachment_error.
  change (get_page_by_id net page_id (Some (lit "body.view")) None None)
    with (get_json net (content_url page_id) view_params).
  unfold get_json. rewrite bind_send with (a := page) by exact Hnet.
  split; intros ->; reflexivity.
Qed.

Lemma unknown_attachment_without_page_witness :
  fst (has_unknown_attachment_error (serving VNone) (lit "1234") fresh)
  = Raise TypeError.
Proof.
  destruct (unknown_attachment_without_page (serving VNone) (lit "1234") fresh
              VNone) as [H _].
  - reflexivity.
  - apply H. reflexivity.
Defined.

End LookupClaims.

(** ** Exporting a page as PDF *)

Module PdfExportClaims.

Import Poller PollerSpec PollerFacts Scenario PdfExport PdfExportSpec LookupSpec.

(** A call that receives a complete and successful document at poll [k]
    ends there, with [k + 1] polls and as many sleeps behind it. *)
Lemma get_pdf_resolves net url w t k doc l3 l7 l8 path rounds :
  polled net url w t k doc ->
  line doc 8 = Some l8 -> strip l8 = complete_true ->
  line doc 7 = Some l7 -> strip l7 = successful_true ->
  line doc 3 = Some l3 -> download_path_of l3 = Some path ->
  k < rounds ->
  exists w',
    get_pdf_download_url_for_confluence_cloud net rounds url w
      = (Ret (Some path), w') /\
    sent w' = S (sent w) + S k /\
    requests (trace w') =
      requests (trace w) ++
      GetContent url :: repeat (GetContent (poll_prefix ++ t)) (S k) /\
    sleeps (trace w') = sleeps (trace w) ++ repeat 5%Z (S k).
Proof.
  intros [Hr Hdoc] H8 Hc H7 Ht H3 Hpath Hk.
  destruct (get_pdf_reaches net url w t k Hr) as (evs & E & R & Sl).
  specialize (E (S (rounds - S k))).
  replace (k + S (rounds - S k)) with rounds in E by lia.
  set (wk := {| sent := S (sent w) + k;
                trace := trace w ++ initiating url ++ evs |}) in *.
  destruct (line_before doc 6 8 l8 H8) as [l6 H6]; [lia|].
  pose proof (poll_loop_successful net (rounds - S k) (poll_prefix ++ t) wk doc
                l3 l6 l7 l8 Hdoc H3 H6 H7 H8 Hc Ht) as P.
  rewrite Hpath in P.
  eexists. split; [rewrite E; apply try_except_ret; exact P|].
  unfold after, wk. cbn [sent trace].
  rewrite !requests_app, !sleeps_app, R, Sl.
  cbn [requests sleeps initiating poll_and_sleep downloading app].
  split; [lia|]. split.
  - rewrite <- !app_assoc. cbn [app]. now rewrite <- repeat_cons.
  - rewrite <- !app_assoc. now rewrite <- repeat_cons.
Qed.

(** In cloud mode [get_page_as_pdf] downloads what the poller resolves
    to: when poll [k] is answered by a complete and successful document
    whose line 3 carries the href marker once, followed by [path], the
    request after that poll is a GET of [path], and its body is what
    [get_page_as_pdf] returns. *)
Theorem cloud_export_downloads_the_path net get_nowhere page_id w t k doc
    l7 l8 pre path post rounds pdf :
  polled net (pdf_export_url page_id) w t k doc ->
  line doc 8 = Some l8 -> strip l8 = complete_true ->
  line doc 7 = Some l7 -> strip l7 = successful_true ->
  line doc 3 = Some (pre ++ href_marker ++ path ++ quot ++ post) ->
  ~ occurs href_marker pre ->
  ~ occurs href_marker (path ++ quot ++ post) ->
  ~ occurs quot path ->
  k < rounds ->
  content_of net (S (sent w) + S k) path = Received pdf ->
  fst (get_page_as_pdf net (lit "cloud") get_nowhere rounds page_id w) = Ret pdf /\
  requests (trace (snd (get_page_as_pdf net (lit "cloud") get_nowhere rounds
                          page_id w)))
    = requests (trace w) ++
      GetContent (pdf_export_url page_id) ::
      repeat (GetContent (poll_prefix ++ t)) (S k) ++ [GetContent path].
Proof.
  intros Hp H8 Hc H7 Ht H3 Hpre Hrest Hpath Hk Hpdf.
  destruct (get_pdf_resolves net (pdf_export_url page_id) w t k doc _ l7 l8 path
              rounds Hp H8 Hc H7 Ht H3
              (PollerMore.download_path_of_link pre path post Hpre Hrest Hpath)
              Hk) as (w' & E & Hs & R & _).
  assert (get_page_as_pdf net (lit "cloud") get_nowhere rounds page_id w =
          (Ret pdf, after w' [Sent (GetContent path)])) as ->.
  { unfold get_page_as_pdf. rewrite eqb_refl. fold (pdf_export_url page_id).
    unfold bind. rewrite E. unfold get_content, send.
    rewrite <- Hs in Hpdf. rewrite Hpdf. reflexivity. }
  split; [reflexivity|].
  unfold after. cbn [snd trace]. rewrite requests_app, R.
  rewrite <- app_assoc. reflexivity.
Qed.

Lemma cloud_export_witness :
  fst (get_page_as_pdf cloud (lit "cloud") nowhere 5 (lit "1") w0)
    = Ret (ascii_bytes "%PDF-1.4") /\
  requests (trace (snd (get_page_as_pdf cloud (lit "cloud") nowhere 5
                          (lit "1") w0)))
    = requests (trace w0) ++
      GetContent (pdf_export_url (lit "1")) ::
      repeat (GetContent (poll_prefix ++ lit "42")) 2 ++
      [GetContent (lit "reports/x.pdf")].
Proof.
  apply (cloud_export_downloads_the_path cloud nowhere (lit "1") w0 (lit "42") 1
           (text_of succeeded)
           (lit "  <isSuccessful>true</isSuccessful>")
           (lit "  <isComplete>true</isComplete>")
           (lit "  <currentStatus>") (lit "reports/x.pdf")
           (lit ";</currentStatus>") 5 (ascii_bytes "%PDF-1.4")).
  - split; [split|].
    + exists (text_of started). split; [|reflexivity].
      exists started. split; reflexivity.
    + intros i Hi. exists (text_of in_progress).
      destruct i as [|i]; [|lia]. split.
      * exists in_progress. split; reflexivity.
      * left. eexists. split; [vm_compute; reflexivity|]. vm_compute. discriminate.
    + exists succeeded. split; reflexivity.
  - reflexivity.
  - reflexivity.
  - reflexivity.
  - reflexivity.
  - reflexivity.
  - apply partition_none. reflexivity.
  - apply partition_none. reflexivity.
  - apply partition_none. reflexivity.
  - lia.
  - reflexivity.
Defined.

(** In cloud mode, when the export page carries no task identifier, the
    poller's [None] is not looked at: [get_page_as_pdf] goes on to
    [self.get] with [None] as the path. *)
Theorem cloud_export_without_task net get_nowhere page_id w text rounds :
  answers net (sent w) (pdf_export_url page_id) text ->
  ~ occurs task_marker text ->
  get_page_as_pdf net (lit "cloud") get_nowhere rounds page_id w =
  get_nowhere
    (after w (initiating (pdf_export_url page_id)
              ++ [Logged ERROR (Exc IndexError)])).
Proof.
  intros (bs & Hnet & Hdec) Habsent.
  assert (export_and_poll net rounds (pdf_export_url page_id) w =
          (Raise IndexError, after w (initiating (pdf_export_url page_id)))) as E.
  { unfold export_and_poll, get_content. rewrite bind_log.
    rewrite bind_send with (a := bs) by exact Hnet.
    unfold decode_strict. rewrite Hdec, after_record.
    rewrite split_absent; [reflexivity | discriminate | exact Habsent]. }
  unfold get_page_as_pdf. rewrite eqb_refl. fold (pdf_export_url page_id).
  unfold bind, get_pdf_download_url_for_confluence_cloud.
  rewrite (try_except_caught _ _ _ _ _ _ E eq_refl).
  rewrite bind_log, record_after. reflexivity.
Qed.

Lemma cloud_export_without_task_witness :
  get_page_as_pdf (scripted not_started [] not_started) (lit "cloud") nowhere 5
    (lit "1") w0 =
  nowhere (after w0 (initiating (pdf_export_url (lit "1"))
                     ++ [Logged ERROR (Exc IndexError)])).
Proof.
  apply (cloud_export_without_task (scripted not_started [] not_started) nowhere
           (lit "1") w0 (text_of not_started) 5).
  - exists not_started. split; reflexivity.
  - apply partition_none. vm_compute. reflexivity.
Defined.

End PdfExportClaims.
